(** * aws-k8s-tester: node waiter, hollow-nodes tester and NLB hello-world tester

    A shallow embedding of
    - [eks/mng/wait/wait.go]: [waitForNodes] (the lookup of the node group
      with its retries, the bookkeeping of the running instances, and the
      readiness poll over the nodes of one managed node group) and
      [extractCSRStatus];
    - the remote hollow-nodes tester that shares that file: [Create],
      [Delete], the create/delete functions of its resources and
      [checkNodes];
    - [k8s-tester/nlb-hello-world/tester.go]: [Apply], [Delete],
      [runPrompt], [createDeployment], [checkDeployment], [createService]
      and [checkService].

    Part I holds the definitions, Part II the lemmas and theorems about
    the specification's claims, Part III further properties of the
    code. *)

From Stdlib Require Import ZArith Lia Ascii.
From Stdlib Require String.
From stdpp Require Import base option list strings gmap pretty.

Local Open Scope Z_scope.

(* ===================================================================== *)
(** * Part I: definitions *)
(* ===================================================================== *)

(** ** Go's [strings] package, on byte strings *)

Module GoStrings.

(** [strings.HasPrefix(s, prefix)]. *)
Definition HasPrefix (s pre : string) : bool := String.prefix pre s.

(** [strings.Contains(s, substr)]: some suffix of [s] starts with
    [substr]. *)
Fixpoint Contains (s substr : string) : bool :=
  if String.prefix substr s then true
  else match s with
       | EmptyString => false
       | String _ s' => Contains s' substr
       end.

(** [strings.Split(s, sep)] for a separator of one byte: the fields
    between the separators, in order; never an empty slice. *)
Fixpoint Split (s : string) (sep : ascii) : list string :=
  match s with
  | EmptyString => [EmptyString]
  | String c s' =>
      if Ascii.eqb c sep then EmptyString :: Split s' sep
      else match Split s' sep with
           | f :: fs => String c f :: fs
           | [] => [String c EmptyString]
           end
  end.

(** [strings.Join(elems, sep)]. *)
Fixpoint Join (elems : list string) (sep : string) : string :=
  match elems with
  | [] => EmptyString
  | [e] => e
  | e :: rest => e +:+ sep +:+ Join rest sep
  end.

End GoStrings.
Export GoStrings.

(** [strings.Split(s, ".")[0]]; indexing an empty slice panics in Go, which
    [Split] rules out, so the default is never used. *)
Definition firstField (s : string) : string :=
  match Split s "."%char with
  | f :: _ => f
  | [] => EmptyString
  end.

(** ** Go's [int] and [time.Duration]: 64-bit signed, wrapping *)

Definition wrap64 (z : Z) : Z := (z + 2 ^ 63) mod 2 ^ 64 - 2 ^ 63.

Definition Second : Z := 1000000000.
Definition Minute : Z := 60 * Second.

(** ** Errors

    A Go [error] as the code observes it: the text of [Error()] and, for
    an API status error, the reason that [apierrs.IsAlreadyExists] and
    [apierrs.IsNotFound] look at. [nil] is [None] of [option error]. *)

Inductive StatusReason :=
  | StatusReasonAlreadyExists
  | StatusReasonNotFound
  | StatusReasonOther.

Record error := mkError { reason : option StatusReason; Error : string }.

Definition errorsNew (msg : string) : error :=
  {| reason := None; Error := msg |}.

Definition IsAlreadyExists (err : option error) : bool :=
  match err with
  | Some {| reason := Some StatusReasonAlreadyExists |} => true
  | _ => false
  end.

Definition IsNotFound (err : option error) : bool :=
  match err with
  | Some {| reason := Some StatusReasonNotFound |} => true
  | _ => false
  end.

(** [fmt]'s [%q] verb quotes a string with [strconv.Quote]; the function
    is Go's, not this repository's, and is taken as a parameter. *)
Class GoQuote := quote : string → string.

(** ** Kubernetes objects, as far as the testers read them *)

Definition NodeHostName : string := "Hostname".
Definition NodeInternalDNS : string := "InternalDNS".
Definition NodeReady : string := "Ready".
Definition ConditionTrue : string := "True".
Definition CertificateApproved : string := "Approved".
Definition CertificateDenied : string := "Denied".

Record NodeAddress := { addrType : string; addrAddress : string }.
Record NodeCondition := { condType : string; condStatus : string }.

Record Node := {
  nodeName : string;
  nodeLabels : gmap string string;
  nodeAddresses : list NodeAddress;
  nodeConditions : list NodeCondition;
}.

(** [labels[key]]: a Go map yields the zero value for a missing key. *)
Definition label (labels : gmap string string) (key : string) : string :=
  default EmptyString (labels !! key).

Record CertificateSigningRequest := {
  csrName : string;
  csrUsername : string;
  csrConditions : list string;      (* the [Type] of each condition *)
  csrCertificate : list ascii;      (* [Status.Certificate], a byte slice *)
}.

(** [ec2config.Instance], the fields [waitForNodes] reads. *)
Record Instance := {
  InstanceID : string;
  PrivateDNSName : string;
  PublicIP : string;
  PublicDNSName : string;
}.

(** ** What the two readiness loops share *)

(** The condition loop, the same text in [waitForNodes] and [checkNodes]:
    the first condition with status [True] and type [Ready] counts the node
    and leaves the loop. *)
Fixpoint readyLoop (conditions : list NodeCondition) : bool :=
  match conditions with
  | [] => false
  | cond :: rest =>
      if negb (String.eqb (condStatus cond) ConditionTrue) then readyLoop rest
      else if negb (String.eqb (condType cond) NodeReady) then readyLoop rest
      else true
  end.

(** What one turn of a poll loop observes: the clock read by the loop
    condition, which case the [select] took, and what the list call
    returned. *)
Record PollTick := {
  elapsed : Z;                       (* [time.Now().Sub(retryStart)] *)
  stopped : bool;                    (* the [<-ts.cfg.Stopc] case fired *)
  listNodes : error + list Node;     (* the node list call *)
}.

(** The result of running a loop against a finite history: the function
    has returned, or the history ended while the loop was still turning. *)
Inductive PollResult :=
  | StillPolling
  | Returned (err : option error).

Definition errAborted : error := errorsNew "checking node aborted".

(** ** wait.go: the identity set and the membership test *)

Module Wait.

(** The loop that fills [ec2PrivateDNS]: for each instance the private DNS
    name and [strings.Split(name, ".")[0]]. *)
Fixpoint ec2PrivateDNSLoop (instances : list Instance) (set : gset string)
  : gset string :=
  match instances with
  | [] => set
  | v :: rest =>
      let set := {[ PrivateDNSName v ]} ∪ set in
      let set := {[ firstField (PrivateDNSName v) ]} ∪ set in
      ec2PrivateDNSLoop rest set
  end.

(** [cur.Instances] is a map from instance ID to instance; the loop ranges
    over its values. *)
Definition ec2PrivateDNS (instances : gmap string Instance) : gset string :=
  ec2PrivateDNSLoop (map_to_list instances).*2 ∅.

(** The membership test, written twice in [waitForNodes]:
    [_, ok := set[h]; if !ok { _, ok = set[strings.Split(h, ".")[0]] }]. *)
Definition belongsTo (set : gset string) (hostName : string) : bool :=
  let ok := bool_decide (hostName ∈ set) in
  if negb ok then bool_decide (firstField hostName ∈ set) else ok.

(** The address loop of [waitForNodes]; [hostName] is the variable the loop
    assigns, [""] before it. *)
Fixpoint hostNameLoop (set : gset string) (addresses : list NodeAddress)
    (hostName : string) : string :=
  match addresses with
  | [] => hostName
  | av :: rest =>
      if negb (String.eqb (addrType av) NodeHostName)
         && negb (String.eqb (addrType av) NodeInternalDNS)
      then hostNameLoop set rest hostName
      else
        let hostName := addrAddress av in
        if belongsTo set hostName then hostName
        else hostNameLoop set rest hostName
  end.

Definition selectHostName (set : gset string) (node : Node) : string :=
  hostNameLoop set (nodeAddresses node) EmptyString.

(** The node loop of one poll iteration; [readies] is the running counter
    (it cannot overflow: it is bounded by [len(nodes)]). A node of the
    group without host name makes [waitForNodes] return an error. *)
Fixpoint nodesLoop `{GoQuote} (mngName : string) (set : gset string)
    (nodes : list Node) (readies : Z) : error + Z :=
  match nodes with
  | [] => inr readies
  | node :: rest =>
      if negb (String.eqb (label (nodeLabels node) "NGName") mngName)
      then nodesLoop mngName set rest readies
      else
        let hostName := selectHostName set node in
        if String.eqb hostName EmptyString
        then inl (errorsNew (quote NodeHostName +:+ " not found for node "
                             +:+ quote (nodeName node)))
        else if negb (belongsTo set hostName)
        then nodesLoop mngName set rest readies
        else if readyLoop (nodeConditions node)
        then nodesLoop mngName set rest (readies + 1)
        else nodesLoop mngName set rest readies
  end.

(** [extractCSRStatus]: the condition loop returns early, with the empty
    status, on a condition type that is neither Approved nor Denied. *)
Fixpoint csrConditionsLoop (conditions : list string) (approved denied : bool)
  : option (bool * bool) :=
  match conditions with
  | [] => Some (approved, denied)
  | c :: rest =>
      if String.eqb c CertificateApproved then csrConditionsLoop rest true denied
      else if String.eqb c CertificateDenied then csrConditionsLoop rest approved true
      else None
  end.

Definition extractCSRStatus (csr : CertificateSigningRequest) : string :=
  match csrConditionsLoop (csrConditions csr) false false with
  | None => EmptyString
  | Some (approved, denied) =>
      let status := EmptyString in
      let status :=
        if denied then status +:+ "Denied"
        else if approved then status +:+ "Approved"
        else status +:+ "Pending" in
      if (0 <? Z.of_nat (length (csrCertificate csr)))
      then status +:+ ",Issued"
      else status
  end.

(** [eksconfig.MNG], the fields the poll reads. *)
Record MNG := mkMNG {
  mngASGMinSize : Z;
  mngASGDesiredCapacity : Z;
  mngInstances : gmap string Instance;
}.

Definition waitDur (cur : MNG) : Z :=
  let checkN := mngASGDesiredCapacity cur in
  let checkN := if checkN =? 0 then mngASGMinSize cur else checkN in
  wrap64 (10 * Minute + wrap64 (10 * Second * checkN)).

Definition errNotReady `{GoQuote} (mngName : string) : error :=
  errorsNew ("MNG " +:+ quote mngName +:+ " not ready").

(** [waitForNodes] from the readiness loop on: [for
    time.Now().Sub(retryStart) < waitDur { ... }] followed by
    [if !ready { return fmt.Errorf(...) }]. The list of signing requests
    that each turn fetches feeds the log line only, through
    [extractCSRStatus], and does not reach the result. *)
Fixpoint pollLoop `{GoQuote} (mngName : string) (cur : MNG)
    (set : gset string) (history : list PollTick) : PollResult :=
  match history with
  | [] => StillPolling
  | t :: rest =>
      if negb (elapsed t <? waitDur cur)
      then Returned (Some (errNotReady mngName))
      else if stopped t then Returned (Some errAborted)
      else
        match listNodes t with
        | inl _ => pollLoop mngName cur set rest
        | inr nodes =>
            match nodesLoop mngName set nodes 0 with
            | inl err => Returned (Some err)
            | inr readies =>
                if mngASGMinSize cur <=? readies then Returned None
                else pollLoop mngName cur set rest
            end
        end
  end.

Definition waitForNodes `{GoQuote} (mngName : string) (cur : MNG)
    (history : list PollTick) : PollResult :=
  pollLoop mngName cur (ec2PrivateDNS (mngInstances cur)) history.

End Wait.

(** ** The cluster and the other collaborators, as the testers call them *)

Inductive Kind :=
  | ServiceAccount
  | ClusterRole
  | ClusterRoleBinding
  | ConfigMap
  | ReplicationController
  | NodeObject
  | Deployment
  | Service.

(** A typed object handed to [Create] and [Update]: its identity and the
    part of its manifest that varies between calls. *)
Record Object := {
  objKind : Kind;
  objNamespace : string;
  objName : string;
  objData : list (string * string);
}.

Inductive DeletionPropagation :=
  | DeletePropagationOrphan
  | DeletePropagationBackground
  | DeletePropagationForeground.

(** [metav1.DeleteOptions]; both fields are pointers in Go. *)
Record DeleteOptions := {
  GracePeriodSeconds : option Z;
  PropagationPolicy : option DeletionPropagation;
}.

Inductive Call :=
  | ApiCreate (obj : Object)
  | ApiUpdate (obj : Object)
  | ApiDelete (kind : Kind) (namespace name : string) (opts : DeleteOptions)
  | EcrCheck (repository tag : string)       (* [aws_ecr.Check] *)
  | CreateNamespace (namespace : string)     (* [CreateNamespace] of the client package *)
  | DeleteNamespaceAndWait (namespace : string)
  | DeleteService (namespace name : string)  (* [client.DeleteService] *)
  | DeleteDeployment (namespace name : string)
  | ReadFile (path : string)                 (* [ioutil.ReadFile] *)
  | KubectlLogs (namespace : string)         (* [kubectl logs] through [exec] *)
  | PromptRun (action : string).             (* [promptui.Select.Run] *)

Inductive Reply :=
  | ReplyOK
  | ReplyErr (err : error)
  | ReplyText (text : string)
  | ReplyIndex (idx : Z).

Definition replyErr (r : Reply) : option error :=
  match r with ReplyErr err => Some err | _ => None end.

Definition replyText (r : Reply) : string :=
  match r with ReplyText text => text | _ => EmptyString end.

Definition replyIndex (r : Reply) : Z :=
  match r with ReplyIndex idx => idx | _ => 0 end.

(** Whatever answers the calls: a state and how it reacts to a call. *)
Class APIServer (St : Type) := respond : St → Call → St * Reply.

Inductive Event :=
  | Called (c : Call) (r : Reply)
  | Slept (d : Z).                            (* [time.Sleep(d)] *)

(** The world a tester runs in: the collaborators' state, what has
    happened so far, and the tester's own mutable state. *)
Record World (St C : Type) := mkWorld {
  cluster : St;
  trace : list Event;
  local : C;
}.
Arguments mkWorld {St C}.
Arguments cluster {St C}.
Arguments trace {St C}.
Arguments local {St C}.

Definition M (St C A : Type) : Type := World St C → A * World St C.

Global Instance M_ret {St C} : MRet (M St C) := λ A a w, (a, w).
Global Instance M_bind {St C} : MBind (M St C) :=
  λ A B f m w, let '(a, w') := m w in f a w'.

Definition call `{APIServer St} {C} (c : Call) : M St C Reply :=
  λ w, let '(s', r) := respond (cluster w) c in
       (r, mkWorld s' (trace w ++ [Called c r]) (local w)).

Definition timeSleep {St C} (d : Z) : M St C unit :=
  λ w, (tt, mkWorld (cluster w) (trace w ++ [Slept d]) (local w)).

Definition getLocal {St C} : M St C C := λ w, (local w, w).

Definition modifyLocal {St C} (f : C → C) : M St C unit :=
  λ w, (tt, mkWorld (cluster w) (trace w) (f (local w))).

(** The request every delete function sends:
    [GracePeriodSeconds: aws.Int64(0), PropagationPolicy: &foreground]. *)
Definition foregroundNow : DeleteOptions :=
  {| GracePeriodSeconds := Some 0;
     PropagationPolicy := Some DeletePropagationForeground |}.

(** The test every delete function applies to the reply:
    [err != nil && !apierrs.IsNotFound(err) &&
     !strings.Contains(err.Error(), "not found")]. *)
Definition deleteFailed (err : option error) : bool :=
  match err with
  | Some e => negb (IsNotFound err) && negb (Contains (Error e) "not found")
  | None => false
  end.

(** ** The remote hollow-nodes tester *)

Module Hollow.

Definition hollowNodesServiceAccountName : string :=
  "hollow-nodes-remote-service-account".
Definition hollowNodesRBACRoleName : string :=
  "hollow-nodes-remote-rbac-role".
Definition hollowNodesRBACClusterRoleBindingName : string :=
  "hollow-nodes-remote-rbac-role-binding".
Definition hollowNodesKubeConfigConfigMapName : string :=
  "hollow-nodes-remote-kubeconfig-configmap".
Definition hollowNodesKubeConfigConfigMapFileName : string :=
  "hollow-nodes-remote-kubeconfig-configmap.yaml".
Definition hollowNodesReplicationControllerName : string :=
  "hollow-nodes-remote-replicationcontroller".
Definition hollowNodesAppName : string := "hollow-nodes-remote-app".

(** [timeutil.TimeFrame], as [timeutil.NewTimeFrame(start, end)] makes it
    from two readings of the clock. *)
Record TimeFrame := NewTimeFrame {
  frameStart : Z;
  frameEnd : Z;
}.

(** The clock as one run of [Create] or of [Delete] reads it: [time.Now()]
    when the function starts ([createStart], [deleteStart]) and in its
    deferred function ([createEnd], [deleteEnd]). *)
Record Clock := mkClock {
  startNow : Z;
  endNow : Z;
}.

(** [eksconfig.Config], the fields the tester reads and writes.
    [IsEnabledAddOnHollowNodesRemote] is a method of that package; it is
    read here as the field [Enable]. *)
Record Config := mkConfig {
  Enable : bool;
  Created : bool;
  Namespace : string;
  NodeGroups : Z;
  Nodes : Z;
  NodeLabelPrefix : string;
  RepositoryName : string;
  RepositoryImageTag : string;
  KubeConfigPath : string;
  CreatedNodeNames : list string;
  TimeFrameCreate : TimeFrame;
  TimeFrameDelete : TimeFrame;
}.

Definition setCreated (b : bool) (c : Config) : Config :=
  mkConfig (Enable c) b (Namespace c) (NodeGroups c) (Nodes c)
    (NodeLabelPrefix c) (RepositoryName c) (RepositoryImageTag c)
    (KubeConfigPath c) (CreatedNodeNames c)
    (TimeFrameCreate c) (TimeFrameDelete c).

Definition setCreatedNodeNames (names : list string) (c : Config) : Config :=
  mkConfig (Enable c) (Created c) (Namespace c) (NodeGroups c) (Nodes c)
    (NodeLabelPrefix c) (RepositoryName c) (RepositoryImageTag c)
    (KubeConfigPath c) names
    (TimeFrameCreate c) (TimeFrameDelete c).

Definition setTimeFrameCreate (frame : TimeFrame) (c : Config) : Config :=
  mkConfig (Enable c) (Created c) (Namespace c) (NodeGroups c) (Nodes c)
    (NodeLabelPrefix c) (RepositoryName c) (RepositoryImageTag c)
    (KubeConfigPath c) (CreatedNodeNames c)
    frame (TimeFrameDelete c).

Definition setTimeFrameDelete (frame : TimeFrame) (c : Config) : Config :=
  mkConfig (Enable c) (Created c) (Namespace c) (NodeGroups c) (Nodes c)
    (NodeLabelPrefix c) (RepositoryName c) (RepositoryImageTag c)
    (KubeConfigPath c) (CreatedNodeNames c)
    (TimeFrameCreate c) frame.

(** The tester: the configuration in memory, the configuration as last
    written by [EKSConfig.Sync()], and the image found by [Create]. *)
Record tester := mkTester {
  EKSConfig : Config;
  synced : Config;
  ecrImage : string;
}.

(** The objects the tester creates; of each manifest, its identity and the
    fields that depend on the configuration. *)
Definition serviceAccount (cfg : Config) : Object :=
  {| objKind := ServiceAccount;
     objNamespace := Namespace cfg;
     objName := hollowNodesServiceAccountName;
     objData := [("app.kubernetes.io/name", hollowNodesAppName)] |}.

Definition clusterRole : Object :=
  {| objKind := ClusterRole;
     objNamespace := "default";
     objName := hollowNodesRBACRoleName;
     objData := [("app.kubernetes.io/name", hollowNodesAppName)] |}.

Definition clusterRoleBinding (cfg : Config) : Object :=
  {| objKind := ClusterRoleBinding;
     objNamespace := "default";
     objName := hollowNodesRBACClusterRoleBindingName;
     objData := [("app.kubernetes.io/name", hollowNodesAppName);
                 ("roleRef", hollowNodesRBACRoleName);
                 ("subject", hollowNodesServiceAccountName);
                 ("subjectNamespace", Namespace cfg)] |}.

Definition configMap (cfg : Config) (kubeconfig : string) : Object :=
  {| objKind := ConfigMap;
     objNamespace := Namespace cfg;
     objName := hollowNodesKubeConfigConfigMapName;
     objData := [("name", hollowNodesKubeConfigConfigMapName);
                 (hollowNodesKubeConfigConfigMapFileName, kubeconfig)] |}.

Definition replicationController (cfg : Config) (image name nodeGroup : string)
  : Object :=
  {| objKind := ReplicationController;
     objNamespace := Namespace cfg;
     objName := name;
     objData := [("autoscaling.k8s.io/nodegroup", nodeGroup);
                 ("app.kubernetes.io/name", hollowNodesAppName);
                 ("name", name);
                 ("image", image);
                 ("nodes", pretty (Nodes cfg));
                 ("node-label-prefix", NodeLabelPrefix cfg)] |}.

Section WithServer.
Context `{APIServer St}.

Local Abbreviation Op := (M St tester).

Definition Sync : Op unit :=
  modifyLocal (λ ts, mkTester (EKSConfig ts) (EKSConfig ts) (ecrImage ts)).

Definition getConfig : Op Config := ts ← getLocal; mret (EKSConfig ts).

Definition modifyConfig (f : Config → Config) : Op unit :=
  modifyLocal (λ ts, mkTester (f (EKSConfig ts)) (synced ts) (ecrImage ts)).

Definition setEcrImage (img : string) : Op unit :=
  modifyLocal (λ ts, mkTester (EKSConfig ts) (synced ts) img).

Definition createServiceAccount : Op (option error) :=
  cfg ← getConfig;
  let sa := serviceAccount cfg in
  r ← call (ApiCreate sa);
  let err := replyErr r in
  err ← (if IsAlreadyExists err
         then r ← call (ApiUpdate sa); mret (replyErr r)
         else mret err);
  match err with
  | Some e =>
      mret (Some (errorsNew ("while creating service account (" +:+ Error e +:+ ")")))
  | None => _ ← Sync; mret None
  end.

Definition deleteServiceAccount : Op (option error) :=
  cfg ← getConfig;
  r ← call (ApiDelete ServiceAccount (Namespace cfg)
              hollowNodesServiceAccountName foregroundNow);
  let err := replyErr r in
  match err with
  | Some e =>
      if deleteFailed err
      then mret (Some (errorsNew
             ("failed to delete kubemark ServiceAccount (" +:+ Error e +:+ ")")))
      else _ ← Sync; mret None
  | None => _ ← Sync; mret None
  end.

(** [createRBACClusterRole] declares [var err error] and then tests the
    create call with [if _, err := client.Create(...); ...]: the [:=]
    declares a second [err], local to the [if]; the update assigns that
    one, and the [err] tested after the [if] is the outer one, still
    [nil]. *)
Definition createRBACClusterRole : Op (option error) :=
  let role := clusterRole in
  let err : option error := None in
  r ← call (ApiCreate role);
  let err' := replyErr r in
  _ ← (if IsAlreadyExists err'
       then r ← call (ApiUpdate role); mret (replyErr r)
       else mret err');
  match err with
  | Some e =>
      mret (Some (errorsNew
        ("failed to create kubemark RBAC ClusterRole (" +:+ Error e +:+ ")")))
  | None => _ ← Sync; mret None
  end.

Definition deleteRBACClusterRole : Op (option error) :=
  r ← call (ApiDelete ClusterRole EmptyString hollowNodesRBACRoleName foregroundNow);
  let err := replyErr r in
  match err with
  | Some e =>
      if deleteFailed err
      then mret (Some (errorsNew
             ("failed to delete kubemark RBAC ClusterRole (" +:+ Error e +:+ ")")))
      else _ ← Sync; mret None
  | None => _ ← Sync; mret None
  end.

Definition createRBACClusterRoleBinding : Op (option error) :=
  cfg ← getConfig;
  let resource := clusterRoleBinding cfg in
  r ← call (ApiCreate resource);
  let err := replyErr r in
  err ← (if IsAlreadyExists err
         then r ← call (ApiUpdate resource); mret (replyErr r)
         else mret err);
  match err with
  | Some e =>
      mret (Some (errorsNew
        ("failed to create kubemark RBAC ClusterRoleBinding (" +:+ Error e +:+ ")")))
  | None => _ ← Sync; mret None
  end.

Definition deleteRBACClusterRoleBinding : Op (option error) :=
  r ← call (ApiDelete ClusterRoleBinding EmptyString
              hollowNodesRBACClusterRoleBindingName foregroundNow);
  let err := replyErr r in
  match err with
  | Some e =>
      if deleteFailed err
      then mret (Some (errorsNew
             ("failed to delete kubemark RBAC ClusterRoleBinding ("
              +:+ Error e +:+ ")")))
      else _ ← Sync; mret None
  | None => _ ← Sync; mret None
  end.

Definition createConfigMap : Op (option error) :=
  cfg ← getConfig;
  rb ← call (ReadFile (KubeConfigPath cfg));
  match replyErr rb with
  | Some e => mret (Some e)
  | None =>
      let resource := configMap cfg (replyText rb) in
      r ← call (ApiCreate resource);
      let err := replyErr r in
      err ← (if IsAlreadyExists err
             then r ← call (ApiUpdate resource); mret (replyErr r)
             else mret err);
      match err with
      | Some e => mret (Some (errorsNew ("while creating configmap " +:+ Error e)))
      | None => _ ← Sync; mret None
      end
  end.

Definition deleteConfigMap : Op (option error) :=
  cfg ← getConfig;
  r ← call (ApiDelete ConfigMap (Namespace cfg)
              hollowNodesKubeConfigConfigMapName foregroundNow);
  let err := replyErr r in
  match err with
  | Some e =>
      if deleteFailed err then mret (Some e)
      else _ ← Sync; mret None
  | None => _ ← Sync; mret None
  end.

Definition createHollowNode (name nodeGroup : string) : Op (option error) :=
  cfg ← getConfig;
  ts ← getLocal;
  let resource := replicationController cfg (ecrImage ts) name nodeGroup in
  r ← call (ApiCreate resource);
  let err := replyErr r in
  err ← (if IsAlreadyExists err
         then r ← call (ApiUpdate resource); mret (replyErr r)
         else mret err);
  match err with
  | Some e =>
      mret (Some (errorsNew
        ("failed to create hollow node ReplicationController (" +:+ Error e +:+ ")")))
  | None => mret None
  end.

(** The inner loop of [createHollowNodes], over [j]. *)
Fixpoint createHollowNodesInner (prefix : string) (i : Z) (js : list Z)
  : Op (option error) :=
  match js with
  | [] => mret None
  | j :: rest =>
      let ng := prefix +:+ "-nodegroup-" +:+ pretty i in
      let name := ng +:+ "-node-" +:+ pretty j in
      err ← createHollowNode name ng;
      match err with
      | Some e =>
          mret (Some (errorsNew
            ("while creating hollow node " +:+ name +:+ ", " +:+ Error e)))
      | None => createHollowNodesInner prefix i rest
      end
  end.

(** The outer loop, over [i]. *)
Fixpoint createHollowNodesOuter (prefix : string) (nodes : Z) (groups : list Z)
  : Op (option error) :=
  match groups with
  | [] => mret None
  | i :: rest =>
      err ← createHollowNodesInner prefix i (seqZ 0 nodes);
      match err with
      | Some e => mret (Some e)
      | None => createHollowNodesOuter prefix nodes rest
      end
  end.

Definition createHollowNodes : Op (option error) :=
  cfg ← getConfig;
  createHollowNodesOuter (NodeLabelPrefix cfg) (Nodes cfg)
    (seqZ 0 (NodeGroups cfg)).

Definition deleteReplicationController : Op (option error) :=
  cfg ← getConfig;
  r ← call (ApiDelete ReplicationController (Namespace cfg)
              hollowNodesReplicationControllerName foregroundNow);
  let err := replyErr r in
  match err with
  | Some e =>
      if deleteFailed err then mret (Some e)
      else _ ← Sync; mret None
  | None => _ ← Sync; mret None
  end.

(** [expectedNodes := Nodes * NodeGroups; expectedNodes /= 2] on Go's
    [int]: the product wraps, the division truncates. *)
Definition expectedNodes (cfg : Config) : Z :=
  let expectedNodes := wrap64 (Nodes cfg * NodeGroups cfg) in
  Z.quot expectedNodes 2.

Definition checkWaitDur (cfg : Config) : Z :=
  wrap64 (5 * Minute + wrap64 (2 * Second * expectedNodes cfg)).

Definition errNGNotReady `{GoQuote} (cfg : Config) : error :=
  errorsNew ("NG " +:+ quote (NodeLabelPrefix cfg) +:+ " not ready").

(** The node loop of one [checkNodes] iteration: the names of the ready
    nodes of the group, and their number. *)
Fixpoint hollowNodesLoop (prefix : string) (items : list Node)
    (createdNodeNames : list string) (readies : Z) : list string * Z :=
  match items with
  | [] => (createdNodeNames, readies)
  | node :: rest =>
      if negb (HasPrefix (label (nodeLabels node) "NGName") prefix)
      then hollowNodesLoop prefix rest createdNodeNames readies
      else if readyLoop (nodeConditions node)
      then hollowNodesLoop prefix rest
             (createdNodeNames ++ [nodeName node]) (readies + 1)
      else hollowNodesLoop prefix rest createdNodeNames readies
  end.

(** The poll loop of [checkNodes] and the [if !ready] after it. *)
Fixpoint checkNodesLoop `{GoQuote} (cfg : Config) (history : list PollTick)
  : Op PollResult :=
  match history with
  | [] => mret StillPolling
  | t :: rest =>
      if negb (elapsed t <? checkWaitDur cfg)
      then mret (Returned (Some (errNGNotReady cfg)))
      else if stopped t then mret (Returned (Some errAborted))
      else
        match listNodes t with
        | inl _ => checkNodesLoop cfg rest
        | inr items =>
            let '(createdNodeNames, readies) :=
              hollowNodesLoop (NodeLabelPrefix cfg) items [] 0 in
            _ ← call (KubectlLogs (Namespace cfg));
            _ ← modifyConfig (setCreatedNodeNames createdNodeNames);
            _ ← Sync;
            if (0 <? readies) && (expectedNodes cfg <=? readies)
            then _ ← Sync; mret (Returned None)
            else checkNodesLoop cfg rest
        end
  end.

Definition checkNodes `{GoQuote} (history : list PollTick) : Op PollResult :=
  cfg ← getConfig;
  checkNodesLoop cfg history.

(** The loop of [deleteCreatedNodes]; [i] is the index of the head of
    [names]. *)
Fixpoint deleteCreatedNodesLoop (names : list string) (i : Z)
    (errs : list string) : Op (list string) :=
  match names with
  | [] => mret errs
  | nodeName :: rest =>
      r ← call (ApiDelete NodeObject EmptyString nodeName foregroundNow);
      let err := replyErr r in
      let errs :=
        match err with
        | Some e => if deleteFailed err then errs ++ [Error e] else errs
        | None => errs
        end in
      if 300 <? i then mret errs
      else deleteCreatedNodesLoop rest (i + 1) errs
  end.

Definition deleteCreatedNodes : Op (option error) :=
  cfg ← getConfig;
  errs ← deleteCreatedNodesLoop (CreatedNodeNames cfg) 0 [];
  if 0 <? Z.of_nat (length errs)
  then mret (Some (errorsNew (Join errs ", ")))
  else mret None.

(** [if err := step(); err != nil { errs = append(errs, err.Error()) }]. *)
Definition appendError (errs : list string) (err : option error) : list string :=
  match err with
  | Some e => errs ++ [Error e]
  | None => errs
  end.

(** The deferred function of [Delete]: it writes [TimeFrameDelete] and
    runs [Sync]. *)
Definition deferredDelete (clock : Clock) : Op unit :=
  _ ← modifyConfig
        (setTimeFrameDelete (NewTimeFrame (startNow clock) (endNow clock)));
  Sync.

(** [Delete]; the deferred function runs on every path that gets past the
    two guards, after the result is set. *)
Definition Delete (clock : Clock) : Op (option error) :=
  cfg ← getConfig;
  if negb (Enable cfg) then mret None
  else if negb (Created cfg) then mret None
  else
    let errs : list string := [] in
    err ← deleteReplicationController;
    let errs := appendError errs err in
    _ ← timeSleep (2 * Minute);
    err ← deleteCreatedNodes;
    let errs := appendError errs err in
    err ← deleteConfigMap;
    let errs := appendError errs err in
    err ← deleteRBACClusterRoleBinding;
    let errs := appendError errs err in
    err ← deleteRBACClusterRole;
    let errs := appendError errs err in
    err ← deleteServiceAccount;
    let errs := appendError errs err in
    r ← call (DeleteNamespaceAndWait (Namespace cfg));
    let errs :=
      match replyErr r with
      | Some e =>
          errs ++ ["failed to delete hollow nodes namespace (" +:+ Error e +:+ ")"]
      | None => errs
      end in
    if 0 <? Z.of_nat (length errs)
    then _ ← deferredDelete clock; mret (Some (errorsNew (Join errs ", ")))
    else
      _ ← modifyConfig (setCreated false);
      _ ← Sync;
      _ ← deferredDelete clock;
      mret None.

(** What [%s] prints for [reflect.TypeOf(step)] when [step] is a
    [func() error]: the name of the type. *)
Definition stepTypeString : string := "func() error".

(** The step loop of [Create]. A step that has not returned leaves the
    loop, and [Create], not returned. *)
Fixpoint runSteps (steps : list (Op PollResult)) : Op PollResult :=
  match steps with
  | [] => mret (Returned None)
  | step :: rest =>
      r ← step;
      match r with
      | StillPolling => mret StillPolling
      | Returned (Some err) =>
          mret (Returned (Some (errorsNew
            ("while executing step " +:+ stepTypeString +:+ "(), " +:+ Error err))))
      | Returned None => runSteps rest
      end
  end.

Definition returned (op : Op (option error)) : Op PollResult :=
  err ← op; mret (Returned err).

Definition createSteps `{GoQuote} (history : list PollTick)
  : list (Op PollResult) :=
  [ returned createServiceAccount;
    returned createRBACClusterRole;
    returned createRBACClusterRoleBinding;
    returned createConfigMap;
    returned createHollowNodes;
    checkNodes history ].

(** [Create] past the guard and the first [Sync], up to its [return]. *)
Definition createBody `{GoQuote} (history : list PollTick) : Op PollResult :=
  cfg ← getConfig;
  rc ← call (EcrCheck (RepositoryName cfg) (RepositoryImageTag cfg));
  _ ← setEcrImage (replyText rc);
  match replyErr rc with
  | Some e => mret (Returned (Some e))
  | None =>
      rn ← call (CreateNamespace (Namespace cfg));
      match replyErr rn with
      | Some e => mret (Returned (Some e))
      | None =>
          r ← runSteps (createSteps history);
          match r with
          | Returned None => _ ← Sync; mret (Returned None)
          | _ => mret r
          end
      end
  end.

(** The deferred function of [Create]: it writes [TimeFrameCreate] and
    runs [Sync]. *)
Definition deferredCreate (clock : Clock) : Op unit :=
  _ ← modifyConfig
        (setTimeFrameCreate (NewTimeFrame (startNow clock) (endNow clock)));
  Sync.

(** [Create]; [history] is what the readiness loop of [checkNodes] will
    observe. The deferred function runs once the body returns. *)
Definition Create `{GoQuote} (clock : Clock) (history : list PollTick)
  : Op PollResult :=
  cfg ← getConfig;
  if negb (Enable cfg) then mret (Returned None)
  else
    _ ← modifyConfig (setCreated true);
    _ ← Sync;
    r ← createBody history;
    match r with
    | StillPolling => mret StillPolling
    | Returned _ => _ ← deferredCreate clock; mret r
    end.

End WithServer.
End Hollow.

(** ** The NLB hello-world tester *)

Module NLB.

Definition deploymentName : string := "hello-world-deployment".
Definition appName : string := "hello-world".
Definition appImageName : string := "dockercloud/hello-world".
Definition serviceName : string := "hello-world-service".

Record Config := {
  EnablePrompt : bool;
  Namespace : string;
  DeploymentNodeSelector : gmap string string;
  DeploymentReplicas : Z;
}.

Definition deployment (cfg : Config) : Object :=
  let nodeSelector : gmap string string :=
    if 0 <? Z.of_nat (size (DeploymentNodeSelector cfg))
    then DeploymentNodeSelector cfg else ∅ in
  {| objKind := Deployment;
     objNamespace := Namespace cfg;
     objName := deploymentName;
     objData := [("app.kubernetes.io/name", appName);
                 ("image", appImageName);
                 ("replicas", pretty (DeploymentReplicas cfg))]
                ++ map_to_list nodeSelector |}.

Definition service (cfg : Config) : Object :=
  {| objKind := Service;
     objNamespace := Namespace cfg;
     objName := serviceName;
     objData := [("service.beta.kubernetes.io/aws-load-balancer-type", "nlb");
                 ("app.kubernetes.io/name", appName)] |}.

(** A function either returns or panics. *)
Inductive Result (A : Type) :=
  | Done (a : A)
  | Panic (e : error).
Arguments Done {A}.
Arguments Panic {A}.

Section WithServer.
Context `{APIServer St}.

Local Abbreviation Op := (M St Config).

Definition runPrompt (action : string) : Op (Result bool) :=
  cfg ← getLocal;
  if EnablePrompt cfg then
    r ← call (PromptRun action);
    match replyErr r with
    | Some e => mret (Panic e)
    | None =>
        if negb (replyIndex r =? 1) then mret (Done false)
        else mret (Done true)
    end
  else mret (Done true).

Definition createDeployment : Op (option error) :=
  cfg ← getLocal;
  r ← call (ApiCreate (deployment cfg));
  let err := replyErr r in
  match err with
  | Some e =>
      if IsAlreadyExists err then mret None
      else mret (Some (errorsNew
             ("failed to create NLB hello-world Deployment (" +:+ Error e +:+ ")")))
  | None => mret None
  end.

Definition createService : Op (option error) :=
  cfg ← getLocal;
  r ← call (ApiCreate (service cfg));
  let err := replyErr r in
  match err with
  | Some e =>
      if IsAlreadyExists err then mret None
      else mret (Some (errorsNew
             ("failed to create NLB hello-world Service (" +:+ Error e +:+ ")")))
  | None => mret None
  end.

Definition Delete : Op (Result (option error)) :=
  cfg ← getLocal;
  ok ← runPrompt "delete";
  match ok with
  | Panic e => mret (Panic e)
  | Done false => mret (Done (Some (errorsNew "cancelled")))
  | Done true =>
      let errs : list string := [] in
      r ← call (DeleteService (Namespace cfg) serviceName);
      let errs :=
        match replyErr r with
        | Some e => errs ++ ["failed to delete Service (" +:+ Error e +:+ ")"]
        | None => errs
        end in
      _ ← timeSleep Minute;
      r ← call (DeleteDeployment (Namespace cfg) deploymentName);
      let errs :=
        match replyErr r with
        | Some e => errs ++ ["failed to delete Deployment (" +:+ Error e +:+ ")"]
        | None => errs
        end in
      _ ← timeSleep Minute;
      r ← call (DeleteNamespaceAndWait (Namespace cfg));
      let errs :=
        match replyErr r with
        | Some e => errs ++ ["failed to delete namespace (" +:+ Error e +:+ ")"]
        | None => errs
        end in
      if 0 <? Z.of_nat (length errs)
      then mret (Done (Some (errorsNew (Join errs ", "))))
      else mret (Done None)
  end.

End WithServer.
End NLB.

(** ** Definitions the statements use *)

(** The bytes of a string. *)
Definition bytes (s : string) : list ascii := String.list_ascii_of_string s.

(** An address whose kind is [Hostname] or [InternalDNS]. *)
Definition isHostAddress (av : NodeAddress) : bool :=
  String.eqb (addrType av) NodeHostName
  || String.eqb (addrType av) NodeInternalDNS.

(** The host name as the specification words it: the first address whose
    kind is Hostname or InternalDNS, whatever the identity set holds. *)
Definition firstHostAddress (node : Node) : string :=
  match filter (λ av, isHostAddress av = true) (nodeAddresses node) with
  | av :: _ => addrAddress av
  | [] => EmptyString
  end.




(** A node that one iteration of [checkNodes] counts: its [NGName] label
    starts with the node label prefix and it carries a true Ready
    condition. *)
Definition hollowCounted (prefix : string) (node : Node) : bool :=
  HasPrefix (label (nodeLabels node) "NGName") prefix
  && readyLoop (nodeConditions node).

Definition hollowReadyCount (prefix : string) (items : list Node) : Z :=
  Z.of_nat (length (filter (λ node, hollowCounted prefix node = true) items)).

(** The world after the part of a [checkNodes] iteration that follows a
    listing: [kubectl logs] has run, the names of the ready nodes are
    recorded and the configuration is written. *)
Definition afterListing `{APIServer St} (cfg : Hollow.Config)
    (items : list Node) (w : World St Hollow.tester) : World St Hollow.tester :=
  ((_ ← call (KubectlLogs (Hollow.Namespace cfg));
    _ ← Hollow.modifyConfig
          (Hollow.setCreatedNodeNames
             (nodeName <$> filter (λ node,
                hollowCounted (Hollow.NodeLabelPrefix cfg) node = true) items));
    Hollow.Sync) w).2.

(** What a tester does, without the answers it gets. *)
Inductive Action :=
  | Request (c : Call)
  | Pause (d : Z).

Definition actionOf (ev : Event) : Action :=
  match ev with
  | Called c _ => Request c
  | Slept d => Pause d
  end.

(** The failure a teardown request met, if it met one: for a delete
    through the API an error that is not a NotFound, for the helpers of the
    client package any error. *)
Definition teardownFailure (ev : Event) : option string :=
  match ev with
  | Called (ApiDelete _ _ _ _) r =>
      if deleteFailed (replyErr r) then Error <$> replyErr r else None
  | Called (DeleteNamespaceAndWait _) r
  | Called (DeleteService _ _) r
  | Called (DeleteDeployment _ _) r => Error <$> replyErr r
  | _ => None
  end.

(** The delete functions of the hollow-nodes tester that remove one
    resource each, with the resource they name and the text they put
    around an error. *)
Inductive DeleteOp :=
  | DelServiceAccount
  | DelClusterRole
  | DelClusterRoleBinding
  | DelConfigMap
  | DelReplicationController.

Definition deleteOp `{APIServer St} (d : DeleteOp)
  : M St Hollow.tester (option error) :=
  match d with
  | DelServiceAccount => Hollow.deleteServiceAccount
  | DelClusterRole => Hollow.deleteRBACClusterRole
  | DelClusterRoleBinding => Hollow.deleteRBACClusterRoleBinding
  | DelConfigMap => Hollow.deleteConfigMap
  | DelReplicationController => Hollow.deleteReplicationController
  end.

Definition deleteRequest (cfg : Hollow.Config) (d : DeleteOp) : Call :=
  match d with
  | DelServiceAccount =>
      ApiDelete ServiceAccount (Hollow.Namespace cfg)
        Hollow.hollowNodesServiceAccountName foregroundNow
  | DelClusterRole =>
      ApiDelete ClusterRole "" Hollow.hollowNodesRBACRoleName foregroundNow
  | DelClusterRoleBinding =>
      ApiDelete ClusterRoleBinding ""
        Hollow.hollowNodesRBACClusterRoleBindingName foregroundNow
  | DelConfigMap =>
      ApiDelete ConfigMap (Hollow.Namespace cfg)
        Hollow.hollowNodesKubeConfigConfigMapName foregroundNow
  | DelReplicationController =>
      ApiDelete ReplicationController (Hollow.Namespace cfg)
        Hollow.hollowNodesReplicationControllerName foregroundNow
  end.

Definition deleteWrap (d : DeleteOp) (e : error) : error :=
  match d with
  | DelServiceAccount =>
      errorsNew ("failed to delete kubemark ServiceAccount (" +:+ Error e +:+ ")")
  | DelClusterRole =>
      errorsNew ("failed to delete kubemark RBAC ClusterRole (" +:+ Error e +:+ ")")
  | DelClusterRoleBinding =>
      errorsNew ("failed to delete kubemark RBAC ClusterRoleBinding ("
                 +:+ Error e +:+ ")")
  | DelConfigMap | DelReplicationController => e
  end.

(** The delete request for a node object. *)
Definition deleteNodeRequest (nodeName : string) : Call :=
  ApiDelete NodeObject "" nodeName foregroundNow.

(** What [Delete] of the hollow-nodes tester does, in order. *)
Definition teardownPlan (cfg : Hollow.Config) : list Action :=
  [ Request (deleteRequest cfg DelReplicationController);
    Pause (2 * Minute) ]
  ++ ((λ n, Request (deleteNodeRequest n))
        <$> take 302 (Hollow.CreatedNodeNames cfg))
  ++ [ Request (deleteRequest cfg DelConfigMap);
       Request (deleteRequest cfg DelClusterRoleBinding);
       Request (deleteRequest cfg DelClusterRole);
       Request (deleteRequest cfg DelServiceAccount);
       Request (DeleteNamespaceAndWait (Hollow.Namespace cfg)) ].

(** What [Delete] of the NLB tester does once the prompt is passed. *)
Definition nlbTeardownPlan (cfg : NLB.Config) : list Action :=
  [ Request (DeleteService (NLB.Namespace cfg) NLB.serviceName);
    Pause Minute;
    Request (DeleteDeployment (NLB.Namespace cfg) NLB.deploymentName);
    Pause Minute;
    Request (DeleteNamespaceAndWait (NLB.Namespace cfg)) ].

(** The messages [msgs] report the failures [fails]: there is a message
    iff there is a failure, and every failure is quoted by a message. *)
Definition covers (msgs fails : list string) : Prop :=
  (msgs = [] ↔ fails = [])
  ∧ ∀ f, f ∈ fails → ∃ m, m ∈ msgs ∧ Contains m f = true.

(** A teardown step: it sends what [plan] lists, whatever the answers,
    leaves the configuration alone, and its result reports the failures
    met. *)
Definition teardownStep `{APIServer St} (op : M St Hollow.tester (option error))
    (plan : Hollow.Config → list Action) : Prop :=
  ∀ w, ∃ evs,
    trace (op w).2 = trace w ++ evs
    ∧ actionOf <$> evs = plan (Hollow.EKSConfig (local w))
    ∧ Hollow.EKSConfig (local (op w).2) = Hollow.EKSConfig (local w)
    ∧ covers (option_list (Error <$> (op w).1)) (omap teardownFailure evs).

(** The create functions of the hollow-nodes tester that make one object
    out of the tester's state, with that object and the text they put
    around an error. *)
Inductive CreateOp :=
  | CrServiceAccount
  | CrClusterRoleBinding
  | CrHollowNode (name nodeGroup : string).

Definition createOp `{APIServer St} (c : CreateOp)
  : M St Hollow.tester (option error) :=
  match c with
  | CrServiceAccount => Hollow.createServiceAccount
  | CrClusterRoleBinding => Hollow.createRBACClusterRoleBinding
  | CrHollowNode name nodeGroup => Hollow.createHollowNode name nodeGroup
  end.

Definition createObject (ts : Hollow.tester) (c : CreateOp) : Object :=
  match c with
  | CrServiceAccount => Hollow.serviceAccount (Hollow.EKSConfig ts)
  | CrClusterRoleBinding => Hollow.clusterRoleBinding (Hollow.EKSConfig ts)
  | CrHollowNode name nodeGroup =>
      Hollow.replicationController (Hollow.EKSConfig ts) (Hollow.ecrImage ts)
        name nodeGroup
  end.

Definition createWrap (c : CreateOp) (e : error) : error :=
  match c with
  | CrServiceAccount =>
      errorsNew ("while creating service account (" +:+ Error e +:+ ")")
  | CrClusterRoleBinding =>
      errorsNew ("failed to create kubemark RBAC ClusterRoleBinding ("
                 +:+ Error e +:+ ")")
  | CrHollowNode _ _ =>
      errorsNew ("failed to create hollow node ReplicationController ("
                 +:+ Error e +:+ ")")
  end.

Definition configMapWrap (e : error) : error :=
  errorsNew ("while creating configmap " +:+ Error e).

Definition deploymentWrap (e : error) : error :=
  errorsNew ("failed to create NLB hello-world Deployment (" +:+ Error e +:+ ")").

Definition serviceWrap (e : error) : error :=
  errorsNew ("failed to create NLB hello-world Service (" +:+ Error e +:+ ")").

(** The requests of the specification's [createOrUpdate(resource)]: a
    create of the object, and, when that is refused with AlreadyExists, an
    update with the same object. [decide] is the reply that decides the
    outcome: the update's when there was one, the create's otherwise. *)
Definition sendsCreateOrUpdate `{APIServer St} {C : Type} (obj : Object)
    (w w' : World St C) (decide : Reply) : Prop :=
  ∃ s1 r1,
    respond (cluster w) (ApiCreate obj) = (s1, r1)
    ∧ ((IsAlreadyExists (replyErr r1) = false
        ∧ cluster w' = s1
        ∧ trace w' = trace w ++ [Called (ApiCreate obj) r1]
        ∧ decide = r1)
       ∨ (IsAlreadyExists (replyErr r1) = true
          ∧ ∃ s2 r2,
              respond s1 (ApiUpdate obj) = (s2, r2)
              ∧ cluster w' = s2
              ∧ trace w' = trace w ++ [Called (ApiCreate obj) r1;
                                       Called (ApiUpdate obj) r2]
              ∧ decide = r2)).

(** [createOrUpdate(resource)] as the specification words it: those
    requests, and any failure of the deciding reply returned, wrapped. *)
Definition createsOrUpdates `{APIServer St} {C : Type} (obj : Object)
    (wrap : error → error) (w : World St C)
    (out : option error * World St C) : Prop :=
  ∃ decide,
    sendsCreateOrUpdate obj w out.2 decide
    ∧ out.1 = wrap <$> replyErr decide.

(** What the NLB tester does instead: a create only; AlreadyExists counts
    as done, any other failure is returned, wrapped. *)
Definition createsUnlessPresent `{APIServer St} {C : Type} (obj : Object)
    (wrap : error → error) (w : World St C)
    (out : option error * World St C) : Prop :=
  ∃ s1 r1,
    respond (cluster w) (ApiCreate obj) = (s1, r1)
    ∧ cluster out.2 = s1
    ∧ trace out.2 = trace w ++ [Called (ApiCreate obj) r1]
    ∧ out.1 = if IsAlreadyExists (replyErr r1) then None
              else wrap <$> replyErr r1.

(** The cluster holds an object: it refuses to create it again, with
    AlreadyExists. *)
Definition held `{APIServer St} (s : St) (obj : Object) : Prop :=
  ∃ s1 e, respond s (ApiCreate obj) = (s1, ReplyErr e)
          ∧ IsAlreadyExists (Some e) = true.

(** It holds the object and accepts its update. *)
Definition present `{APIServer St} (s : St) (obj : Object) : Prop :=
  ∃ s1 e s2 r2,
    respond s (ApiCreate obj) = (s1, ReplyErr e)
    ∧ IsAlreadyExists (Some e) = true
    ∧ respond s1 (ApiUpdate obj) = (s2, r2)
    ∧ replyErr r2 = None.

(** A cluster that keeps what it is given: after a successful create or
    update, and after a create refused with AlreadyExists, the object is
    present. *)
Definition keepsObjects `{APIServer St} : Prop :=
  ∀ s obj s' r,
    respond s (ApiCreate obj) = (s', r) ∨ respond s (ApiUpdate obj) = (s', r) →
    replyErr r = None ∨ IsAlreadyExists (replyErr r) = true →
    present s' obj.

(** A node carries a true Ready condition. *)
Definition hasReadyCondition (node : Node) : Prop :=
  ∃ cond, cond ∈ nodeConditions node
          ∧ condStatus cond = ConditionTrue ∧ condType cond = NodeReady.

(** ** Concrete data for the examples *)

(** An instance named as in the specification's example. *)
Definition exampleInstance : Instance :=
  {| InstanceID := "i-0123456789";
     PrivateDNSName := "ip-1-2-3-4.region.compute.internal";
     PublicIP := "52.0.0.1";
     PublicDNSName := "ec2-52-0-0-1.region.compute.amazonaws.com" |}.

Definition exampleSet : gset string :=
  Wait.ec2PrivateDNS {[ "i-0123456789" := exampleInstance ]}.

Definition readyCondition : NodeCondition :=
  {| condType := "Ready"; condStatus := "True" |}.

(** A node behind a DHCP option set: its Hostname is the custom domain
    name, its InternalDNS is the private DNS name of the instance. *)
Definition dhcpNode : Node :=
  {| nodeName := "ip-1-2-3-4.region.compute.internal";
     nodeLabels := {[ "NGName" := "mng" ]};
     nodeAddresses :=
       [ {| addrType := "InternalIP"; addrAddress := "1.2.3.4" |};
         {| addrType := "Hostname"; addrAddress := "my-private-dns" |};
         {| addrType := "InternalDNS";
            addrAddress := "ip-1-2-3-4.region.compute.internal" |} ];
     nodeConditions := [readyCondition] |}.

(** A node of the group that reports no Hostname and no InternalDNS. *)
Definition bareNode : Node :=
  {| nodeName := "node-without-hostname";
     nodeLabels := {[ "NGName" := "mng" ]};
     nodeAddresses := [ {| addrType := "InternalIP"; addrAddress := "1.2.3.4" |} ];
     nodeConditions := [readyCondition] |}.

(** A group of five instances, the nodes that register for them, and a
    managed node group that wants three of them ready. *)
Definition instanceNo (n : string) : Instance :=
  {| InstanceID := "i-" +:+ n;
     PrivateDNSName := "ip-10-0-0-" +:+ n +:+ ".region.compute.internal";
     PublicIP := "52.0.0." +:+ n;
     PublicDNSName := "ec2-52-0-0-" +:+ n +:+ ".region.compute.amazonaws.com" |}.

Definition nodeNo (n : string) (ready : bool) : Node :=
  {| nodeName := "ip-10-0-0-" +:+ n +:+ ".region.compute.internal";
     nodeLabels := {[ "NGName" := "mng" ]};
     nodeAddresses :=
       [ {| addrType := "InternalIP"; addrAddress := "10.0.0." +:+ n |};
         {| addrType := "Hostname";
            addrAddress := "ip-10-0-0-" +:+ n +:+ ".region.compute.internal" |} ];
     nodeConditions :=
       [ {| condType := "MemoryPressure"; condStatus := "False" |};
         {| condType := "Ready";
            condStatus := if ready then "True" else "False" |} ] |}.

Definition exampleMNG : Wait.MNG :=
  {| Wait.mngASGMinSize := 3;
     Wait.mngASGDesiredCapacity := 5;
     Wait.mngInstances :=
       list_to_map ((λ n, ("i-" +:+ n, instanceNo n)) <$> ["1"; "2"; "3"; "4"; "5"]) |}.

Definition threeReady : list Node :=
  [nodeNo "1" true; nodeNo "2" true; nodeNo "3" true;
   nodeNo "4" false; nodeNo "5" false].

Definition twoReady : list Node :=
  [nodeNo "1" true; nodeNo "2" true; nodeNo "3" false;
   nodeNo "4" false; nodeNo "5" false].

Definition tickAt (seconds : Z) (nodes : list Node) : PollTick :=
  {| elapsed := seconds * Second; stopped := false; listNodes := inr nodes |}.

(** A hollow node of the group whose label starts with [hollow]. *)
Definition hollowNode (ready : bool) : Node :=
  {| nodeName := "hollow-nodegroup-0-node-0";
     nodeLabels := {[ "NGName" := "hollow-nodegroup-0" ]};
     nodeAddresses := [];
     nodeConditions :=
       [ {| condType := "Ready";
            condStatus := if ready then "True" else "False" |} ] |}.

(** One node group of one node: the halved threshold is 0. *)
Definition oneHollowNode : Hollow.Config :=
  {| Hollow.Enable := true;
     Hollow.Created := true;
     Hollow.Namespace := "hollow";
     Hollow.NodeGroups := 1;
     Hollow.Nodes := 1;
     Hollow.NodeLabelPrefix := "hollow";
     Hollow.RepositoryName := "aws/aws-k8s-tester";
     Hollow.RepositoryImageTag := "latest";
     Hollow.KubeConfigPath := "/tmp/kubeconfig";
     Hollow.CreatedNodeNames := ["hollow-nodegroup-0-node-0"];
     Hollow.TimeFrameCreate := Hollow.NewTimeFrame 0 0;
     Hollow.TimeFrameDelete := Hollow.NewTimeFrame 0 0 |}.

(** A run that starts at one reading of the clock and ends ten minutes
    later. *)
Definition exampleClock : Hollow.Clock :=
  {| Hollow.startNow := 1590000000 * Second;
     Hollow.endNow := 1590000600 * Second |}.

(** A server without state that answers each call by a fixed function. *)
Definition scripted (answer : Call → Reply) : APIServer unit :=
  λ s c, (s, answer c).

Definition hollowWorld (cfg : Hollow.Config) : World unit Hollow.tester :=
  mkWorld tt [] (Hollow.mkTester cfg cfg EmptyString).

(** An API server in memory, to run the testers on: it keeps the objects
    by kind, namespace and name, refuses to create what it has
    (AlreadyExists) and to update or delete what it has not (NotFound);
    files read give a fixed text and the other collaborators succeed. *)
Definition kindName (k : Kind) : string :=
  match k with
  | ServiceAccount => "serviceaccounts"
  | ClusterRole => "clusterroles"
  | ClusterRoleBinding => "clusterrolebindings"
  | ConfigMap => "configmaps"
  | ReplicationController => "replicationcontrollers"
  | NodeObject => "nodes"
  | Deployment => "deployments"
  | Service => "services"
  end.

Definition storeKey (k : Kind) (namespace name : string) : string * string * string :=
  (kindName k, namespace, name).

Definition alreadyExists (k : Kind) (name : string) : error :=
  {| reason := Some StatusReasonAlreadyExists;
     Error := kindName k +:+ " " +:+ name +:+ " already exists" |}.

Definition notFound (k : Kind) (name : string) : error :=
  {| reason := Some StatusReasonNotFound;
     Error := kindName k +:+ " " +:+ name +:+ " not found" |}.

Definition storeServer : APIServer (gmap (string * string * string) Object) :=
  λ store c,
    match c with
    | ApiCreate obj =>
        let key := storeKey (objKind obj) (objNamespace obj) (objName obj) in
        match store !! key with
        | Some _ => (store, ReplyErr (alreadyExists (objKind obj) (objName obj)))
        | None => (<[key := obj]> store, ReplyOK)
        end
    | ApiUpdate obj =>
        let key := storeKey (objKind obj) (objNamespace obj) (objName obj) in
        match store !! key with
        | Some _ => (<[key := obj]> store, ReplyOK)
        | None => (store, ReplyErr (notFound (objKind obj) (objName obj)))
        end
    | ApiDelete k namespace name _ =>
        let key := storeKey k namespace name in
        match store !! key with
        | Some _ => (delete key store, ReplyOK)
        | None => (store, ReplyErr (notFound k name))
        end
    | ReadFile _ => (store, ReplyText "apiVersion: v1")
    | EcrCheck repository tag => (store, ReplyText (repository +:+ ":" +:+ tag))
    | PromptRun _ => (store, ReplyIndex 1)
    | _ => (store, ReplyOK)
    end.

Definition storeWorld {C : Type} (store : gmap (string * string * string) Object)
    (c : C) : World (gmap (string * string * string) Object) C :=
  mkWorld store [] c.

(** A run of [Delete] in which the config map cannot be deleted and the
    namespace does not go away. *)
Definition failingTeardown : APIServer unit :=
  scripted (λ c,
    match c with
    | ApiDelete ConfigMap _ _ _ =>
        ReplyErr {| reason := Some StatusReasonOther;
                    Error := "configmaps is forbidden" |}
    | ApiDelete ServiceAccount _ _ _ =>
        ReplyErr {| reason := Some StatusReasonNotFound;
                    Error := "serviceaccounts gone" |}
    | DeleteNamespaceAndWait _ => ReplyErr (errorsNew "deadline exceeded")
    | _ => ReplyOK
    end).

Definition nlbConfig : NLB.Config :=
  {| NLB.EnablePrompt := false;
     NLB.Namespace := "nlb";
     NLB.DeploymentNodeSelector := ∅;
     NLB.DeploymentReplicas := 2 |}.

(** A cluster that already holds the deployment of the NLB tester. *)
Definition deployedStore : gmap (string * string * string) Object :=
  {[ storeKey Deployment "nlb" NLB.deploymentName := NLB.deployment nlbConfig ]}.

(** Steps that leave a mark in the trace when they are invoked: one that
    succeeds and one that fails with a given message. *)
Definition okStep `{APIServer St} (name : string)
  : M St Hollow.tester PollResult :=
  _ ← call (CreateNamespace name); mret (Returned None).

Definition failStep `{APIServer St} (name msg : string)
  : M St Hollow.tester PollResult :=
  _ ← call (CreateNamespace name); mret (Returned (Some (errorsNew msg))).

(** A run of [Create] in which the kubeconfig file cannot be read. *)
Definition unreadableKubeconfig : APIServer unit :=
  scripted (λ c,
    match c with
    | ReadFile _ =>
        ReplyErr (errorsNew "open /tmp/kubeconfig: no such file or directory")
    | EcrCheck repository tag => ReplyText (repository +:+ ":" +:+ tag)
    | _ => ReplyOK
    end).

(** A cluster that refuses every request to the API. *)
Definition forbidding : APIServer unit :=
  scripted (λ c,
    match c with
    | ApiCreate obj | ApiUpdate obj =>
        ReplyErr {| reason := Some StatusReasonOther;
                    Error := kindName (objKind obj) +:+ " is forbidden" |}
    | ApiDelete k _ _ _ =>
        ReplyErr {| reason := Some StatusReasonOther;
                    Error := kindName k +:+ " is forbidden" |}
    | _ => ReplyOK
    end).

(** A run of [Create] in which the image is not in the repository. *)
Definition noImage : APIServer unit :=
  scripted (λ c,
    match c with
    | EcrCheck _ _ => ReplyErr (errorsNew "image tag not found in repository")
    | _ => ReplyOK
    end).

(** A cluster and collaborators that accept everything. *)
Definition accepting : APIServer unit :=
  scripted (λ c,
    match c with
    | EcrCheck repository tag => ReplyText (repository +:+ ":" +:+ tag)
    | ReadFile _ => ReplyText "apiVersion: v1"
    | _ => ReplyOK
    end).

(** A stand-in for [strconv.Quote] where a statement is run on data. *)
Definition plainQuote : GoQuote := λ s, "'" +:+ s +:+ "'".


(** ** wait.go: the tally of signing requests *)

Module WaitLog.

(** The loop over the signing requests in [waitForNodes]: [allCSRs] maps a
    status to the number of requests that have it. *)
Fixpoint allCSRsLoop (output : list CertificateSigningRequest)
    (allCSRs : gmap string Z) : gmap string Z :=
  match output with
  | [] => allCSRs
  | cv :: rest =>
      let k := Wait.extractCSRStatus cv in
      match allCSRs !! k with
      | None => allCSRsLoop rest (<[k := 1]> allCSRs)
      | Some v => allCSRsLoop rest (<[k := v + 1]> allCSRs)
      end
  end.

(** [allCSRs := make(map[string]int)] and what [ListCSRs] returned; a
    failed list call is logged and leaves the map empty. *)
Definition allCSRs (listCSRs : error + list CertificateSigningRequest)
  : gmap string Z :=
  match listCSRs with
  | inl _ => ∅
  | inr output => allCSRsLoop output ∅
  end.

End WaitLog.

(** How many signing requests of a list have a given status. *)
Definition csrCount (k : string) (output : list CertificateSigningRequest) : Z :=
  Z.of_nat (length (filter (λ cv, Wait.extractCSRStatus cv = k) output)).

(** A node passes the group filter of [waitForNodes]. *)
Definition inGroup (mngName : string) (node : Node) : Prop :=
  label (nodeLabels node) "NGName" = mngName.

(** The error [waitForNodes] returns for a node without host name. *)
Definition errNoHostName `{GoQuote} (node : Node) : error :=
  errorsNew (quote NodeHostName +:+ " not found for node "
             +:+ quote (nodeName node)).

(** Two configurations of the hollow-nodes tester that differ at most in
    [Created] and [CreatedNodeNames]. *)
Definition sameSetup (c c' : Hollow.Config) : Prop :=
  Hollow.setCreated true (Hollow.setCreatedNodeNames [] c)
  = Hollow.setCreated true (Hollow.setCreatedNodeNames [] c').

(** The tester's state while [Create] is at work on the configuration
    [cfg]: the setup is that of [cfg], and [Created] is set, in memory and
    as last written. *)
Definition creating (cfg : Hollow.Config) (ts : Hollow.tester) : Prop :=
  sameSetup (Hollow.EKSConfig ts) cfg
  ∧ Hollow.Created (Hollow.EKSConfig ts) = true
  ∧ Hollow.Created (Hollow.synced ts) = true.

(** An operation keeps a property of the tester's state. *)
Definition keeps `{APIServer St} {A : Type} (P : Hollow.tester → Prop)
    (op : M St Hollow.tester A) : Prop :=
  ∀ w, P (local w) → P (local (op w).2).

(** The names [createHollowNodes] gives the replication controllers, in
    the order of its two loops. *)
Definition hollowNodeName (prefix : string) (i j : Z) : string :=
  (prefix +:+ "-nodegroup-" +:+ pretty i) +:+ "-node-" +:+ pretty j.

Definition hollowNodeNames (cfg : Hollow.Config) : list string :=
  i ← seqZ 0 (Hollow.NodeGroups cfg);
  hollowNodeName (Hollow.NodeLabelPrefix cfg) i <$> seqZ 0 (Hollow.Nodes cfg).

(** The names of the objects that the create requests of a trace carry. *)
Definition createdNames (evs : list Event) : list string :=
  omap (λ ev, match ev with
              | Called (ApiCreate obj) _ => Some (objName obj)
              | _ => None
              end) evs.

(** How a loop that creates [names] in order ended: with [nil] after
    creating them all, or with an error about the last one it tried. *)
Definition createdInOrder (names : list string) (res : option error)
    (created : list string) : Prop :=
  match res with
  | None => created = names
  | Some e =>
      ∃ k name cause,
        names !! k = Some name
        ∧ created = take (S k) names
        ∧ Error e = "while creating hollow node " +:+ name +:+ ", " +:+ cause
  end.

(** ** tester.go: [Apply] and the checks it waits for *)

Module NLBApply.
Import NLB.

(** What one turn of the read loop of [checkService] observes: the clock
    read by the loop condition, which case the [select] took, and what
    [http.ReadInsecure] returned for the URL of the service. *)
Record ReadTick := mkReadTick {
  sinceRetryStart : Z;               (* [time.Since(retryStart)] *)
  stopRequested : bool;              (* the [<-ts.cfg.Stopc] case fired *)
  readInsecure : error + string;     (* [http.ReadInsecure] *)
}.

(** What [Apply] observes besides the replies to its calls: the error of
    [client.WaitForDeploymentCompletes], whether the stop channel fired
    while [Apply] waited for the service, the result of
    [client.WaitForServiceIngressHostname], and the turns of the read
    loop. *)
Record Outside := mkOutside {
  deploymentCompletes : option error;
  stoppedBeforeService : bool;
  ingressHostname : error + string;
  reads : list ReadTick;
}.

Definition expectedHTML : string := "<h1>Hello world!</h1>".

Definition errCancelled : error := errorsNew "cancelled".
Definition errApplyAborted : error :=
  errorsNew "NLB hello-world Service apply aborted".
Definition errCheckAborted : error :=
  errorsNew "hello-world Service creation aborted".
Definition errNoHTML `{GoQuote} (appURL : string) : error :=
  errorsNew ("NLB hello-world " +:+ quote appURL
             +:+ " did not return expected HTML output").

Section WithServer.
Context `{APIServer St} `{GoQuote}.

Local Abbreviation Op := (M St Config).

(** [checkDeployment] returns the error of
    [client.WaitForDeploymentCompletes]. *)
Definition checkDeployment (out : Outside) : Op (option error) :=
  mret (deploymentCompletes out).

(** The read loop of [checkService], [for time.Since(retryStart) <
    3*time.Minute { ... }], and the [if !htmlChecked] after it. *)
Fixpoint readLoop (appURL : string) (history : list ReadTick) : Op PollResult :=
  match history with
  | [] => mret StillPolling
  | t :: rest =>
      if negb (sinceRetryStart t <? 3 * Minute)
      then mret (Returned (Some (errNoHTML appURL)))
      else if stopRequested t then mret (Returned (Some errCheckAborted))
      else
        match readInsecure t with
        | inl _ => _ ← timeSleep (5 * Second); readLoop appURL rest
        | inr httpOutput =>
            if Contains httpOutput expectedHTML
            then mret (Returned None)
            else readLoop appURL rest
        end
  end.

(** [checkService]; what it writes to the log writer is left out. *)
Definition checkService (out : Outside) : Op PollResult :=
  match ingressHostname out with
  | inl err => mret (Returned (Some err))
  | inr hostName =>
      let appURL := "http://" +:+ hostName in
      _ ← timeSleep (20 * Second);
      readLoop appURL (reads out)
  end.

Definition Apply (out : Outside) : Op (Result PollResult) :=
  cfg ← getLocal;
  ok ← runPrompt "apply";
  match ok with
  | Panic e => mret (Panic e)
  | Done false => mret (Done (Returned (Some errCancelled)))
  | Done true =>
      r ← call (CreateNamespace (Namespace cfg));
      match replyErr r with
      | Some err => mret (Done (Returned (Some err)))
      | None =>
          err ← createDeployment;
          match err with
          | Some err => mret (Done (Returned (Some err)))
          | None =>
              err ← checkDeployment out;
              match err with
              | Some err => mret (Done (Returned (Some err)))
              | None =>
                  err ← createService;
                  match err with
                  | Some err => mret (Done (Returned (Some err)))
                  | None =>
                      if stoppedBeforeService out
                      then mret (Done (Returned (Some errApplyAborted)))
                      else res ← checkService out; mret (Done res)
                  end
              end
          end
      end
  end.

End WithServer.
End NLBApply.

(** The calls of a trace, in order. *)
Definition requests (evs : list Event) : list Call :=
  omap (λ ev, match ev with Called c _ => Some c | Slept _ => None end) evs.

(** The prompt is enabled and the answer chosen is not the second item. *)
Definition declines `{APIServer St} (action : string)
    (w : World St NLB.Config) : Prop :=
  NLB.EnablePrompt (local w) = true
  ∧ replyErr (respond (cluster w) (PromptRun action)).2 = None
  ∧ replyIndex (respond (cluster w) (PromptRun action)).2 ≠ 1.

(** The prompt [Apply] and [Delete] open, when prompts are enabled. *)
Definition promptFor (action : string) (cfg : NLB.Config) : list Call :=
  if NLB.EnablePrompt cfg then [PromptRun action] else [].

(** A create request was accepted, or refused because the object exists. *)
Definition createdOrPresent (r : Reply) : Prop :=
  replyErr r = None ∨ IsAlreadyExists (replyErr r) = true.

(** A turn of the read loop that ends it with success. *)
Definition servesExpectedHTML (t : NLBApply.ReadTick) : Prop :=
  NLBApply.sinceRetryStart t < 3 * Minute
  ∧ NLBApply.stopRequested t = false
  ∧ ∃ httpOutput,
      NLBApply.readInsecure t = inr httpOutput
      ∧ Contains httpOutput NLBApply.expectedHTML = true.

(** A prompt answered with the first item, [No, cancel it!]. *)
Definition declining : APIServer unit :=
  scripted (λ c,
    match c with
    | PromptRun _ => ReplyIndex 0
    | _ => ReplyOK
    end).

Definition promptingConfig : NLB.Config :=
  {| NLB.EnablePrompt := true;
     NLB.Namespace := "nlb";
     NLB.DeploymentNodeSelector := ∅;
     NLB.DeploymentReplicas := 2 |}.

(** The deployment completes, the load balancer gets a host name, the
    first read fails and the second returns the page. *)
Definition servedPage : NLBApply.Outside :=
  {| NLBApply.deploymentCompletes := None;
     NLBApply.stoppedBeforeService := false;
     NLBApply.ingressHostname := inr "nlb-0123.elb.us-west-2.amazonaws.com";
     NLBApply.reads :=
       [ {| NLBApply.sinceRetryStart := 5 * Second;
            NLBApply.stopRequested := false;
            NLBApply.readInsecure := inl (errorsNew "connection refused") |};
         {| NLBApply.sinceRetryStart := 15 * Second;
            NLBApply.stopRequested := false;
            NLBApply.readInsecure :=
              inr "<html><body><h1>Hello world!</h1></body></html>" |} ] |}.

(** ** wait.go: [waitForNodes] before the poll *)

Module WaitSetup.

(** [ec2config.Instance] as [waitForNodes] stores it: the instance that
    [ec2config.ConvertInstance] returned, and the user name it is given. *)
Record StoredInstance := mkStoredInstance {
  converted : Instance;
  instanceUserName : string;          (* [ivv.RemoteAccessUserName] *)
}.

(** [eksconfig.MNG], the fields [waitForNodes] reads or writes. *)
Record MNG := mkMNG {
  Name : string;
  RemoteAccessUserName : string;
  RemoteAccessSecurityGroupID : string;
  AMIType : string;
  ASGName : string;
  ASGMinSize : Z;
  ASGDesiredCapacity : Z;
  Instances : gmap string StoredInstance;
}.

Definition setRemoteAccessSecurityGroupID (id : string) (cur : MNG) : MNG :=
  mkMNG (Name cur) (RemoteAccessUserName cur) id (AMIType cur) (ASGName cur)
    (ASGMinSize cur) (ASGDesiredCapacity cur) (Instances cur).

Definition setASGName (name : string) (cur : MNG) : MNG :=
  mkMNG (Name cur) (RemoteAccessUserName cur) (RemoteAccessSecurityGroupID cur)
    (AMIType cur) name (ASGMinSize cur) (ASGDesiredCapacity cur) (Instances cur).

Definition setInstances (instances : gmap string StoredInstance) (cur : MNG)
  : MNG :=
  mkMNG (Name cur) (RemoteAccessUserName cur) (RemoteAccessSecurityGroupID cur)
    (AMIType cur) (ASGName cur) (ASGMinSize cur) (ASGDesiredCapacity cur)
    instances.

(** [eksconfig.NodeInfo]. *)
Record NodeInfo := mkNodeInfo {
  NodeGroupName : string;
  infoAMIType : string;
  infoPublicIP : string;
  infoPublicDNSName : string;
  UserName : string;
}.

(** [eksconfig.Config], the fields [waitForNodes] reads or writes:
    [Name], [AddOnManagedNodeGroups.MNGs] and
    [Status.PrivateDNSToNodeInfo]; both maps are taken to be allocated. *)
Record EKSConfig := mkEKSConfig {
  ClusterName : string;
  MNGs : gmap string MNG;
  PrivateDNSToNodeInfo : gmap string NodeInfo;
}.

Definition setMNG (mngName : string) (cur : MNG) (cfg : EKSConfig) : EKSConfig :=
  mkEKSConfig (ClusterName cfg) (<[mngName := cur]> (MNGs cfg))
    (PrivateDNSToNodeInfo cfg).

Definition setPrivateDNSToNodeInfo (infos : gmap string NodeInfo)
    (cfg : EKSConfig) : EKSConfig :=
  mkEKSConfig (ClusterName cfg) (MNGs cfg) infos.

(** [dout.Nodegroup.Resources], the fields read: the names of the
    auto scaling groups and the security group, each a [*string]. *)
Record Resources := mkResources {
  AutoScalingGroups : list (option string);
  RemoteAccessSecurityGroup : option string;
}.

(** What [DescribeNodegroup] returns: an error, or an output whose
    [Nodegroup] may be [nil], and whose [Nodegroup.Resources] may be. *)
Definition DescribeOutput : Type := error + option (option Resources).

(** [aws.StringValue]. *)
Definition StringValue (p : option string) : string := default EmptyString p.

(** What [waitForNodes] does to the world around it, in order. *)
Inductive Step :=
  | DescribeNodegroup (clusterName nodegroupName : string)
  | Sleep (d : Z)                                   (* [time.Sleep(d)] *)
  | WaitUntilRunning (timeout : Z) (asgName : string)
  | Sync (written : EKSConfig).                     (* [EKSConfig.Sync()] *)

Record State := mkState {
  config : EKSConfig;
  steps : list Step;
}.

Definition did (step : Step) (st : State) : State :=
  mkState (config st) (steps st ++ [step]).

(** [ts.cfg.EKSConfig.AddOnManagedNodeGroups.MNGs[mngName] = cur] followed
    by [ts.cfg.EKSConfig.Sync()]. *)
Definition store (mngName : string) (cur : MNG) (st : State) : State :=
  let cfg := setMNG mngName cur (config st) in
  mkState cfg (steps st ++ [Sync cfg]).

(** Go ranges over a map in an order that it does not specify; the order
    is left to a parameter. *)
Class MapRange := rangeOver : gmap string StoredInstance → list StoredInstance.

(** What the poll reads of the node group. *)
Definition pollView (cur : MNG) : Wait.MNG :=
  Wait.mkMNG (ASGMinSize cur) (ASGDesiredCapacity cur)
    (converted <$> Instances cur).

(** The loop that fills [Status.PrivateDNSToNodeInfo]. *)
Fixpoint nodeInfoLoop (cur : MNG) (instances : list StoredInstance)
    (infos : gmap string NodeInfo) : gmap string NodeInfo :=
  match instances with
  | [] => infos
  | inst :: rest =>
      nodeInfoLoop cur rest
        (<[PrivateDNSName (converted inst) :=
             {| NodeGroupName := Name cur;
                infoAMIType := AMIType cur;
                infoPublicIP := PublicIP (converted inst);
                infoPublicDNSName := PublicDNSName (converted inst);
                UserName := RemoteAccessUserName cur |}]> infos)
  end.

(** How far [waitForNodes] got before the poll: the answers ran out, it
    returned an error, or it reached the poll with [cur]. *)
Inductive Outcome :=
  | Unanswered
  | Failed (err : error)
  | Polls (cur : MNG).

Definition errNoMNG `{GoQuote} (mngName : string) : error :=
  errorsNew ("MNGs[" +:+ quote mngName +:+ "] not found").

Definition errNoSecurityGroup `{GoQuote} (mngName : string) : error :=
  errorsNew ("remote access security group ID not found for mng "
             +:+ quote mngName).

Section WithQuote.
Context `{GoQuote} `{MapRange}.

(** [waitForNodes] from the instances that run to the poll. *)
Definition recordInstances (mngName : string)
    (ec2Instances : gmap string Instance) (st : State) : Outcome * State :=
  match MNGs (config st) !! mngName with
  | None => (Failed (errNoMNG mngName), st)
  | Some cur =>
      let cur :=
        setInstances
          ((λ vv, mkStoredInstance vv (RemoteAccessUserName cur)) <$> ec2Instances)
          cur in
      let infos :=
        nodeInfoLoop cur (rangeOver (Instances cur))
          (PrivateDNSToNodeInfo (config st)) in
      let st := mkState (setPrivateDNSToNodeInfo infos (config st)) (steps st) in
      let st := store mngName cur st in
      match MNGs (config st) !! mngName with
      | None => (Failed (errNoMNG mngName), st)
      | Some cur => (Polls cur, st)
      end
  end.

(** [waitForNodes] from the security group found to the poll. *)
Definition recordASG (mngName : string) (cur : MNG) (asg : option string)
    (running : error + gmap string Instance) (st : State) : Outcome * State :=
  let st := store mngName cur st in
  match MNGs (config st) !! mngName with
  | None => (Failed (errNoMNG mngName), st)
  | Some cur =>
      let cur := setASGName (StringValue asg) cur in
      let st := store mngName cur st in
      let waitDur := Wait.waitDur (pollView cur) in
      let st := did (WaitUntilRunning waitDur (ASGName cur)) st in
      match running with
      | inl err => (Failed err, st)
      | inr ec2Instances => recordInstances mngName ec2Instances st
      end
  end.

(** [waitForNodes] up to the poll. [describes] holds what the calls of
    [DescribeNodegroup] return, one answer for each call; the function
    calls itself to retry, and each call describes the node group anew. *)
Fixpoint setup (mngName : string) (retriesLeft : Z)
    (describes : list DescribeOutput) (running : error + gmap string Instance)
    (st : State) : Outcome * State :=
  match MNGs (config st) !! mngName with
  | None => (Failed (errNoMNG mngName), st)
  | Some cur =>
      match describes with
      | [] => (Unanswered, st)
      | dout :: describes =>
          let st := did (DescribeNodegroup (ClusterName (config st)) (Name cur)) st in
          match dout with
          | inl err => (Failed err, st)
          | inr None =>
              (Failed (errorsNew ("MNG " +:+ quote (Name cur) +:+ " not found")), st)
          | inr (Some None) =>
              (Failed (errorsNew ("MNG " +:+ quote (Name cur)
                                  +:+ " Resources not found")), st)
          | inr (Some (Some resources)) =>
              match AutoScalingGroups resources with
              | [asg] =>
                  let cur :=
                    if String.eqb (RemoteAccessSecurityGroupID cur) EmptyString
                    then setRemoteAccessSecurityGroupID
                           (StringValue (RemoteAccessSecurityGroup resources)) cur
                    else cur in
                  if String.eqb (RemoteAccessSecurityGroupID cur) EmptyString
                  then
                    if 0 <? retriesLeft
                    then
                      let st := did (Sleep (5 * Second)) st in
                      setup mngName (retriesLeft - 1) describes running st
                    else (Failed (errNoSecurityGroup mngName), st)
                  else recordASG mngName cur asg running st
              | asgs =>
                  (Failed (errorsNew
                     ("expected 1 ASG for " +:+ quote mngName +:+ ", got "
                      +:+ pretty (Z.of_nat (length asgs)))), st)
              end
          end
      end
  end.

(** [waitForNodes]: the part before the poll, the poll, and the [Sync]
    before [return nil]. *)
Definition waitForNodes (mngName : string) (retriesLeft : Z)
    (describes : list DescribeOutput) (running : error + gmap string Instance)
    (history : list PollTick) (st : State) : PollResult * State :=
  match setup mngName retriesLeft describes running st with
  | (Unanswered, st) => (StillPolling, st)
  | (Failed err, st) => (Returned (Some err), st)
  | (Polls cur, st) =>
      match Wait.waitForNodes mngName (pollView cur) history with
      | Returned None => (Returned None, did (Sync (config st)) st)
      | res => (res, st)
      end
  end.

(** [Wait]. *)
Definition Wait (mngName : string) (retries : Z)
    (describes : list DescribeOutput) (running : error + gmap string Instance)
    (history : list PollTick) (st : State) : PollResult * State :=
  waitForNodes mngName retries describes running history st.

End WithQuote.
End WaitSetup.

(** The node groups described and the pauses made, as a list of steps
    shows them. *)
Definition describeCalls (steps : list WaitSetup.Step) : list (string * string) :=
  omap (λ s, match s with
             | WaitSetup.DescribeNodegroup c n => Some (c, n)
             | _ => None
             end) steps.

Definition sleeps (steps : list WaitSetup.Step) : list Z :=
  omap (λ s, match s with WaitSetup.Sleep d => Some d | _ => None end) steps.

(** The configuration written last, if one was written. *)
Definition lastSynced (steps : list WaitSetup.Step) : option WaitSetup.EKSConfig :=
  last (omap (λ s, match s with WaitSetup.Sync cfg => Some cfg | _ => None end)
          steps).

(** An answer of [DescribeNodegroup] with one auto scaling group and no
    security group for remote access. *)
Definition lacksSecurityGroup (dout : WaitSetup.DescribeOutput) : Prop :=
  ∃ asg sg, dout = inr (Some (Some (WaitSetup.mkResources [asg] sg)))
            ∧ WaitSetup.StringValue sg = EmptyString.

(** The steps of [n] retries: a describe, and [n] times a pause and a
    describe. *)
Fixpoint retrySteps (clusterName nodegroupName : string) (n : nat)
  : list WaitSetup.Step :=
  match n with
  | O => [WaitSetup.DescribeNodegroup clusterName nodegroupName]
  | S n => WaitSetup.DescribeNodegroup clusterName nodegroupName
           :: WaitSetup.Sleep (5 * Second)
           :: retrySteps clusterName nodegroupName n
  end.

(** The entry [waitForNodes] writes for an instance. *)
Definition nodeInfoOf (cur : WaitSetup.MNG) (vv : Instance) : WaitSetup.NodeInfo :=
  {| WaitSetup.NodeGroupName := WaitSetup.Name cur;
     WaitSetup.infoAMIType := WaitSetup.AMIType cur;
     WaitSetup.infoPublicIP := PublicIP vv;
     WaitSetup.infoPublicDNSName := PublicDNSName vv;
     WaitSetup.UserName := WaitSetup.RemoteAccessUserName cur |}.

(** A range over the values in the order of the keys. *)
Definition valuesInKeyOrder : WaitSetup.MapRange := λ m, (map_to_list m).*2.

(** A cluster with one node group, stored under the key [mng]; [sg] is the
    security group the configuration has for it. *)
Definition groupConfig (sg : string) : WaitSetup.EKSConfig :=
  {| WaitSetup.ClusterName := "eks-test";
     WaitSetup.MNGs :=
       {[ "mng" := {| WaitSetup.Name := "mng-a";
                      WaitSetup.RemoteAccessUserName := "ec2-user";
                      WaitSetup.RemoteAccessSecurityGroupID := sg;
                      WaitSetup.AMIType := "AL2_x86_64";
                      WaitSetup.ASGName := EmptyString;
                      WaitSetup.ASGMinSize := 1;
                      WaitSetup.ASGDesiredCapacity := 1;
                      WaitSetup.Instances := ∅ |} ]};
     WaitSetup.PrivateDNSToNodeInfo := ∅ |}.

(** Answers of [DescribeNodegroup] with one auto scaling group, without
    and with a security group. *)
Definition describedWithout : WaitSetup.DescribeOutput :=
  inr (Some (Some {| WaitSetup.AutoScalingGroups := [Some "asg-1"];
                     WaitSetup.RemoteAccessSecurityGroup := None |})).

Definition describedWith : WaitSetup.DescribeOutput :=
  inr (Some (Some {| WaitSetup.AutoScalingGroups := [Some "asg-1"];
                     WaitSetup.RemoteAccessSecurityGroup := Some "sg-1" |})).

(** The node group as [waitForNodes] leaves it when one instance runs. *)
Definition groupWithInstance : WaitSetup.MNG :=
  {| WaitSetup.Name := "mng-a";
     WaitSetup.RemoteAccessUserName := "ec2-user";
     WaitSetup.RemoteAccessSecurityGroupID := "sg-1";
     WaitSetup.AMIType := "AL2_x86_64";
     WaitSetup.ASGName := "asg-1";
     WaitSetup.ASGMinSize := 1;
     WaitSetup.ASGDesiredCapacity := 1;
     WaitSetup.Instances :=
       {[ "i-1" := {| WaitSetup.converted := instanceNo "1";
                      WaitSetup.instanceUserName := "ec2-user" |} ]} |}.

(* ===================================================================== *)
(** * Part II: lemmas and theorems *)
(* ===================================================================== *)

(** ** Strings *)

Lemma Split_nonempty s sep : Split s sep ≠ [].
Proof.
  destruct s as [|c s]; simpl; [done|].
  destruct (Ascii.eqb c sep); [done|].
  by destruct (Split s sep).
Qed.

Lemma firstField_cons c s :
  firstField (String c s) =
    if Ascii.eqb c "." then EmptyString else String c (firstField s).
Proof.
  unfold firstField. simpl. destruct (Ascii.eqb c "."); [done|].
  destruct (Split s ".") eqn:E; [|done].
  by destruct (Split_nonempty s ".").
Qed.

(** [firstField s] is the part of [s] before its first ['.']: it holds no
    ['.'], and [s] is either it or it followed by ['.'] and a rest. *)
Lemma firstField_spec s :
  ("."%char ∉ bytes (firstField s))
  ∧ (s = firstField s ∨ ∃ rest, s = firstField s +:+ String "." rest).
Proof.
  induction s as [|c s [IHn IHs]].
  - split; [|by left]. unfold bytes. simpl. apply not_elem_of_nil.
  - rewrite firstField_cons. destruct (Ascii.eqb_spec c ".") as [->|Hc].
    + split; [unfold bytes; simpl; apply not_elem_of_nil|].
      right. by exists s.
    + split.
      * unfold bytes in *. simpl. rewrite not_elem_of_cons. split; [congruence|done].
      * destruct IHs as [IHs|[rest IHs]].
        -- left. by rewrite <- IHs.
        -- right. exists rest.
           change (String c s = String c (firstField s +:+ String "." rest)).
           by f_equal.
Qed.

Lemma firstField_no_dot s : "."%char ∉ bytes s → firstField s = s.
Proof.
  induction s as [|c s IH]; [done|].
  unfold bytes in *. simpl. rewrite not_elem_of_cons. intros [Hc Hs].
  rewrite firstField_cons. destruct (Ascii.eqb_spec c "."); [congruence|].
  by rewrite IH.
Qed.

Lemma firstField_idemp s : firstField (firstField s) = firstField s.
Proof. apply firstField_no_dot, firstField_spec. Qed.

Lemma append_cons a s t : String a s +:+ t = String a (s +:+ t).
Proof. reflexivity. Qed.

Lemma append_nil_l s : "" +:+ s = s.
Proof. reflexivity. Qed.

Lemma append_nil_r s : s +:+ "" = s.
Proof. induction s as [|a s IH]; [done|]. rewrite ?append_cons. by f_equal. Qed.

Lemma append_assoc s1 s2 s3 : (s1 +:+ s2) +:+ s3 = s1 +:+ s2 +:+ s3.
Proof. induction s1 as [|a s1 IH]; [done|]. rewrite ?append_cons. by f_equal. Qed.

Lemma prefix_spec p s : String.prefix p s = true ↔ ∃ post, s = p +:+ post.
Proof.
  revert s. induction p as [|a p IH]; intros s.
  - split; [intros _; by exists s|]. intros _. by destruct s.
  - destruct s as [|b s]; cbn [String.prefix].
    + split; [done|]. by intros [post Hpost].
    + destruct (ascii_dec a b) as [->|Hab].
      * rewrite IH. split; intros [post Hpost]; exists post.
        -- rewrite ?append_cons. by f_equal.
        -- rewrite append_cons in Hpost. by injection Hpost.
      * split; [done|]. intros [post Hpost].
        rewrite append_cons in Hpost. by injection Hpost as -> _.
Qed.

(** [Contains s substr] holds iff [substr] occurs in [s]. *)
Lemma Contains_spec s substr :
  Contains s substr = true ↔ ∃ pre post, s = pre +:+ substr +:+ post.
Proof.
  induction s as [|a s IH].
  - cbn [Contains]. destruct (String.prefix substr "") eqn:Hp.
    + split; [|done]. intros _. apply prefix_spec in Hp as [post Hp].
      by exists "", post.
    + split; [done|]. intros (pre & post & Hs).
      destruct pre; [|done]. rewrite ?append_cons, ?append_nil_l in Hs.
      assert (String.prefix substr "" = true) by (apply prefix_spec; by exists post).
      congruence.
  - cbn [Contains]. destruct (String.prefix substr (String a s)) eqn:Hp.
    + split; [|done]. intros _. apply prefix_spec in Hp as [post Hp].
      by exists "", post.
    + rewrite IH. split.
      * intros (pre & post & ->). by exists (String a pre), post.
      * intros (pre & post & Hs). destruct pre as [|b pre].
        -- rewrite ?append_cons, ?append_nil_l in Hs.
           assert (String.prefix substr (String a s) = true)
             by (apply prefix_spec; by exists post).
           congruence.
        -- rewrite ?append_cons, ?append_nil_l in Hs. injection Hs as _ ->. by exists pre, post.
Qed.

Lemma Contains_refl s : Contains s s = true.
Proof. apply Contains_spec. exists "", "". by rewrite append_nil_r. Qed.

Lemma Contains_within pre s post substr :
  Contains s substr = true → Contains (pre +:+ s +:+ post) substr = true.
Proof.
  rewrite !Contains_spec. intros (a & b & ->).
  exists (pre +:+ a), (b +:+ post). by rewrite !append_assoc.
Qed.

Lemma Contains_trans s mid substr :
  Contains s mid = true → Contains mid substr = true → Contains s substr = true.
Proof.
  intros Hs Hm. apply Contains_spec in Hs as (pre & post & ->).
  by apply Contains_within.
Qed.

Lemma Join_cons_cons e e' rest sep :
  Join (e :: e' :: rest) sep = e +:+ sep +:+ Join (e' :: rest) sep.
Proof. reflexivity. Qed.

(** Every element of a joined list occurs in the result. *)
Lemma Contains_Join elems sep x :
  x ∈ elems → Contains (Join elems sep) x = true.
Proof.
  induction elems as [|e rest IH]; intros Hin; [by apply elem_of_nil in Hin|].
  apply elem_of_cons in Hin as [->|Hin].
  - destruct rest as [|e' rest]; [apply Contains_refl|].
    rewrite Join_cons_cons.
    apply Contains_spec. by exists "", (sep +:+ Join (e' :: rest) sep).
  - specialize (IH Hin). destruct rest as [|e' rest]; [by apply elem_of_nil in Hin|].
    rewrite Join_cons_cons.
    rewrite <- (append_nil_r (Join (e' :: rest) sep)), <- append_assoc.
    by apply Contains_within.
Qed.

(** ** The identity set *)

Section identity_set.
Import Wait.

Lemma elem_of_ec2PrivateDNSLoop (instances : list Instance) (set : gset string) x :
  x ∈ ec2PrivateDNSLoop instances set ↔
    x ∈ set ∨ ∃ v, v ∈ instances
      ∧ (x = PrivateDNSName v ∨ x = firstField (PrivateDNSName v)).
Proof.
  revert set. induction instances as [|v rest IH]; intros set; simpl.
  - split; [by left|]. intros [?|(v & Hv & _)]; [done|]. by apply elem_of_nil in Hv.
  - rewrite IH. rewrite !elem_of_union, !elem_of_singleton. split.
    + intros [[Hx|[Hx|Hx]]|(v' & Hv' & Hx)].
      * right. exists v. split; [apply list_elem_of_here|by right].
      * right. exists v. split; [apply list_elem_of_here|by left].
      * by left.
      * right. exists v'. split; [by apply list_elem_of_further|done].
    + intros [Hx|(v' & Hv' & Hx)]; [by left; right; right|].
      apply elem_of_cons in Hv' as [->|Hv'].
      * left. destruct Hx; [right; by left|by left].
      * right. by exists v'.
Qed.

Lemma elem_of_ec2PrivateDNS (instances : gmap string Instance) x :
  x ∈ ec2PrivateDNS instances ↔
    ∃ id v, instances !! id = Some v
      ∧ (x = PrivateDNSName v ∨ x = firstField (PrivateDNSName v)).
Proof.
  unfold ec2PrivateDNS. rewrite elem_of_ec2PrivateDNSLoop. split.
  - intros [Hx|(v & Hv & Hx)]; [by apply not_elem_of_empty in Hx|].
    apply list_elem_of_fmap in Hv as ([id v'] & -> & Hv).
    apply elem_of_map_to_list in Hv. by exists id, v'.
  - intros (id & v & Hv & Hx). right. exists v. split; [|done].
    apply list_elem_of_fmap. exists (id, v). split; [done|].
    by apply elem_of_map_to_list.
Qed.

Lemma belongsTo_spec (set : gset string) h :
  belongsTo set h = true ↔ h ∈ set ∨ firstField h ∈ set.
Proof.
  unfold belongsTo. destruct (bool_decide_reflect (h ∈ set)) as [Hin|Hout]; simpl.
  - split; [by left|done].
  - rewrite bool_decide_eq_true. split; [by right|]. by intros [?|?].
Qed.

End identity_set.

Section host_name.
Import Wait.

(** C2: the identity set holds, per instance, exactly the private DNS name
    and its part before the first ['.']; [belongsTo set h] is true iff [h]
    or the part of [h] before its first ['.'] is in the set; for an
    instance named [ip-1-2-3-4.region.compute.internal] it holds for the
    full name and for [ip-1-2-3-4] and fails for [ip-9-9-9-9]. *)
Theorem C2_identity_set_and_belongsTo :
  (∀ (instances : gmap string Instance) x,
      x ∈ ec2PrivateDNS instances ↔
        ∃ id v, instances !! id = Some v
          ∧ (x = PrivateDNSName v ∨ x = firstField (PrivateDNSName v)))
  ∧ (∀ s, ("."%char ∉ bytes (firstField s))
          ∧ (s = firstField s ∨ ∃ rest, s = firstField s +:+ String "." rest))
  ∧ (∀ (set : gset string) h,
      belongsTo set h = true ↔ h ∈ set ∨ firstField h ∈ set)
  ∧ (∀ id iid ip dns,
      let v := {| InstanceID := iid;
                  PrivateDNSName := "ip-1-2-3-4.region.compute.internal";
                  PublicIP := ip; PublicDNSName := dns |} in
      let set := ec2PrivateDNS {[ id := v ]} in
      belongsTo set "ip-1-2-3-4.region.compute.internal" = true
      ∧ belongsTo set "ip-1-2-3-4" = true
      ∧ belongsTo set "ip-9-9-9-9" = false).
Proof.
  split; [apply elem_of_ec2PrivateDNS|].
  split; [apply firstField_spec|].
  split; [apply belongsTo_spec|].
  intros id iid ip dns v set.
  assert (Hset : ∀ x, x ∈ set ↔
            x = "ip-1-2-3-4.region.compute.internal" ∨ x = "ip-1-2-3-4").
  { intros x. unfold set. rewrite elem_of_ec2PrivateDNS. split.
    - intros (id' & v' & Hv' & Hx).
      apply lookup_singleton_Some in Hv' as [_ <-]. exact Hx.
    - intros Hx. exists id, v. split; [apply lookup_singleton_eq|exact Hx]. }
  split; [|split].
  - apply belongsTo_spec. left. apply Hset. by left.
  - apply belongsTo_spec. left. apply Hset. by right.
  - apply not_true_is_false. rewrite belongsTo_spec, !Hset.
    change (firstField "ip-9-9-9-9") with "ip-9-9-9-9".
    intros [[?|?]|[?|?]]; discriminate.
Qed.

Lemma negb_host_kind av :
  negb (String.eqb (addrType av) NodeHostName)
  && negb (String.eqb (addrType av) NodeInternalDNS)
  = negb (isHostAddress av).
Proof. unfold isHostAddress. by rewrite negb_orb. Qed.

Lemma default_last_cons {A} (d x : A) l :
  default d (last (x :: l)) = default x (last l).
Proof. destruct l as [|y l]; [done|]. rewrite last_cons. by destruct (last (y :: l)). Qed.

(** The address loop ends on the first address of either kind that belongs
    to the set, and otherwise on the last address of either kind; without
    any, it leaves the variable as it was. *)
Lemma hostNameLoop_spec set addresses h0 :
  hostNameLoop set addresses h0 =
    let hosts := filter (λ av, isHostAddress av = true) addresses in
    match filter (λ av, belongsTo set (addrAddress av) = true) hosts with
    | av :: _ => addrAddress av
    | [] => default h0 (last (addrAddress <$> hosts))
    end.
Proof.
  revert h0. induction addresses as [|av rest IH]; intros h0; [done|].
  cbn [hostNameLoop]. rewrite negb_host_kind.
  destruct (isHostAddress av) eqn:Hk; cbn [negb].
  - rewrite (filter_cons_True _ av) by done. cbn zeta.
    destruct (belongsTo set (addrAddress av)) eqn:Hb.
    + by rewrite (filter_cons_True _ av) by done.
    + rewrite (filter_cons_False _ av) by (by rewrite Hb).
      rewrite IH. cbn zeta. rewrite fmap_cons, default_last_cons. done.
  - rewrite (filter_cons_False _ av) by (by rewrite Hk). apply IH.
Qed.

Lemma nodesLoop_app `{GoQuote} mngName set pre post readies :
  nodesLoop mngName set (pre ++ post) readies =
    match nodesLoop mngName set pre readies with
    | inl err => inl err
    | inr readies' => nodesLoop mngName set post readies'
    end.
Proof.
  revert readies. induction pre as [|node pre IH]; intros readies; [done|].
  cbn [app nodesLoop].
  destruct (negb _); [apply IH|].
  destruct (String.eqb _ _); [done|].
  destruct (negb _); [apply IH|].
  destruct (readyLoop _); apply IH.
Qed.

(** The condition loop finds a true Ready condition iff there is one. *)
Lemma readyLoop_spec node :
  readyLoop (nodeConditions node) = true ↔ hasReadyCondition node.
Proof.
  unfold hasReadyCondition. induction (nodeConditions node) as [|c cs IH]; simpl.
  - split; [done|]. intros (c & Hc & _). by apply elem_of_nil in Hc.
  - destruct (String.eqb_spec (condStatus c) ConditionTrue) as [Hs|Hs]; simpl.
    + destruct (String.eqb_spec (condType c) NodeReady) as [Ht|Ht]; simpl.
      * split; [|done]. intros _. exists c. split; [apply list_elem_of_here|done].
      * rewrite IH. split.
        -- intros (c' & Hc' & ?). exists c'. split; [by apply list_elem_of_further|done].
        -- intros (c' & Hc' & Hs' & Ht'). apply elem_of_cons in Hc' as [->|Hc'];
             [done|]. by exists c'.
    + rewrite IH. split.
      * intros (c' & Hc' & ?). exists c'. split; [by apply list_elem_of_further|done].
      * intros (c' & Hc' & Hs' & Ht'). apply elem_of_cons in Hc' as [->|Hc'];
          [done|]. by exists c'.
Qed.

End host_name.

Section host_name_claims.
Import Wait.

(** C5 (as amended): the host name used for the identity check is the first
    address, in enumeration order, whose kind is Hostname or InternalDNS
    and which belongs to the identity set (in full or by its first field);
    when none belongs, it is the last address of either kind; and a node of
    the group with no address of either kind makes the check fail with an
    error that names the node. *)
Theorem C5_host_name_selection `{GoQuote} (mngName : string)
    (set : gset string) (node : Node) :
  let hosts := filter (λ av, isHostAddress av = true) (nodeAddresses node) in
  selectHostName set node =
    match filter (λ av, belongsTo set (addrAddress av) = true) hosts with
    | av :: _ => addrAddress av
    | [] => default EmptyString (last (addrAddress <$> hosts))
    end
  ∧ (hosts = [] →
     label (nodeLabels node) "NGName" = mngName →
     ∀ pre post readies readies',
       nodesLoop mngName set pre readies = inr readies' →
       nodesLoop mngName set (pre ++ node :: post) readies =
         inl (errorsNew (quote NodeHostName +:+ " not found for node "
                         +:+ quote (nodeName node)))).
Proof.
  intros hosts. split; [apply hostNameLoop_spec|].
  intros Hhosts Hlabel pre post readies readies' Hpre.
  rewrite nodesLoop_app, Hpre. cbn [nodesLoop].
  rewrite Hlabel, String.eqb_refl. cbn [negb].
  unfold selectHostName. rewrite hostNameLoop_spec. cbn zeta.
  fold hosts. rewrite Hhosts. done.
Qed.

Lemma C5_host_name_selection_witness :
  nodesLoop (H := plainQuote) "mng" exampleSet ([] ++ bareNode :: []) 0 =
    inl (errorsNew ("'Hostname' not found for node 'node-without-hostname'")).
Proof.
  apply (proj2 (C5_host_name_selection (H := plainQuote) "mng" exampleSet bareNode)
           eq_refl eq_refl [] [] 0 0 eq_refl).
Defined.

(** The claim as worded, with the first address of either kind, fails on a
    node whose Hostname is a DHCP domain name and whose InternalDNS is the
    private DNS name of the instance: the loop passes over the Hostname and
    selects the InternalDNS address. *)
Lemma C5_first_address_counterexample :
  firstHostAddress dhcpNode = "my-private-dns"
  ∧ selectHostName exampleSet dhcpNode = "ip-1-2-3-4.region.compute.internal"
  ∧ selectHostName exampleSet dhcpNode ≠ firstHostAddress dhcpNode.
Proof. vm_compute. split; [done|]. split; [done|]. discriminate. Qed.

End host_name_claims.

(** ** The status of a certificate signing request *)

Section csr_status.
Import Wait.

Lemma csrConditionsLoop_other conditions approved denied :
  (∃ c, c ∈ conditions ∧ c ≠ CertificateApproved ∧ c ≠ CertificateDenied) →
  csrConditionsLoop conditions approved denied = None.
Proof.
  revert approved denied.
  induction conditions as [|c cs IH]; intros approved denied (c' & Hin & Hna & Hnd).
  - by apply elem_of_nil in Hin.
  - simpl. apply elem_of_cons in Hin as [->|Hin].
    + destruct (String.eqb_spec c CertificateApproved); [done|].
      by destruct (String.eqb_spec c CertificateDenied).
    + destruct (String.eqb c CertificateApproved); [by apply IH; exists c'|].
      destruct (String.eqb c CertificateDenied); [by apply IH; exists c'|done].
Qed.

Lemma csrConditionsLoop_known conditions approved denied :
  (∀ c, c ∈ conditions → c = CertificateApproved ∨ c = CertificateDenied) →
  csrConditionsLoop conditions approved denied =
    Some (approved || bool_decide (CertificateApproved ∈ conditions),
          denied || bool_decide (CertificateDenied ∈ conditions)).
Proof.
  revert approved denied.
  induction conditions as [|c cs IH]; intros approved denied Hall;
    cbn [csrConditionsLoop].
  - rewrite !bool_decide_eq_false_2 by apply not_elem_of_nil.
    by rewrite !orb_false_r.
  - assert (Hcs : ∀ c', c' ∈ cs → c' = CertificateApproved ∨ c' = CertificateDenied)
      by (intros c' ?; apply Hall; by apply list_elem_of_further).
    destruct (Hall c (list_elem_of_here _ _)) as [-> | ->].
    + rewrite String.eqb_refl, IH by done. f_equal. f_equal.
      * rewrite (bool_decide_eq_true_2 (_ ∈ _ :: _)) by apply list_elem_of_here.
        by rewrite orb_true_r.
      * f_equal. apply bool_decide_ext. rewrite elem_of_cons.
        unfold CertificateApproved, CertificateDenied.
        split; [by right|]. by intros [?|?].
    + change (String.eqb CertificateDenied CertificateApproved) with false.
      rewrite String.eqb_refl, IH by done. f_equal. f_equal.
      * f_equal. apply bool_decide_ext. rewrite elem_of_cons.
        unfold CertificateApproved, CertificateDenied.
        split; [by right|]. by intros [?|?].
      * rewrite (bool_decide_eq_true_2 (_ ∈ _ :: _)) by apply list_elem_of_here.
        by rewrite orb_true_r.
Qed.

(** C3: [extractCSRStatus] gives Denied when a Denied condition is present,
    whatever the order and whether or not Approved is present too, Approved
    when Approved is present and Denied is not, Pending for the empty
    list, each followed by [,Issued] iff the certificate is not empty; a
    condition of any other type makes the status the empty string. *)
Theorem C3_extractCSRStatus (csr : CertificateSigningRequest) :
  let conditions := csrConditions csr in
  let suffix := if bool_decide (csrCertificate csr ≠ []) then ",Issued" else "" in
  ((∃ c, c ∈ conditions ∧ c ≠ "Approved" ∧ c ≠ "Denied") →
     extractCSRStatus csr = "")
  ∧ ((∀ c, c ∈ conditions → c = "Approved" ∨ c = "Denied") →
       ("Denied" ∈ conditions → extractCSRStatus csr = "Denied" +:+ suffix)
     ∧ ("Denied" ∉ conditions → "Approved" ∈ conditions →
          extractCSRStatus csr = "Approved" +:+ suffix)
     ∧ (conditions = [] → extractCSRStatus csr = "Pending" +:+ suffix)).
Proof.
  intros conditions suffix. unfold extractCSRStatus. fold conditions. split.
  - intros Hother. by rewrite csrConditionsLoop_other.
  - intros Hknown. rewrite csrConditionsLoop_known by done. cbn [orb].
    unfold CertificateApproved, CertificateDenied.
    assert (Hsuffix : ∀ status,
      (if 0 <? Z.of_nat (length (csrCertificate csr))
       then status +:+ ",Issued" else status) = status +:+ suffix).
    { intros status. unfold suffix. destruct (csrCertificate csr) as [|b bs].
      - change (0 <? Z.of_nat (length (@nil ascii))) with false.
        rewrite bool_decide_eq_false_2 by (by intros []).
        induction status as [|a status IH]; [done|].
        change (String a status = String a (status +:+ "")). by f_equal.
      - change (0 <? Z.of_nat (length (b :: bs))) with true.
        by rewrite bool_decide_eq_true_2. }
    split; [|split].
    + intros Hd. rewrite (bool_decide_eq_true_2 _ Hd). apply Hsuffix.
    + intros Hd Ha. rewrite (bool_decide_eq_false_2 _ Hd), (bool_decide_eq_true_2 _ Ha).
      apply Hsuffix.
    + intros Hnil. rewrite Hnil.
      rewrite !bool_decide_eq_false_2 by apply not_elem_of_nil. apply Hsuffix.
Qed.

End csr_status.

(** ** The readiness poll of [waitForNodes] *)

Section readiness_poll.
Import Wait.
Context `{GoQuote}.






(** The poll returns once the history reaches the time budget. *)
Lemma pollLoop_returns mngName cur set history :
  (∃ t, t ∈ history ∧ waitDur cur ≤ elapsed t) →
  pollLoop mngName cur set history ≠ StillPolling.
Proof.
  intros (t & Hin & Ht). induction history as [|t' rest IH];
    [by apply elem_of_nil in Hin|].
  cbn [pollLoop]. destruct (Z.ltb_spec (elapsed t') (waitDur cur)); [|done].
  cbn [negb]. apply elem_of_cons in Hin as [->|Hin]; [lia|].
  repeat case_match; try done; by apply IH.
Qed.


End readiness_poll.

Section readiness_poll_claim.
Import Wait.





(** The specification's example, run: with a minimum of three, three ready
    nodes out of five end the poll with [nil] on the first listing. *)
Example waitForNodes_three_of_five :
  waitForNodes (H := plainQuote) "mng" exampleMNG [tickAt 5 threeReady]
  = Returned None.
Proof. by vm_compute. Qed.

End readiness_poll_claim.

(** ** The monad of the testers *)

Ltac unfold_M :=
  unfold mbind, M_bind, mret, M_ret, call, timeSleep, getLocal, modifyLocal in *.

(** ** The readiness poll of [checkNodes] *)

Section hollow_poll.
Import Hollow.
Context `{APIServer St} `{GoQuote}.

Lemma hollowReadyCount_nonneg prefix items : 0 ≤ hollowReadyCount prefix items.
Proof. unfold hollowReadyCount. lia. Qed.

Lemma hollowNodesLoop_spec prefix items names readies :
  hollowNodesLoop prefix items names readies =
    (names ++ (nodeName <$> filter (λ node, hollowCounted prefix node = true) items),
     readies + hollowReadyCount prefix items).
Proof.
  revert names readies. unfold hollowReadyCount.
  induction items as [|node items IH]; intros names readies.
  - simpl. rewrite app_nil_r. f_equal. lia.
  - cbn [hollowNodesLoop].
    destruct (HasPrefix (label (nodeLabels node) "NGName") prefix) eqn:Hp;
      cbn [negb].
    + destruct (readyLoop (nodeConditions node)) eqn:Hr.
      * rewrite filter_cons_True by (unfold hollowCounted; by rewrite Hp, Hr).
        rewrite IH, fmap_cons, <- app_assoc. simpl length. f_equal. lia.
      * rewrite filter_cons_False by (unfold hollowCounted; by rewrite Hp, Hr).
        apply IH.
    + rewrite filter_cons_False by (unfold hollowCounted; by rewrite Hp).
      apply IH.
Qed.

(** One turn of the loop on a listing: the function returns [nil] when the
    count is positive and at least [expectedNodes], and turns again
    otherwise. *)
Lemma checkNodesLoop_listing cfg t rest (w : World St tester) items :
  elapsed t < checkWaitDur cfg → stopped t = false → listNodes t = inr items →
  checkNodesLoop cfg (t :: rest) w =
    if (0 <? hollowReadyCount (NodeLabelPrefix cfg) items)
       && (expectedNodes cfg <=? hollowReadyCount (NodeLabelPrefix cfg) items)
    then (Returned None, (Sync (afterListing cfg items w)).2)
    else checkNodesLoop cfg rest (afterListing cfg items w).
Proof.
  intros Ht Hs Hl. cbn [checkNodesLoop].
  destruct (Z.ltb_spec (elapsed t) (checkWaitDur cfg)); [|lia]. cbn [negb].
  rewrite Hs, Hl, hollowNodesLoop_spec, Z.add_0_l.
  unfold afterListing, modifyConfig, Sync. unfold_M.
  destruct (respond (cluster w) (KubectlLogs (Namespace cfg))) as [s' r]. simpl.
  by destruct (_ && _).
Qed.

Lemma checkNodesLoop_failed_listing cfg t rest (w : World St tester) err :
  elapsed t < checkWaitDur cfg → stopped t = false → listNodes t = inl err →
  checkNodesLoop cfg (t :: rest) w = checkNodesLoop cfg rest w.
Proof.
  intros Ht Hs Hl. cbn [checkNodesLoop].
  destruct (Z.ltb_spec (elapsed t) (checkWaitDur cfg)); [|lia].
  by rewrite Hs, Hl.
Qed.

Lemma checkNodesLoop_success cfg history (w : World St tester) :
  (checkNodesLoop cfg history w).1 = Returned None →
  ∃ pre t post items,
    history = pre ++ t :: post
    ∧ (checkNodesLoop cfg pre w).1 = StillPolling
    ∧ listNodes t = inr items
    ∧ 0 < hollowReadyCount (NodeLabelPrefix cfg) items
    ∧ expectedNodes cfg ≤ hollowReadyCount (NodeLabelPrefix cfg) items.
Proof.
  revert w. induction history as [|t rest IH]; intros w; [done|].
  destruct (Z.ltb_spec (elapsed t) (checkWaitDur cfg)) as [Ht|Ht];
    [|by cbn [checkNodesLoop]; destruct (Z.ltb_spec (elapsed t) (checkWaitDur cfg));
        [lia|]].
  destruct (stopped t) eqn:Hs;
    [by cbn [checkNodesLoop]; rewrite Hs; destruct (negb _)|].
  destruct (listNodes t) as [err|items] eqn:Hl.
  - rewrite (checkNodesLoop_failed_listing _ _ _ _ err) by done. intros Hret.
    destruct (IH w Hret) as (pre & t' & post & items & -> & Hpre & Hrem).
    exists (t :: pre), t', post, items.
    by rewrite (checkNodesLoop_failed_listing _ _ _ _ err).
  - rewrite (checkNodesLoop_listing _ _ _ _ items) by done.
    destruct ((0 <? _) && _) eqn:Hc.
    + intros _. apply andb_true_iff in Hc as [Hpos Hexp].
      apply Z.ltb_lt in Hpos. apply Z.leb_le in Hexp.
      exists [], t, rest, items. done.
    + intros Hret.
      destruct (IH _ Hret) as (pre & t' & post & items' & -> & Hpre & Hrem).
      exists (t :: pre), t', post, items'. split; [done|]. split; [|done].
      by rewrite (checkNodesLoop_listing _ _ _ _ items), Hc.
Qed.

(** While no listing satisfies the success condition and nobody cancels,
    the loop runs into the time budget. *)
Lemma checkNodesLoop_timed_out cfg pre t post (w : World St tester) :
  checkWaitDur cfg ≤ elapsed t →
  Forall (λ t', elapsed t' < checkWaitDur cfg ∧ stopped t' = false
            ∧ ∀ items, listNodes t' = inr items →
                hollowReadyCount (NodeLabelPrefix cfg) items = 0) pre →
  (checkNodesLoop cfg (pre ++ t :: post) w).1
  = Returned (Some (errNGNotReady cfg)).
Proof.
  intros Ht Hpre. revert w. induction Hpre as [|t' pre (Hel & Hst & Hitems) _ IH];
    intros w.
  - cbn [app checkNodesLoop].
    by destruct (Z.ltb_spec (elapsed t) (checkWaitDur cfg)); [lia|].
  - rewrite <- app_comm_cons. destruct (listNodes t') as [err|items] eqn:Hl.
    + rewrite (checkNodesLoop_failed_listing _ _ _ _ err) by done. apply IH.
    + rewrite (checkNodesLoop_listing _ _ _ _ items), (Hitems items) by done.
      cbn [Z.ltb Z.compare andb]. apply IH.
Qed.

End hollow_poll.

Section hollow_poll_claims.
Import Hollow.

Lemma wrap64_small z : - 2 ^ 63 ≤ z < 2 ^ 63 → wrap64 z = z.
Proof. intros Hz. unfold wrap64. rewrite Z.mod_small; lia. Qed.

Lemma hollowCounted_spec prefix node :
  hollowCounted prefix node = true ↔
    HasPrefix (label (nodeLabels node) "NGName") prefix = true
    ∧ hasReadyCondition node.
Proof. unfold hollowCounted. by rewrite andb_true_iff, readyLoop_spec. Qed.

(** C9: the threshold of the hollow-nodes readiness check is the configured
    node count, [Nodes * NodeGroups], halved by integer division; it
    depends on nothing else in the configuration, the divisor being the
    constant 2; and it is the threshold the loop compares the count of
    ready nodes with. *)
Theorem C9_expectedNodes_halved `{APIServer St} `{GoQuote}
    (w : World St tester) :
  let cfg := EKSConfig (local w) in
  0 ≤ Nodes cfg → 0 ≤ NodeGroups cfg → Nodes cfg * NodeGroups cfg < 2 ^ 63 →
  expectedNodes cfg = (Nodes cfg * NodeGroups cfg) `div` 2
  ∧ (∀ cfg', Nodes cfg' = Nodes cfg → NodeGroups cfg' = NodeGroups cfg →
       expectedNodes cfg' = expectedNodes cfg)
  ∧ (∀ t items,
       elapsed t < checkWaitDur cfg → stopped t = false →
       listNodes t = inr items →
       (checkNodes [t] w).1 =
         if (0 <? hollowReadyCount (NodeLabelPrefix cfg) items)
            && ((Nodes cfg * NodeGroups cfg) `div` 2
                <=? hollowReadyCount (NodeLabelPrefix cfg) items)
         then Returned None else StillPolling).
Proof.
  intros cfg Hn Hg Hsmall.
  assert (Hexp : expectedNodes cfg = (Nodes cfg * NodeGroups cfg) `div` 2).
  { unfold expectedNodes. rewrite wrap64_small by lia.
    apply Z.quot_div_nonneg; lia. }
  split; [exact Hexp|]. split.
  - intros cfg' Hn' Hg'. unfold expectedNodes. by rewrite Hn', Hg'.
  - intros t items Ht Hs Hl.
    change ((checkNodes [t] w).1) with ((checkNodesLoop cfg [t] w).1).
    rewrite (checkNodesLoop_listing _ _ _ _ items), Hexp by done.
    by destruct (_ && _).
Qed.

Lemma C9_expectedNodes_halved_witness :
  expectedNodes oneHollowNode = (1 * 1) `div` 2.
Proof.
  apply (C9_expectedNodes_halved (H := scripted (λ _, ReplyOK)) (H0 := plainQuote)
           (hollowWorld oneHollowNode)); vm_compute; congruence.
Defined.

(** C10: [checkNodes] returns [nil] only on a listing with at least one
    ready node of the group and at least [expectedNodes] of them, also when
    the halved threshold is 0, as for one node in one group; a history
    whose listings show no ready node never yields [nil], and when it
    reaches the time budget without cancellation the function returns the
    not-ready error. *)
Theorem C10_checkNodes_needs_a_ready_node `{APIServer St} `{GoQuote}
    (history : list PollTick) (w : World St tester) :
  let cfg := EKSConfig (local w) in
  let readies := hollowReadyCount (NodeLabelPrefix cfg) in
  (∀ node, hollowCounted (NodeLabelPrefix cfg) node = true ↔
      HasPrefix (label (nodeLabels node) "NGName") (NodeLabelPrefix cfg) = true
      ∧ hasReadyCondition node)
  ∧ ((checkNodes history w).1 = Returned None →
       ∃ pre t post items,
         history = pre ++ t :: post
         ∧ (checkNodes pre w).1 = StillPolling
         ∧ listNodes t = inr items
         ∧ 1 ≤ readies items
         ∧ expectedNodes cfg ≤ readies items)
  ∧ (Nodes cfg * NodeGroups cfg = 1 → expectedNodes cfg = 0)
  ∧ (Forall (λ t, ∀ items, listNodes t = inr items → readies items = 0) history →
       (checkNodes history w).1 ≠ Returned None)
  ∧ (∀ pre t post,
       history = pre ++ t :: post →
       checkWaitDur cfg ≤ elapsed t →
       Forall (λ t', elapsed t' < checkWaitDur cfg ∧ stopped t' = false
                ∧ ∀ items, listNodes t' = inr items → readies items = 0) pre →
       (checkNodes history w).1 = Returned (Some (errNGNotReady cfg))).
Proof.
  intros cfg readies. split; [intros node; apply hollowCounted_spec|].
  assert (Hsucc : (checkNodes history w).1 = Returned None →
       ∃ pre t post items,
         history = pre ++ t :: post
         ∧ (checkNodes pre w).1 = StillPolling
         ∧ listNodes t = inr items
         ∧ 1 ≤ readies items
         ∧ expectedNodes cfg ≤ readies items).
  { intros Hret. apply checkNodesLoop_success in Hret
      as (pre & t & post & items & ? & ? & ? & ? & ?).
    exists pre, t, post, items. repeat split; try done. subst readies cfg. lia. }
  split; [exact Hsucc|]. split; [|split].
  - intros Hone. unfold expectedNodes. by rewrite Hone.
  - intros Hnone Hret.
    destruct (Hsucc Hret) as (pre & t & post & items & -> & _ & Hl & Hpos & _).
    rewrite Forall_app, Forall_cons in Hnone. destruct Hnone as (_ & Ht & _).
    specialize (Ht items Hl). lia.
  - intros pre t post -> Ht Hpre. by apply checkNodesLoop_timed_out.
Qed.

Lemma C10_checkNodes_needs_a_ready_node_witness :
  (checkNodes (H := scripted (λ _, ReplyOK)) (H0 := plainQuote)
     ([tickAt 5 [hollowNode false]] ++ tickAt 300 [hollowNode true] :: [])
     (hollowWorld oneHollowNode)).1
  = Returned (Some (errorsNew "NG 'hollow' not ready")).
Proof.
  apply (proj2 (proj2 (proj2 (proj2
           (C10_checkNodes_needs_a_ready_node
              (H := scripted (λ _, ReplyOK)) (H0 := plainQuote)
              ([tickAt 5 [hollowNode false]] ++ tickAt 300 [hollowNode true] :: [])
              (hollowWorld oneHollowNode)))))
         [tickAt 5 [hollowNode false]] (tickAt 300 [hollowNode true]) [] eq_refl).
  - vm_compute. discriminate.
  - apply Forall_cons. split; [|by apply Forall_nil].
    split; [reflexivity|]. split; [reflexivity|].
    by intros items [= <-].
Defined.

(** With one node in one group the halved threshold is 0, and still a
    listing without ready node does not end the poll, while a listing with
    one does. *)
Example checkNodes_one_node :
  expectedNodes oneHollowNode = 0
  ∧ (checkNodes (H := scripted (λ _, ReplyOK)) (H0 := plainQuote)
       [tickAt 5 [hollowNode false]] (hollowWorld oneHollowNode)).1 = StillPolling
  ∧ (checkNodes (H := scripted (λ _, ReplyOK)) (H0 := plainQuote)
       [tickAt 5 [hollowNode false]; tickAt 10 [hollowNode true]]
       (hollowWorld oneHollowNode)).1 = Returned None.
Proof. by vm_compute. Qed.

End hollow_poll_claims.

(** ** Deleting resources *)

Section delete_resources.
Import Hollow.
Context `{APIServer St}.

Lemma deleteFailed_false err :
  deleteFailed err = false ↔
    err = None ∨ IsNotFound err = true
    ∨ ∃ e, err = Some e ∧ Contains (Error e) "not found" = true.
Proof.
  destruct err as [e|]; cbn [deleteFailed]; [|split; [by left|done]].
  rewrite andb_false_iff, !negb_false_iff. split.
  - intros [Hn|Hc]; [right; by left|right; right; by exists e].
  - intros [?|[?|(e' & [= <-] & ?)]]; [done|by left|by right].
Qed.

(** Each delete function sends exactly one delete request, with foreground
    propagation and no grace period, and turns the reply into its result:
    [nil] unless the reply is an error that is not a NotFound. *)
Lemma deleteOp_run (d : DeleteOp) (w : World St tester) :
  let req := deleteRequest (EKSConfig (local w)) d in
  let reply := (respond (cluster w) req).2 in
  cluster (deleteOp d w).2 = (respond (cluster w) req).1
  ∧ trace (deleteOp d w).2 = trace w ++ [Called req reply]
  ∧ EKSConfig (local (deleteOp d w).2) = EKSConfig (local w)
  ∧ (deleteOp d w).1 =
      if deleteFailed (replyErr reply) then deleteWrap d <$> replyErr reply
      else None.
Proof.
  destruct d; cbn [deleteOp deleteRequest deleteWrap];
    unfold deleteServiceAccount, deleteRBACClusterRole,
      deleteRBACClusterRoleBinding, deleteConfigMap, deleteReplicationController,
      getConfig, Sync;
    unfold_M; cbn [local];
    destruct (respond (cluster w) _) as [s' [ | e | text | idx]];
    cbn [replyErr fst snd]; try done;
    destruct (deleteFailed (Some e)); done.
Qed.

Lemma take_node_requests (i : Z) (name : string) (rest : list string) :
  i ≤ 300 →
  take (Z.to_nat (Z.max 1 (302 - i))) (name :: rest)
  = name :: take (Z.to_nat (Z.max 1 (302 - (i + 1)))) rest.
Proof.
  intros Hi. replace (Z.to_nat (Z.max 1 (302 - i)))
    with (S (Z.to_nat (Z.max 1 (302 - (i + 1))))) by lia.
  done.
Qed.

(** The node loop deletes the names in order, up to and including the
    first index above 300, and collects the failures. *)
Lemma deleteCreatedNodesLoop_run names i errs (w : World St tester) :
  ∃ evs,
    trace (deleteCreatedNodesLoop names i errs w).2 = trace w ++ evs
    ∧ actionOf <$> evs
      = (λ n, Request (deleteNodeRequest n))
          <$> take (Z.to_nat (Z.max 1 (302 - i))) names
    ∧ local (deleteCreatedNodesLoop names i errs w).2 = local w
    ∧ (deleteCreatedNodesLoop names i errs w).1
      = errs ++ omap teardownFailure evs.
Proof.
  revert i errs w. induction names as [|name rest IH]; intros i errs w.
  - exists []. cbn. rewrite !app_nil_r. by rewrite take_nil.
  - cbn [deleteCreatedNodesLoop]. unfold_M.
    destruct (respond (cluster w) _) as [s' r] eqn:Hr.
    set (errs' := match replyErr r with
                  | Some e => if deleteFailed (replyErr r) then errs ++ [Error e] else errs
                  | None => errs
                  end).
    assert (Herrs : errs' = errs ++ omap teardownFailure
                      [Called (deleteNodeRequest name) r]).
    { unfold errs'. cbn. destruct (replyErr r) as [e|] eqn:He; cbn.
      - destruct (negb _ && negb _); cbn; by rewrite ?app_nil_r.
      - by rewrite app_nil_r. }
    destruct (Z.ltb_spec 300 i) as [Hi|Hi].
    + exists [Called (deleteNodeRequest name) r]. cbn [fst snd trace local].
      split; [done|]. split; [|split; [done|exact Herrs]].
      replace (Z.to_nat (Z.max 1 (302 - i))) with 1%nat by lia.
      reflexivity.
    + destruct (IH (i + 1) errs'
                  (mkWorld s' (trace w ++ [Called (deleteNodeRequest name) r])
                     (local w)))
        as (evs & Htr & Hplan & Hloc & Hres).
      exists (Called (deleteNodeRequest name) r :: evs).
      fold (deleteNodeRequest name).
      split; [by rewrite Htr; cbn [trace]; rewrite <- app_assoc|].
      split; [by rewrite take_node_requests, !fmap_cons, Hplan by lia|].
      split; [by rewrite Hloc|].
      rewrite Hres, Herrs, <- app_assoc. f_equal.
      cbn [omap list_omap]. by destruct (teardownFailure _).
Qed.

Lemma deleteCreatedNodes_run (w : World St tester) :
  ∃ evs,
    trace (deleteCreatedNodes w).2 = trace w ++ evs
    ∧ actionOf <$> evs
      = (λ n, Request (deleteNodeRequest n))
          <$> take 302 (CreatedNodeNames (EKSConfig (local w)))
    ∧ local (deleteCreatedNodes w).2 = local w
    ∧ (deleteCreatedNodes w).1
      = match omap teardownFailure evs with
        | [] => None
        | errs => Some (errorsNew (Join errs ", "))
        end.
Proof.
  unfold deleteCreatedNodes, getConfig. unfold_M.
  destruct (deleteCreatedNodesLoop_run
              (CreatedNodeNames (EKSConfig (local w))) 0 [] w)
    as (evs & Htr & Hplan & Hloc & Hres).
  exists evs. destruct (deleteCreatedNodesLoop _ 0 [] w) as [errs w'].
  cbn [fst snd] in *. subst errs. cbn [app].
  destruct (omap teardownFailure evs); cbn [fst snd]; done.
Qed.

(** C6: every delete function sends one delete request that carries
    foreground propagation and a grace period of zero seconds, and returns
    [nil] when the reply is [nil], a NotFound by its status, or an error
    whose text holds [not found]; so deleting what is already absent is no
    error. Any other reply is returned as an error. The node loop of
    [deleteCreatedNodes] sends such a request per node and fails only on
    such other replies. *)
Theorem C6_delete_if_exists (d : DeleteOp) (w : World St tester) :
  let cfg := EKSConfig (local w) in
  let req := deleteRequest cfg d in
  let reply := (respond (cluster w) req).2 in
  let options := {| GracePeriodSeconds := Some 0;
                    PropagationPolicy := Some DeletePropagationForeground |} in
  (∃ kind namespace name, req = ApiDelete kind namespace name options)
  ∧ trace (deleteOp d w).2 = trace w ++ [Called req reply]
  ∧ (replyErr reply = None → (deleteOp d w).1 = None)
  ∧ (IsNotFound (replyErr reply) = true → (deleteOp d w).1 = None)
  ∧ (∀ e, replyErr reply = Some e → Contains (Error e) "not found" = true →
       (deleteOp d w).1 = None)
  ∧ (∀ e, replyErr reply = Some e → IsNotFound (Some e) = false →
       Contains (Error e) "not found" = false →
       (deleteOp d w).1 = Some (deleteWrap d e))
  ∧ (∃ evs,
       trace (deleteCreatedNodes w).2 = trace w ++ evs
       ∧ actionOf <$> evs
         = (λ n, Request (ApiDelete NodeObject "" n options))
             <$> take 302 (CreatedNodeNames cfg)
       ∧ ((deleteCreatedNodes w).1 = None ↔ omap teardownFailure evs = [])).
Proof.
  intros cfg req reply options.
  destruct (deleteOp_run d w) as (_ & Htr & _ & Hres).
  fold cfg req reply in Htr, Hres.
  split; [destruct d; by eexists _, _, _|]. split; [exact Htr|].
  rewrite Hres. split; [|split; [|split; [|split]]].
  - by intros ->.
  - intros Hnf. destruct (replyErr reply) as [e|]; [|done].
    cbn [deleteFailed]. by rewrite Hnf.
  - intros e -> Hc. cbn [deleteFailed]. by rewrite Hc, andb_false_r.
  - intros e -> Hnf Hc. cbn [deleteFailed]. by rewrite Hnf, Hc.
  - destruct (deleteCreatedNodes_run w) as (evs & Htr' & Hplan & _ & Hres').
    exists evs. split; [done|]. split; [done|]. rewrite Hres'.
    by destruct (omap teardownFailure evs).
Qed.

End delete_resources.

Lemma C6_delete_if_exists_witness :
  (deleteOp (H := storeServer) DelServiceAccount
     (storeWorld ∅ (Hollow.mkTester oneHollowNode oneHollowNode ""))).1 = None.
Proof.
  apply (proj1 (proj2 (proj2 (proj2
           (C6_delete_if_exists (H := storeServer) DelServiceAccount
              (storeWorld ∅ (Hollow.mkTester oneHollowNode oneHollowNode ""))))))).
  reflexivity.
Defined.

(** ** Teardown *)

Section teardown.
Import Hollow.
Context `{APIServer St}.

Lemma covers_nil : covers [] [].
Proof. split; [done|]. intros f Hf. by apply elem_of_nil in Hf. Qed.

Lemma covers_app msgs1 fails1 msgs2 fails2 :
  covers msgs1 fails1 → covers msgs2 fails2 →
  covers (msgs1 ++ msgs2) (fails1 ++ fails2).
Proof.
  intros [Hiff1 Hq1] [Hiff2 Hq2]. split.
  - rewrite !app_nil. tauto.
  - intros f [Hf|Hf]%elem_of_app.
    + destruct (Hq1 f Hf) as (m & ? & ?). exists m. split; [|done].
      apply elem_of_app. by left.
    + destruct (Hq2 f Hf) as (m & ? & ?). exists m. split; [|done].
      apply elem_of_app. by right.
Qed.

(** A single combined message covers what its parts cover. *)
Lemma covers_Join msgs fails :
  covers msgs fails →
  covers (match msgs with [] => [] | _ => [Join msgs ", "] end) fails.
Proof.
  intros [Hiff Hq]. split.
  - rewrite <- Hiff. by destruct msgs.
  - intros f Hf. destruct (Hq f Hf) as (m & Hm & Hc).
    destruct msgs as [|m0 msgs]; [by apply elem_of_nil in Hm|].
    exists (Join (m0 :: msgs) ", "). split; [apply list_elem_of_here|].
    eapply Contains_trans; [by apply Contains_Join|done].
Qed.

Lemma appendError_app errs err :
  appendError errs err = errs ++ option_list (Error <$> err).
Proof. destruct err; cbn; by rewrite ?app_nil_r. Qed.

Lemma deleteOp_step d :
  teardownStep (deleteOp d) (λ cfg, [Request (deleteRequest cfg d)]).
Proof.
  intros w. destruct (deleteOp_run d w) as (_ & Htr & Hcfg & Hres).
  eexists. split; [exact Htr|]. split; [done|]. split; [done|].
  rewrite Hres. cbn [omap list_omap teardownFailure].
  assert (Hreq : ∃ k ns n o, deleteRequest (EKSConfig (local w)) d = ApiDelete k ns n o)
    by (destruct d; by eexists _, _, _, _).
  destruct Hreq as (k & ns & n & o & ->). cbn [teardownFailure].
  generalize (replyErr (respond (cluster w) (ApiDelete k ns n o)).2).
  intros [e|]; cbn [deleteFailed]; [|apply covers_nil].
  destruct (negb _ && negb _); cbn; [|apply covers_nil].
  split; [done|]. intros f ->%list_elem_of_singleton.
  exists (Error (deleteWrap d e)). split; [apply list_elem_of_here|].
  destruct d; cbn [deleteWrap errorsNew Error];
    first [apply Contains_refl | apply Contains_within, Contains_refl].
Qed.

Lemma deleteCreatedNodes_step :
  teardownStep deleteCreatedNodes
    (λ cfg, (λ n, Request (deleteNodeRequest n)) <$> take 302 (CreatedNodeNames cfg)).
Proof.
  intros w. destruct (deleteCreatedNodes_run w) as (evs & Htr & Hplan & Hloc & Hres).
  exists evs. split; [done|]. split; [done|]. split; [by rewrite Hloc|].
  rewrite Hres.
  pose proof (covers_Join (omap teardownFailure evs) (omap teardownFailure evs)) as Hj.
  destruct (omap teardownFailure evs) as [|f fs] eqn:Hf; [apply covers_nil|].
  apply Hj. split; [done|]. intros f' Hf'. exists f'. split; [done|apply Contains_refl].
Qed.

Ltac run_step lem w evs Htr Hplan Hcfg Hcov r w' :=
  destruct (lem w) as (evs & Htr & Hplan & Hcfg & Hcov);
  cbn [deleteOp] in Htr, Hplan, Hcfg, Hcov |- *;
  match goal with |- context [?op w] =>
    match type of Htr with context [op w] =>
      destruct (op w) as [r w']
    end
  end;
  cbn [fst snd] in Htr, Hplan, Hcfg, Hcov.

Lemma namespace_covers (namespace pre : string) (r : Reply) :
  covers match replyErr r with
         | Some e => [pre +:+ Error e +:+ ")"]
         | None => []
         end
         (omap teardownFailure [Called (DeleteNamespaceAndWait namespace) r]).
Proof.
  cbn [omap list_omap teardownFailure].
  destruct (replyErr r) as [e|]; cbn; [|apply covers_nil].
  split; [done|]. intros f ->%list_elem_of_singleton.
  eexists. split; [apply list_elem_of_here|]. apply Contains_within, Contains_refl.
Qed.

Lemma Delete_run (clock : Clock) (w : World St tester) :
  let cfg := EKSConfig (local w) in
  let frame := NewTimeFrame (startNow clock) (endNow clock) in
  Enable cfg = true → Created cfg = true →
  ∃ evs errs w',
    Delete clock w = (match errs with
                | [] => None
                | _ => Some (errorsNew (Join errs ", "))
                end, w')
    ∧ trace w' = trace w ++ evs
    ∧ actionOf <$> evs = teardownPlan cfg
    ∧ covers errs (omap teardownFailure evs)
    ∧ EKSConfig (local w')
      = setTimeFrameDelete frame
          match errs with [] => setCreated false cfg | _ => cfg end
    ∧ synced (local w') = EKSConfig (local w').
Proof.
  intros cfg frame He Hc. unfold Delete. unfold getConfig at 1. unfold_M.
  cbn beta iota. fold cfg. rewrite He, Hc. cbn [negb].
  run_step (deleteOp_step DelReplicationController) w evs1 Ht1 Hp1 Hc1 Hv1 r1 w1.
  set (w1' := mkWorld (cluster w1) (trace w1 ++ [Slept (2 * Minute)]) (local w1)).
  run_step deleteCreatedNodes_step w1' evs2 Ht2 Hp2 Hc2 Hv2 r2 w2.
  run_step (deleteOp_step DelConfigMap) w2 evs3 Ht3 Hp3 Hc3 Hv3 r3 w3.
  run_step (deleteOp_step DelClusterRoleBinding) w3 evs4 Ht4 Hp4 Hc4 Hv4 r4 w4.
  run_step (deleteOp_step DelClusterRole) w4 evs5 Ht5 Hp5 Hc5 Hv5 r5 w5.
  run_step (deleteOp_step DelServiceAccount) w5 evs6 Ht6 Hp6 Hc6 Hv6 r6 w6.
  destruct (respond (cluster w6) _) as [s7 r7].
  cbn [local trace w1'] in *.
  rewrite Hc2, Hc1 in Hc3. rewrite Hc3 in Hc4. rewrite Hc4 in Hc5.
  rewrite Hc5 in Hc6. rewrite Hc1 in Hc2.
  rewrite Hc1 in Hp2. rewrite Hc2 in Hp3. rewrite Hc3 in Hp4.
  rewrite Hc4 in Hp5. rewrite Hc5 in Hp6. fold cfg in Hp1, Hp2, Hp3, Hp4, Hp5, Hp6, Hc6.
  set (errs := match replyErr r7 with
               | Some e => _ ++ [_]
               | None => _
               end).
  set (nsEvent := Called (DeleteNamespaceAndWait (Namespace cfg)) r7).
  set (evs := evs1 ++ [Slept (2 * Minute)] ++ evs2 ++ evs3 ++ evs4 ++ evs5
              ++ evs6 ++ [nsEvent]).
  assert (Hcov : covers errs (omap teardownFailure evs)).
  { assert (Herrs : errs =
      option_list (Error <$> r1) ++ [] ++ option_list (Error <$> r2)
      ++ option_list (Error <$> r3) ++ option_list (Error <$> r4)
      ++ option_list (Error <$> r5) ++ option_list (Error <$> r6)
      ++ match replyErr r7 with
         | Some e => ["failed to delete hollow nodes namespace (" +:+ Error e +:+ ")"]
         | None => []
         end).
    { unfold errs. destruct (replyErr r7) as [e|]; rewrite !appendError_app;
        cbn [app]; rewrite <- ?app_assoc, ?app_nil_r; done. }
    rewrite Herrs. unfold evs. rewrite !omap_app.
    repeat (apply covers_app; [done|]).
    apply covers_app; [apply covers_nil|].
    repeat (apply covers_app; [done|]).
    apply namespace_covers. }
  assert (Hplan : actionOf <$> evs = teardownPlan cfg).
  { unfold evs, teardownPlan. rewrite !fmap_app, Hp1, Hp2, Hp3, Hp4, Hp5, Hp6. done. }
  assert (Htrace : trace w6 ++ [nsEvent] = trace w ++ evs).
  { rewrite Ht6, Ht5, Ht4, Ht3, Ht2, Ht1. unfold evs. by rewrite <- !app_assoc. }
  exists evs, errs. unfold deferredDelete, Sync, modifyConfig. unfold_M.
  destruct errs as [|m errs'] eqn:Herrs.
  - eexists. split; [reflexivity|]. cbn [trace local EKSConfig synced].
    rewrite Hc6. done.
  - replace (0 <? Z.of_nat (length (m :: errs'))) with true by (symmetry; apply Z.ltb_lt; cbn [length]; lia).
    eexists. split; [reflexivity|]. cbn [trace local EKSConfig synced].
    rewrite Hc6. done.
Qed.

Lemma client_covers (c : Call) (pre : string) (r : Reply) :
  (∃ ns, c = DeleteNamespaceAndWait ns) ∨ (∃ ns n, c = DeleteService ns n)
  ∨ (∃ ns n, c = DeleteDeployment ns n) →
  covers match replyErr r with
         | Some e => [pre +:+ Error e +:+ ")"]
         | None => []
         end
         (omap teardownFailure [Called c r]).
Proof.
  intros Hc. assert (Hf : teardownFailure (Called c r) = Error <$> replyErr r)
    by (destruct Hc as [[? ->]|[(? & ? & ->)|(? & ? & ->)]]; done).
  cbn [omap list_omap]. rewrite Hf.
  destruct (replyErr r) as [e|]; cbn; [|apply covers_nil].
  split; [done|]. intros f ->%list_elem_of_singleton.
  eexists. split; [apply list_elem_of_here|]. apply Contains_within, Contains_refl.
Qed.

(** [Delete] of the NLB tester, once the prompt lets it run. *)
Lemma NLB_Delete_run (w w1 : World St NLB.Config) :
  NLB.runPrompt "delete" w = (NLB.Done true, w1) →
  ∃ evs errs w',
    NLB.Delete w = (NLB.Done match errs with
                             | [] => None
                             | _ => Some (errorsNew (Join errs ", "))
                             end, w')
    ∧ trace w' = trace w1 ++ evs
    ∧ actionOf <$> evs = nlbTeardownPlan (local w)
    ∧ covers errs (omap teardownFailure evs).
Proof.
  intros Hprompt. unfold NLB.Delete. unfold_M. rewrite Hprompt.
  cbn beta iota.
  destruct (respond (cluster w1) _) as [s1 r1]. cbn [cluster trace local].
  destruct (respond s1 _) as [s2 r2]. cbn [cluster trace local].
  destruct (respond s2 _) as [s3 r3]. cbn [cluster trace local].
  set (ns := NLB.Namespace (local w)).
  set (ev1 := Called (DeleteService ns NLB.serviceName) r1).
  set (ev2 := Called (DeleteDeployment ns NLB.deploymentName) r2).
  set (ev3 := Called (DeleteNamespaceAndWait ns) r3).
  set (errs := match replyErr r3 with Some e => _ ++ [_] | None => _ end).
  exists ([ev1] ++ [Slept Minute] ++ [ev2] ++ [Slept Minute] ++ [ev3]), errs.
  assert (Hcov : covers errs (omap teardownFailure
             ([ev1] ++ [Slept Minute] ++ [ev2] ++ [Slept Minute] ++ [ev3]))).
  { assert (Herrs : errs =
      match replyErr r1 with
      | Some e => ["failed to delete Service (" +:+ Error e +:+ ")"]
      | None => []
      end ++ [] ++
      match replyErr r2 with
      | Some e => ["failed to delete Deployment (" +:+ Error e +:+ ")"]
      | None => []
      end ++ [] ++
      match replyErr r3 with
      | Some e => ["failed to delete namespace (" +:+ Error e +:+ ")"]
      | None => []
      end).
    { unfold errs. destruct (replyErr r1), (replyErr r2), (replyErr r3); done. }
    rewrite Herrs, !omap_app.
    apply covers_app; [apply client_covers; right; left; by eexists _, _|].
    apply covers_app; [apply covers_nil|].
    apply covers_app; [apply client_covers; right; right; by eexists _, _|].
    apply covers_app; [apply covers_nil|].
    apply client_covers; left; by eexists. }
  destruct errs as [|m errs'] eqn:Herrs.
  - eexists. split; [reflexivity|]. cbn [trace]. by rewrite <- !app_assoc.
  - replace (0 <? Z.of_nat (length (m :: errs'))) with true
      by (symmetry; apply Z.ltb_lt; cbn [length]; lia).
    eexists. split; [reflexivity|]. cbn [trace]. by rewrite <- !app_assoc.
Qed.

(** C8: past its guards, [Delete] attempts every teardown step whatever the
    earlier steps answered, its error quotes every failure met, and the
    [Created] flag, in memory and as written by [Sync], goes back to
    [false] exactly when no step failed. The deferred function writes the
    time frame of the run in either case: a failed [Delete] changes
    [TimeFrameDelete] and nothing else, [Created] still [true], so that it
    can be run again; a [Delete] without failure changes [Created] and
    [TimeFrameDelete]. [Delete] of the NLB tester attempts its three steps
    likewise and quotes every failure. *)
Theorem C8_teardown_collects_failures (clock : Clock) (w : World St tester)
    (wn wn1 : World St NLB.Config) :
  let cfg := EKSConfig (local w) in
  let frame := NewTimeFrame (startNow clock) (endNow clock) in
  (Enable cfg = true → Created cfg = true →
     ∃ evs,
       trace (Delete clock w).2 = trace w ++ evs
       ∧ actionOf <$> evs = teardownPlan cfg
       ∧ ((Delete clock w).1 = None ↔ omap teardownFailure evs = [])
       ∧ (∀ f, f ∈ omap teardownFailure evs →
            ∃ e, (Delete clock w).1 = Some e ∧ Contains (Error e) f = true)
       ∧ (Created (EKSConfig (local (Delete clock w).2)) = false
          ↔ omap teardownFailure evs = [])
       ∧ (omap teardownFailure evs ≠ [] →
          EKSConfig (local (Delete clock w).2) = setTimeFrameDelete frame cfg)
       ∧ (omap teardownFailure evs = [] →
          EKSConfig (local (Delete clock w).2)
          = setTimeFrameDelete frame (setCreated false cfg))
       ∧ synced (local (Delete clock w).2)
         = EKSConfig (local (Delete clock w).2))
  ∧ (NLB.runPrompt "delete" wn = (NLB.Done true, wn1) →
     ∃ evs,
       trace (NLB.Delete wn).2 = trace wn1 ++ evs
       ∧ actionOf <$> evs = nlbTeardownPlan (local wn)
       ∧ ((NLB.Delete wn).1 = NLB.Done None ↔ omap teardownFailure evs = [])
       ∧ (∀ f, f ∈ omap teardownFailure evs →
            ∃ e, (NLB.Delete wn).1 = NLB.Done (Some e)
                 ∧ Contains (Error e) f = true)).
Proof.
  intros cfg frame. split.
  - intros He Hc.
    destruct (Delete_run clock w He Hc)
      as (evs & errs & w' & -> & Htr & Hplan & Hcov & Hcfg & Hs).
    exists evs. cbn [fst snd]. split; [done|]. split; [done|].
    pose proof (covers_Join _ _ Hcov) as [Hiff Hq]. destruct Hcov as [Hiff' _].
    split; [|split; [|split; [|split; [|split; [|done]]]]].
    + rewrite <- Hiff'. by destruct errs.
    + intros f Hf. destruct (Hq f Hf) as (m & Hm & Hc').
      destruct errs as [|m0 errs]; [by apply elem_of_nil in Hm|].
      apply list_elem_of_singleton in Hm as ->. by eexists.
    + rewrite Hcfg, <- Hiff'. fold cfg.
      destruct errs; cbn [setTimeFrameDelete setCreated Created]; [done|].
      by rewrite Hc.
    + rewrite <- Hiff', Hcfg. by destruct errs.
    + rewrite <- Hiff', Hcfg. by intros ->.
  - intros Hprompt.
    destruct (NLB_Delete_run wn wn1 Hprompt) as (evs & errs & w' & -> & Htr & Hplan & Hcov).
    exists evs. cbn [fst snd]. split; [done|]. split; [done|].
    pose proof (covers_Join _ _ Hcov) as [Hiff Hq]. destruct Hcov as [Hiff' _].
    split.
    + rewrite <- Hiff'. by destruct errs.
    + intros f Hf. destruct (Hq f Hf) as (m & Hm & Hc').
      destruct errs as [|m0 errs]; [by apply elem_of_nil in Hm|].
      apply list_elem_of_singleton in Hm as ->. by eexists.
Qed.

End teardown.

Lemma C8_teardown_collects_failures_witness :
  let out := Hollow.Delete (H := failingTeardown) exampleClock
               (hollowWorld oneHollowNode) in
  let frame := Hollow.NewTimeFrame (Hollow.startNow exampleClock)
                 (Hollow.endNow exampleClock) in
  ∃ evs,
    trace out.2 = [] ++ evs
    ∧ actionOf <$> evs = teardownPlan oneHollowNode
    ∧ (out.1 = None ↔ omap teardownFailure evs = [])
    ∧ (∀ f, f ∈ omap teardownFailure evs →
         ∃ e, out.1 = Some e ∧ Contains (Error e) f = true)
    ∧ (Hollow.Created (Hollow.EKSConfig (local out.2)) = false
       ↔ omap teardownFailure evs = [])
    ∧ (omap teardownFailure evs ≠ [] →
       Hollow.EKSConfig (local out.2)
       = Hollow.setTimeFrameDelete frame oneHollowNode)
    ∧ (omap teardownFailure evs = [] →
       Hollow.EKSConfig (local out.2)
       = Hollow.setTimeFrameDelete frame (Hollow.setCreated false oneHollowNode))
    ∧ Hollow.synced (local out.2) = Hollow.EKSConfig (local out.2).
Proof.
  apply (proj1 (C8_teardown_collects_failures (H := failingTeardown)
                  exampleClock (hollowWorld oneHollowNode)
                  (mkWorld tt [] nlbConfig) (mkWorld tt [] nlbConfig))
           eq_refl eq_refl).
Defined.

(** The run itself: every request is sent, both failures are reported in
    one error, the NotFound of the service account is not one, and
    [Created] stays [true]. *)
Example Delete_failing_teardown :
  let out := Hollow.Delete (H := failingTeardown) exampleClock
               (hollowWorld oneHollowNode) in
  out.1 = Some (errorsNew
            "configmaps is forbidden, failed to delete hollow nodes namespace (deadline exceeded)")
  ∧ actionOf <$> trace out.2 = teardownPlan oneHollowNode
  ∧ Hollow.Created (Hollow.EKSConfig (local out.2)) = true
  ∧ Hollow.Created (Hollow.synced (local out.2)) = true
  ∧ Hollow.TimeFrameDelete (Hollow.EKSConfig (local out.2))
    = Hollow.NewTimeFrame (1590000000 * Second) (1590000600 * Second)
  ∧ Hollow.TimeFrameDelete oneHollowNode = Hollow.NewTimeFrame 0 0.
Proof. by vm_compute. Qed.

(** ** Creating resources *)

Section create_resources.
Import Hollow.
Context `{APIServer St}.

Ltac run_create :=
  unfold createsOrUpdates, sendsCreateOrUpdate, getConfig, Sync;
  unfold_M; cbn [local cluster trace];
  destruct (respond _ (ApiCreate _)) as [? ?] eqn:?;
  match goal with
  | Hr1 : respond _ (ApiCreate _) = (?s1, ?r1) |- _ =>
      destruct (IsAlreadyExists (replyErr r1)) eqn:?;
      cbn [local cluster trace];
      [ destruct (respond s1 (ApiUpdate _)) as [? ?] eqn:?;
        match goal with
        | Hr2 : respond s1 (ApiUpdate _) = (?s2, ?r2) |- _ =>
            exists r2; split;
            [ exists s1, r1; split; [done|]; right; split; [done|];
              exists s2, r2; destruct (replyErr r2);
              cbn [fst snd cluster trace]; by rewrite <- ?app_assoc
            | by destruct (replyErr r2) ]
        end
      | exists r1; split;
        [ exists s1, r1; split; [done|]; left; by destruct (replyErr r1)
        | by destruct (replyErr r1) ] ]
  end.

(** Service account, cluster role binding and replication controller are
    created or else updated. *)
Lemma createOp_run (c : CreateOp) (w : World St tester) :
  createsOrUpdates (createObject (local w) c) (createWrap c) w (createOp c w).
Proof.
  destruct c; cbn [createOp createObject createWrap];
    unfold createServiceAccount, createRBACClusterRoleBinding, createHollowNode;
    run_create.
Qed.

Lemma createOp_local (c : CreateOp) (w : World St tester) :
  EKSConfig (local (createOp c w).2) = EKSConfig (local w)
  ∧ ecrImage (local (createOp c w).2) = ecrImage (local w).
Proof.
  destruct c; cbn [createOp];
    unfold createServiceAccount, createRBACClusterRoleBinding, createHollowNode,
      getConfig, Sync; unfold_M; cbn [local];
    destruct (respond (cluster w) _) as [s1 r1];
    (destruct (IsAlreadyExists (replyErr r1));
     [ cbn [cluster trace local]; destruct (respond s1 _) as [s2 r2];
       destruct (replyErr r2); split; reflexivity
     | destruct (replyErr r1); split; reflexivity ]).
Qed.

(** So is the config map, once the kubeconfig file is read. *)
Lemma createConfigMap_run (w : World St tester) :
  let cfg := EKSConfig (local w) in
  let read := ReadFile (KubeConfigPath cfg) in
  let s0 := (respond (cluster w) read).1 in
  let rb := (respond (cluster w) read).2 in
  let w0 := mkWorld s0 (trace w ++ [Called read rb]) (local w) in
  match replyErr rb with
  | Some e => createConfigMap w = (Some e, w0)
  | None =>
      createsOrUpdates (configMap cfg (replyText rb)) configMapWrap w0
        (createConfigMap w)
  end.
Proof.
  intros cfg read s0 rb w0. subst s0 rb w0 read.
  unfold createConfigMap, getConfig. unfold_M. cbn [local]. fold cfg.
  destruct (respond (cluster w) (ReadFile (KubeConfigPath cfg))) as [s0 rb].
  cbn [fst snd]. destruct (replyErr rb) as [e|]; [done|].
  unfold configMapWrap. run_create.
Qed.

(** The cluster role is created or else updated too. *)
Lemma createRBACClusterRole_run (w : World St tester) :
  ∃ decide, sendsCreateOrUpdate clusterRole w (createRBACClusterRole w).2 decide.
Proof.
  unfold createRBACClusterRole, sendsCreateOrUpdate, Sync. unfold_M.
  cbn [local cluster trace].
  destruct (respond (cluster w) (ApiCreate clusterRole)) as [s1 r1] eqn:Hr1.
  destruct (IsAlreadyExists (replyErr r1)) eqn:Hex; cbn [local cluster trace].
  - destruct (respond s1 (ApiUpdate clusterRole)) as [s2 r2] eqn:Hr2.
    exists r2, s1, r1. split; [done|]. right. split; [done|]. exists s2, r2.
    cbn [fst snd cluster trace]. by rewrite <- app_assoc.
  - exists r1, s1, r1. split; [done|]. by left.
Qed.

(** Its result is [nil] whatever the cluster answers. *)
Lemma createRBACClusterRole_nil (w : World St tester) :
  (createRBACClusterRole w).1 = None.
Proof.
  unfold createRBACClusterRole, Sync. unfold_M.
  destruct (respond (cluster w) _) as [s1 r1].
  destruct (IsAlreadyExists (replyErr r1)); cbn [cluster trace local]; [|done].
  by destruct (respond s1 _).
Qed.

(** Deployment and service are created, and left as they are when
    present. *)
Lemma createDeployment_run (w : World St NLB.Config) :
  createsUnlessPresent (NLB.deployment (local w)) deploymentWrap w
    (NLB.createDeployment w).
Proof.
  unfold NLB.createDeployment, createsUnlessPresent. unfold_M.
  destruct (respond (cluster w) _) as [s1 r1]. exists s1, r1.
  destruct (replyErr r1) as [e|] eqn:He; cbn [fst snd cluster trace].
  - by destruct (IsAlreadyExists (Some e)).
  - done.
Qed.

Lemma createService_run (w : World St NLB.Config) :
  createsUnlessPresent (NLB.service (local w)) serviceWrap w
    (NLB.createService w).
Proof.
  unfold NLB.createService, createsUnlessPresent. unfold_M.
  destruct (respond (cluster w) _) as [s1 r1]. exists s1, r1.
  destruct (replyErr r1) as [e|] eqn:He; cbn [fst snd cluster trace].
  - by destruct (IsAlreadyExists (Some e)).
  - done.
Qed.

Lemma wrapped_None (wrap : error → error) (err : option error) :
  wrap <$> err = None → err = None.
Proof. by destruct err. Qed.

(** On a cluster that holds the object and accepts its update, the create
    functions return [nil]. *)
Lemma createOp_present (c : CreateOp) (w : World St tester) :
  present (cluster w) (createObject (local w) c) → (createOp c w).1 = None.
Proof.
  intros (s1 & e & s2 & r2 & Hc & Hex & Hu & Hok).
  destruct (createOp_run c w) as (decide & (s1' & r1' & Hc' & Hcase) & ->).
  rewrite Hc in Hc'. injection Hc' as <- <-. cbn [replyErr] in Hcase.
  destruct Hcase as [(Hno & _)|(_ & s2' & r2' & Hu' & _ & _ & ->)]; [congruence|].
  rewrite Hu in Hu'. injection Hu' as <- <-. by rewrite Hok.
Qed.

Lemma createOp_twice (c : CreateOp) (w : World St tester) :
  keepsObjects →
  (createOp c w).1 = None → (createOp c (createOp c w).2).1 = None.
Proof.
  intros Hkeep Hfirst. apply createOp_present.
  destruct (createOp_local c w) as [Hcfg Himg].
  assert (Hobj : createObject (local (createOp c w).2) c = createObject (local w) c)
    by (destruct c; cbn [createObject]; by rewrite ?Hcfg, ?Himg).
  rewrite Hobj.
  destruct (createOp_run c w) as (decide & (s1 & r1 & Hc & Hcase) & Hres).
  rewrite Hfirst in Hres. symmetry in Hres. apply wrapped_None in Hres.
  destruct Hcase as [(_ & -> & _ & ->)|(_ & s2 & r2 & Hu & -> & _ & ->)].
  - apply (Hkeep (cluster w) _ s1 r1); [by left|by left].
  - apply (Hkeep s1 _ s2 r2); [by right|by left].
Qed.

Lemma createConfigMap_present (w : World St tester) :
  let cfg := EKSConfig (local w) in
  let read := ReadFile (KubeConfigPath cfg) in
  let rb := (respond (cluster w) read).2 in
  replyErr rb = None →
  present (respond (cluster w) read).1 (configMap cfg (replyText rb)) →
  (createConfigMap w).1 = None.
Proof.
  intros cfg read rb Hread (s1 & e & s2 & r2 & Hc & Hex & Hu & Hok).
  pose proof (createConfigMap_run w) as Hrun. cbv zeta in Hrun.
  fold cfg read rb in Hrun. rewrite Hread in Hrun.
  destruct Hrun as (decide & (s1' & r1' & Hc' & Hcase) & ->).
  cbn [cluster] in Hc'. rewrite Hc in Hc'. injection Hc' as <- <-.
  cbn [replyErr] in Hcase.
  destruct Hcase as [(Hno & _)|(_ & s2' & r2' & Hu' & _ & _ & ->)]; [congruence|].
  rewrite Hu in Hu'. injection Hu' as <- <-. by rewrite Hok.
Qed.

Lemma createConfigMap_local (w : World St tester) :
  EKSConfig (local (createConfigMap w).2) = EKSConfig (local w).
Proof.
  unfold createConfigMap, getConfig, Sync. unfold_M. cbn [local].
  destruct (respond (cluster w) _) as [s0 r0]. cbn [local cluster trace].
  destruct (replyErr r0); [done|]. cbn [local cluster trace].
  destruct (respond s0 _) as [s1 r1]. cbn [local cluster trace].
  destruct (IsAlreadyExists (replyErr r1)); cbn [local cluster trace].
  - destruct (respond s1 _) as [s2 r2]. cbn [local cluster trace].
    by destruct (replyErr r2).
  - by destruct (replyErr r1).
Qed.

(** The config map again, after a call that returned [nil]: the file is
    read anew, and the object made of what it holds now. *)
Lemma createConfigMap_twice (w : World St tester) :
  let cfg := EKSConfig (local w) in
  let read := ReadFile (KubeConfigPath cfg) in
  let rb := (respond (cluster w) read).2 in
  let w1 := (createConfigMap w).2 in
  let rb1 := (respond (cluster w1) read).2 in
  keepsObjects →
  (createConfigMap w).1 = None →
  replyErr rb1 = None → replyText rb1 = replyText rb →
  (respond (cluster w1) read).1 = cluster w1 →
  (createConfigMap w1).1 = None.
Proof.
  intros cfg read rb w1 rb1 Hkeep Hfirst Hread1 Htext Hsame.
  pose proof (createConfigMap_run w) as Hrun. cbv zeta in Hrun.
  fold cfg read rb in Hrun.
  assert (Hcfg : EKSConfig (local w1) = cfg) by apply createConfigMap_local.
  destruct (replyErr rb) as [e|] eqn:Hread.
  { rewrite Hrun in Hfirst. done. }
  destruct Hrun as (decide & (s1 & r1 & Hc & Hcase) & Hres).
  rewrite Hfirst in Hres. symmetry in Hres. apply wrapped_None in Hres.
  cbn [cluster trace] in Hc, Hcase.
  assert (Hpresent : present (cluster w1) (configMap cfg (replyText rb))).
  { subst w1.
    destruct Hcase as [(_ & Hs & _ & Hd)|(_ & s2 & r2 & Hu & Hs & _ & Hd)];
      rewrite Hs; subst decide.
    - apply (Hkeep (respond (cluster w) read).1 _ s1 r1); [by left|by left].
    - apply (Hkeep s1 _ s2 r2); [by right|by left]. }
  apply createConfigMap_present; rewrite Hcfg; fold read rb1.
  - done.
  - by rewrite Hsame, Htext.
Qed.

Lemma createDeployment_twice (w : World St NLB.Config) :
  keepsObjects →
  (NLB.createDeployment w).1 = None →
  (NLB.createDeployment (NLB.createDeployment w).2).1 = None.
Proof.
  intros Hkeep Hfirst.
  destruct (createDeployment_run w) as (s1 & r1 & Hc & Hs & _ & Hres).
  assert (Hlocal : local (NLB.createDeployment w).2 = local w).
  { unfold NLB.createDeployment. unfold_M. destruct (respond _ _) as [? r].
    destruct (replyErr r) as [e|]; [|reflexivity].
    destruct (IsAlreadyExists (Some e)); reflexivity. }
  assert (Hpresent : present s1 (NLB.deployment (local w))).
  { apply (Hkeep (cluster w) _ s1 r1); [by left|].
    rewrite Hfirst in Hres. destruct (IsAlreadyExists (replyErr r1)); [by right|].
    left. symmetry in Hres. by apply wrapped_None in Hres. }
  destruct Hpresent as (s1' & e & _ & _ & Hc' & Hex & _).
  destruct (createDeployment_run (NLB.createDeployment w).2)
    as (s2 & r2 & Hc2 & _ & _ & ->).
  rewrite Hlocal, Hs, Hc' in Hc2. injection Hc2 as <- <-.
  cbn [replyErr]. by rewrite Hex.
Qed.

Lemma createService_twice (w : World St NLB.Config) :
  keepsObjects →
  (NLB.createService w).1 = None →
  (NLB.createService (NLB.createService w).2).1 = None.
Proof.
  intros Hkeep Hfirst.
  destruct (createService_run w) as (s1 & r1 & Hc & Hs & _ & Hres).
  assert (Hlocal : local (NLB.createService w).2 = local w).
  { unfold NLB.createService. unfold_M. destruct (respond _ _) as [? r].
    destruct (replyErr r) as [e|]; [|reflexivity].
    destruct (IsAlreadyExists (Some e)); reflexivity. }
  assert (Hpresent : present s1 (NLB.service (local w))).
  { apply (Hkeep (cluster w) _ s1 r1); [by left|].
    rewrite Hfirst in Hres. destruct (IsAlreadyExists (replyErr r1)); [by right|].
    left. symmetry in Hres. by apply wrapped_None in Hres. }
  destruct Hpresent as (s1' & e & _ & _ & Hc' & Hex & _).
  destruct (createService_run (NLB.createService w).2)
    as (s2 & r2 & Hc2 & _ & _ & ->).
  rewrite Hlocal, Hs, Hc' in Hc2. injection Hc2 as <- <-.
  cbn [replyErr]. by rewrite Hex.
Qed.

(** C4 (as amended): service account, cluster role binding and replication
    controller are created and, when the create is refused with
    AlreadyExists, updated with the same object; any other failure of the
    create, or a failure of the update, is returned in an error that names
    the kind of resource and quotes the cause. So is the config map once
    the kubeconfig file has been read; when the file cannot be read, the
    read error is returned as it is and no request is sent. The cluster
    role is created and, on AlreadyExists, updated likewise. Deployment and
    service are created only: AlreadyExists counts as done, without an
    update, and any other failure is returned wrapped. On a cluster that
    keeps its objects, a call that follows a call that returned no error
    returns no error either; for the config map, provided the file is read
    again without error and with the same content, the read leaving the
    cluster as it is. *)
Theorem C4_create_or_update (w : World St tester) (wn : World St NLB.Config) :
  let cfg := EKSConfig (local w) in
  let read := ReadFile (KubeConfigPath cfg) in
  let rb := (respond (cluster w) read).2 in
  let w0 := mkWorld (respond (cluster w) read).1 (trace w ++ [Called read rb])
              (local w) in
  let w1 := (createConfigMap w).2 in
  (∀ c, createsOrUpdates (createObject (local w) c) (createWrap c) w (createOp c w))
  ∧ (replyErr rb = None →
       createsOrUpdates (configMap cfg (replyText rb)) configMapWrap w0
         (createConfigMap w))
  ∧ (∀ e, replyErr rb = Some e → createConfigMap w = (Some e, w0))
  ∧ (∃ decide, sendsCreateOrUpdate clusterRole w (createRBACClusterRole w).2 decide)
  ∧ createsUnlessPresent (NLB.deployment (local wn)) deploymentWrap wn
      (NLB.createDeployment wn)
  ∧ createsUnlessPresent (NLB.service (local wn)) serviceWrap wn
      (NLB.createService wn)
  ∧ (∀ e, (∀ c, Contains (Error (createWrap c e)) (Error e) = true)
          ∧ Contains (Error (configMapWrap e)) (Error e) = true
          ∧ Contains (Error (deploymentWrap e)) (Error e) = true
          ∧ Contains (Error (serviceWrap e)) (Error e) = true)
  ∧ (∀ e, Contains (Error (createWrap CrServiceAccount e)) "service account" = true
          ∧ Contains (Error (createWrap CrClusterRoleBinding e))
              "ClusterRoleBinding" = true
          ∧ (∀ name nodeGroup,
               Contains (Error (createWrap (CrHollowNode name nodeGroup) e))
                 "ReplicationController" = true)
          ∧ Contains (Error (configMapWrap e)) "configmap" = true
          ∧ Contains (Error (deploymentWrap e)) "Deployment" = true
          ∧ Contains (Error (serviceWrap e)) "Service" = true)
  ∧ (keepsObjects →
       (∀ c, (createOp c w).1 = None → (createOp c (createOp c w).2).1 = None)
       ∧ (replyErr rb = None →
            present (cluster w0) (configMap cfg (replyText rb)) →
            (createConfigMap w).1 = None)
       ∧ ((createConfigMap w).1 = None →
            replyErr (respond (cluster w1) read).2 = None →
            replyText (respond (cluster w1) read).2 = replyText rb →
            (respond (cluster w1) read).1 = cluster w1 →
            (createConfigMap w1).1 = None)
       ∧ (createRBACClusterRole (createRBACClusterRole w).2).1 = None
       ∧ ((NLB.createDeployment wn).1 = None →
            (NLB.createDeployment (NLB.createDeployment wn).2).1 = None)
       ∧ ((NLB.createService wn).1 = None →
            (NLB.createService (NLB.createService wn).2).1 = None)).
Proof.
  intros cfg read rb w0 w1.
  split; [intros c; apply createOp_run|].
  split.
  { intros Hread. pose proof (createConfigMap_run w) as Hrun. cbv zeta in Hrun.
    fold cfg read rb w0 in Hrun. by rewrite Hread in Hrun. }
  split.
  { intros e Hread. pose proof (createConfigMap_run w) as Hrun. cbv zeta in Hrun.
    fold cfg read rb w0 in Hrun. by rewrite Hread in Hrun. }
  split; [apply createRBACClusterRole_run|].
  split; [apply createDeployment_run|].
  split; [apply createService_run|].
  split.
  { intros e. split; [intros []|split; [|split]];
      cbn [createWrap configMapWrap deploymentWrap serviceWrap errorsNew Error];
      try apply Contains_within, Contains_refl.
    rewrite <- (append_nil_r (Error e)) at 1. apply Contains_within, Contains_refl. }
  split.
  { intros e. split; [|split; [|split; [intros name nodeGroup|split; [|split]]]];
      apply Contains_spec.
    - by exists "while creating ", (" (" +:+ Error e +:+ ")").
    - by exists "failed to create kubemark RBAC ", (" (" +:+ Error e +:+ ")").
    - by exists "failed to create hollow node ", (" (" +:+ Error e +:+ ")").
    - by exists "while creating ", (" " +:+ Error e).
    - by exists "failed to create NLB hello-world ", (" (" +:+ Error e +:+ ")").
    - by exists "failed to create NLB hello-world ", (" (" +:+ Error e +:+ ")"). }
  intros Hkeep. split; [intros c; by apply createOp_twice|].
  split; [intros Hread Hp; by apply createConfigMap_present|].
  split; [by apply createConfigMap_twice|].
  split; [apply createRBACClusterRole_nil|].
  split; [by apply createDeployment_twice|by apply createService_twice].
Qed.

End create_resources.

(** The store keeps its objects. *)
Lemma storeServer_keepsObjects : @keepsObjects _ storeServer.
Proof.
  intros store obj store' r Hsent Hok.
  set (key := storeKey (objKind obj) (objNamespace obj) (objName obj)).
  assert (Hin : is_Some (store' !! key)).
  { destruct Hsent as [Hsent|Hsent]; cbn in Hsent; fold key in Hsent;
      destruct (store !! key) as [old|] eqn:Hkey; injection Hsent as <- <-.
    - by exists old.
    - rewrite lookup_insert_eq. by eexists.
    - rewrite lookup_insert_eq. by eexists.
    - by destruct Hok. }
  destruct Hin as [old Hold].
  exists store', (alreadyExists (objKind obj) (objName obj)),
    (<[key := obj]> store'), ReplyOK.
  cbn. fold key. rewrite Hold. done.
Qed.

Lemma C4_create_or_update_witness :
  let w := storeWorld ∅ (Hollow.mkTester oneHollowNode oneHollowNode "") in
  (createOp (H := storeServer) CrServiceAccount
     (createOp (H := storeServer) CrServiceAccount w).2).1 = None
  ∧ (Hollow.createConfigMap (H := storeServer)
       (Hollow.createConfigMap (H := storeServer) w).2).1 = None.
Proof.
  intros w.
  destruct (C4_create_or_update (H := storeServer) w (storeWorld ∅ nlbConfig))
    as (_ & _ & _ & _ & _ & _ & _ & _ & Hagain).
  destruct (Hagain storeServer_keepsObjects) as (Hop & _ & Hmap & _).
  split.
  - apply (Hop CrServiceAccount). reflexivity.
  - apply Hmap; reflexivity.
Defined.

(** The claim as worded fails for the deployment of the NLB tester: on a
    cluster that holds it, the create is refused with AlreadyExists and
    [createDeployment] returns [nil] without sending an update. And the
    error of a refused service account names the kind, not the name. *)
Lemma C4_deployment_counterexample :
  let w := storeWorld deployedStore nlbConfig in
  let out := NLB.createDeployment (H := storeServer) w in
  let refused :=
    Hollow.createServiceAccount (H := forbidding) (hollowWorld oneHollowNode) in
  out.1 = None
  ∧ trace out.2
    = [Called (ApiCreate (NLB.deployment nlbConfig))
         (ReplyErr (alreadyExists Deployment NLB.deploymentName))]
  ∧ ¬ @createsOrUpdates _ storeServer _ (NLB.deployment nlbConfig)
        deploymentWrap w out
  ∧ refused.1
    = Some (errorsNew "while creating service account (serviceaccounts is forbidden)")
  ∧ (∀ e, refused.1 = Some e →
       Contains (Error e) Hollow.hollowNodesServiceAccountName = false).
Proof.
  intros w out refused.
  assert (Hrefused : refused.1 = Some (errorsNew
            "while creating service account (serviceaccounts is forbidden)"))
    by (by vm_compute).
  cut (out.1 = None
       ∧ trace out.2
         = [Called (ApiCreate (NLB.deployment nlbConfig))
              (ReplyErr (alreadyExists Deployment NLB.deploymentName))]
       ∧ ¬ @createsOrUpdates _ storeServer _ (NLB.deployment nlbConfig)
             deploymentWrap w out).
  { intros (? & ? & ?). repeat split; try done.
    intros e He. rewrite Hrefused in He. injection He as <-. by vm_compute. }
  assert (Hres : out.1 = None) by (by vm_compute).
  assert (Htrace : trace out.2
    = [Called (ApiCreate (NLB.deployment nlbConfig))
         (ReplyErr (alreadyExists Deployment NLB.deploymentName))])
    by (vm_compute; reflexivity).
  split; [done|]. split; [done|].
  intros (decide & (s1 & r1 & Hc & Hcase) & _).
  assert (Hreply : (@respond _ storeServer (cluster w)
            (ApiCreate (NLB.deployment nlbConfig))).2
          = ReplyErr (alreadyExists Deployment NLB.deploymentName))
    by (vm_compute; reflexivity).
  rewrite Hc in Hreply. cbn [snd] in Hreply. subst r1.
  destruct Hcase as [(Hno & _)|(_ & s2 & r2 & _ & _ & Htr & _)]; [done|].
  rewrite Htrace in Htr. cbn [trace w storeWorld app] in Htr.
  discriminate.
Qed.

(** The cluster role: a create refused for another reason than
    AlreadyExists is not reported. *)
Example createRBACClusterRole_forbidden :
  (Hollow.createRBACClusterRole (H := forbidding) (hollowWorld oneHollowNode)).1
  = None.
Proof. reflexivity. Qed.

(** ** The step loop of [Create] *)

Section step_loop.
Import Hollow.
Context `{APIServer St}.

(** Steps that return [nil] are run one after the other. *)
Lemma runSteps_app (pre post : list (M St tester PollResult)) (w : World St tester) :
  (runSteps pre w).1 = Returned None →
  runSteps (pre ++ post) w = runSteps post (runSteps pre w).2.
Proof.
  revert w. induction pre as [|step pre IH]; intros w; [done|].
  cbn [app runSteps]. unfold_M. destruct (step w) as [[|[err|]] w1]; try done.
  apply IH.
Qed.

(** X21: the loop stops at the first step that returns an error: the steps
    after it are not run, the world is the one that step left, and the
    error returned is the step's own, behind a fixed text. *)
Lemma runSteps_stops (pre post : list (M St tester PollResult))
    (failing : M St tester PollResult) (w : World St tester) (err : error) :
  (runSteps pre w).1 = Returned None →
  (failing (runSteps pre w).2).1 = Returned (Some err) →
  runSteps (pre ++ failing :: post) w
  = (Returned (Some (errorsNew
       ("while executing step func() error(), " +:+ Error err))),
     (failing (runSteps pre w).2).2).
Proof.
  intros Hpre Hfail. rewrite runSteps_app by done.
  cbn [runSteps]. unfold_M.
  destruct (failing (runSteps pre w).2) as [r w1]. cbn [fst snd] in *.
  by subst r.
Qed.

End step_loop.

(** C7: the step loop runs the steps in order, stops at the first error and
    runs nothing after it, but the error it returns does not name the
    failing step: it prints the type of the step, [func() error], which is
    the same for every step. For [ok, fail, ok] the third step is not
    invoked and the error is the one returned when the first step fails
    with the same message; [Create] with an unreadable kubeconfig returns
    an error that names no step. *)
Theorem C7_step_error_names_no_step :
  let server : APIServer unit := scripted (λ _, ReplyOK) in
  let ok := @okStep unit server in
  let fail := @failStep unit server in
  let run steps := Hollow.runSteps steps (hollowWorld oneHollowNode) in
  (run [ok "step-1"; fail "step-2" "boom"; ok "step-3"]).1
  = Returned (Some (errorsNew "while executing step func() error(), boom"))
  ∧ actionOf <$> trace (run [ok "step-1"; fail "step-2" "boom"; ok "step-3"]).2
    = [Request (CreateNamespace "step-1"); Request (CreateNamespace "step-2")]
  ∧ (run [fail "step-1" "boom"; ok "step-2"; ok "step-3"]).1
    = (run [ok "step-1"; fail "step-2" "boom"; ok "step-3"]).1
  ∧ (Hollow.Create (H := unreadableKubeconfig) (H0 := plainQuote) exampleClock []
       (hollowWorld oneHollowNode)).1
    = Returned (Some (errorsNew
        "while executing step func() error(), open /tmp/kubeconfig: no such file or directory")).
Proof. by vm_compute. Qed.

Lemma C3_extractCSRStatus_witness :
  Wait.extractCSRStatus
    {| csrName := "csr-4msk5";
       csrUsername := "system:node:ip-1-2-3-4.region.compute.internal";
       csrConditions := ["Denied"; "Approved"];
       csrCertificate := [] |}
  = "Denied" +:+ "".
Proof.
  apply (proj1 (proj2 (C3_extractCSRStatus
           {| csrName := "csr-4msk5";
              csrUsername := "system:node:ip-1-2-3-4.region.compute.internal";
              csrConditions := ["Denied"; "Approved"];
              csrCertificate := [] |})
         ltac:(cbn; intros c Hc; repeat (apply elem_of_cons in Hc as [->|Hc]);
               [by right|by left|by apply elem_of_nil in Hc]))).
  apply list_elem_of_here.
Defined.

(** The specification's examples of the status. *)
Example extractCSRStatus_examples :
  Wait.extractCSRStatus
    {| csrName := "a"; csrUsername := "n"; csrConditions := ["Approved"];
       csrCertificate := ["c"%char] |} = "Approved,Issued"
  ∧ Wait.extractCSRStatus
      {| csrName := "a"; csrUsername := "n";
         csrConditions := ["Denied"; "Approved"]; csrCertificate := [] |} = "Denied"
  ∧ Wait.extractCSRStatus
      {| csrName := "a"; csrUsername := "n";
         csrConditions := ["Approved"; "Denied"]; csrCertificate := [] |} = "Denied"
  ∧ Wait.extractCSRStatus
      {| csrName := "a"; csrUsername := "n"; csrConditions := [];
         csrCertificate := [] |} = "Pending"
  ∧ Wait.extractCSRStatus
      {| csrName := "a"; csrUsername := "n"; csrConditions := ["Failed"; "Denied"];
         csrCertificate := ["c"%char] |} = "".
Proof. by vm_compute. Qed.

(* ===================================================================== *)
(** * Part III: further properties of the code *)
(* ===================================================================== *)

(** ** The node loop and the poll of [waitForNodes] *)

Section wait_more.
Import Wait.
Context `{GoQuote}.

Global Instance inGroup_dec mngName node : Decision (inGroup mngName node).
Proof. unfold inGroup. apply _. Defined.

(** X1: the nodes of other groups do not take part in an iteration of
    [waitForNodes]: the node loop gives the same count, or the same error,
    as on the listing without them, whatever their addresses and
    conditions. *)
Theorem nodesLoop_other_groups (mngName : string) (set : gset string)
    (nodes : list Node) (readies : Z) :
  nodesLoop mngName set nodes readies
  = nodesLoop mngName set (filter (inGroup mngName) nodes) readies.
Proof.
  revert readies. induction nodes as [|node nodes IH]; intros readies; [done|].
  destruct (decide (inGroup mngName node)) as [Hin|Hout].
  - rewrite filter_cons_True by done. cbn [nodesLoop].
    destruct (negb _); [apply IH|].
    destruct (String.eqb _ _); [done|].
    destruct (negb _); [apply IH|].
    destruct (readyLoop _); apply IH.
  - rewrite filter_cons_False by done. cbn [nodesLoop].
    unfold inGroup in Hout. apply String.eqb_neq in Hout. rewrite Hout.
    cbn [negb]. apply IH.
Qed.

Lemma pollLoop_app mngName cur set pre post :
  pollLoop mngName cur set (pre ++ post)
  = match pollLoop mngName cur set pre with
    | StillPolling => pollLoop mngName cur set post
    | r => r
    end.
Proof.
  induction pre as [|t pre IH]; [done|]. cbn [app pollLoop].
  destruct (negb _); [done|]. destruct (stopped t); [done|].
  destruct (listNodes t) as [err|nodes]; [done|].
  destruct (nodesLoop _ _ _ _) as [err|n]; [done|].
  by destruct (_ <=? _).
Qed.

(** The first node of the group without host name stops the node loop. *)
Lemma nodesLoop_nameless mngName set nodes readies :
  (∃ node, node ∈ nodes ∧ inGroup mngName node
           ∧ selectHostName set node = EmptyString) →
  ∃ node, node ∈ nodes ∧ inGroup mngName node
          ∧ selectHostName set node = EmptyString
          ∧ nodesLoop mngName set nodes readies = inl (errNoHostName node).
Proof.
  revert readies. induction nodes as [|n nodes IH]; intros readies (node & Hin & Hg & Hn);
    [by apply elem_of_nil in Hin|].
  destruct (decide (inGroup mngName n ∧ selectHostName set n = EmptyString))
    as [[Hgn Hnn]|Hnot].
  - exists n. split; [apply list_elem_of_here|]. split; [done|]. split; [done|].
    cbn [nodesLoop]. unfold inGroup in Hgn.
    by rewrite Hgn, String.eqb_refl, Hnn.
  - apply elem_of_cons in Hin as [->|Hin]; [by destruct Hnot|].
    assert (Hrest : ∀ r, ∃ node', node' ∈ n :: nodes ∧ inGroup mngName node'
              ∧ selectHostName set node' = EmptyString
              ∧ nodesLoop mngName set nodes r = inl (errNoHostName node')).
    { intros r. destruct (IH r) as (node' & ? & ? & ? & ?); [by exists node|].
      exists node'. split; [by apply list_elem_of_further|done]. }
    cbn [nodesLoop].
    destruct (String.eqb_spec (label (nodeLabels n) "NGName") mngName) as [Hl|Hl];
      cbn [negb]; [|apply Hrest].
    destruct (String.eqb_spec (selectHostName set n) EmptyString) as [He|He];
      [by destruct Hnot|].
    destruct (negb _); [apply Hrest|]. destruct (readyLoop _); apply Hrest.
Qed.

(** X2: a listing that contains a node of the group without host name ends
    [waitForNodes] at once with an error that names such a node, however
    many other nodes are ready. *)
Theorem waitForNodes_nameless_node (mngName : string) (cur : MNG)
    (pre post : list PollTick) (t : PollTick) (nodes : list Node) :
  let set := ec2PrivateDNS (mngInstances cur) in
  waitForNodes mngName cur pre = StillPolling →
  elapsed t < waitDur cur → stopped t = false → listNodes t = inr nodes →
  (∃ node, node ∈ nodes ∧ inGroup mngName node
           ∧ selectHostName set node = EmptyString) →
  ∃ node, node ∈ nodes ∧ inGroup mngName node
          ∧ selectHostName set node = EmptyString
          ∧ waitForNodes mngName cur (pre ++ t :: post)
            = Returned (Some (errNoHostName node)).
Proof.
  intros set Hpre Ht Hs Hl Hnameless.
  destruct (nodesLoop_nameless mngName set nodes 0 Hnameless)
    as (node & Hin & Hg & Hn & Hloop).
  exists node. split; [done|]. split; [done|]. split; [done|].
  unfold waitForNodes in *. fold set in Hpre |- *.
  rewrite pollLoop_app, Hpre. cbn [pollLoop].
  destruct (Z.ltb_spec (elapsed t) (waitDur cur)); [|lia]. cbn [negb].
  by rewrite Hs, Hl, Hloop.
Qed.

(** X3: a failed list call is a turn without effect: [waitForNodes] on a
    history with such a turn returns what it returns on the history
    without it. *)
Theorem waitForNodes_list_failure (mngName : string) (cur : MNG)
    (pre post : list PollTick) (t : PollTick) (err : error) :
  elapsed t < waitDur cur → stopped t = false → listNodes t = inl err →
  waitForNodes mngName cur (pre ++ t :: post)
  = waitForNodes mngName cur (pre ++ post).
Proof.
  intros Ht Hs Hl. unfold waitForNodes. rewrite !pollLoop_app.
  destruct (pollLoop _ _ _ pre); [|done]. cbn [pollLoop].
  destruct (Z.ltb_spec (elapsed t) (waitDur cur)); [|lia]. cbn [negb].
  by rewrite Hs, Hl.
Qed.

(** X4: when the stop channel fires in a turn that the time budget still
    allows, [waitForNodes] returns the aborted error, which is neither
    [nil] nor the not-ready error of a timeout. *)
Theorem waitForNodes_aborted (mngName : string) (cur : MNG)
    (pre post : list PollTick) (t : PollTick) :
  waitForNodes mngName cur pre = StillPolling →
  elapsed t < waitDur cur → stopped t = true →
  waitForNodes mngName cur (pre ++ t :: post) = Returned (Some errAborted)
  ∧ errAborted ≠ errNotReady mngName.
Proof.
  intros Hpre Ht Hs. split; [|done].
  unfold waitForNodes in *. rewrite pollLoop_app, Hpre. cbn [pollLoop].
  destruct (Z.ltb_spec (elapsed t) (waitDur cur)); [|lia]. cbn [negb].
  by rewrite Hs.
Qed.

End wait_more.

Lemma waitForNodes_nameless_node_witness :
  ∃ node, node ∈ [nodeNo "1" true; bareNode; nodeNo "2" true; nodeNo "3" true]
          ∧ inGroup "mng" node
          ∧ Wait.selectHostName (Wait.ec2PrivateDNS (Wait.mngInstances exampleMNG)) node
            = EmptyString
          ∧ Wait.waitForNodes (H := plainQuote) "mng" exampleMNG
              ([tickAt 5 twoReady]
               ++ tickAt 10 [nodeNo "1" true; bareNode; nodeNo "2" true; nodeNo "3" true]
               :: [])
            = Returned (Some (errNoHostName (H := plainQuote) node)).
Proof.
  apply (waitForNodes_nameless_node (H := plainQuote) "mng" exampleMNG
           [tickAt 5 twoReady] []
           (tickAt 10 [nodeNo "1" true; bareNode; nodeNo "2" true; nodeNo "3" true])
           [nodeNo "1" true; bareNode; nodeNo "2" true; nodeNo "3" true]);
    [by vm_compute| reflexivity | reflexivity | reflexivity |].
  exists bareNode. split; [apply list_elem_of_further, list_elem_of_here|].
  split; by vm_compute.
Defined.

Lemma waitForNodes_list_failure_witness :
  Wait.waitForNodes (H := plainQuote) "mng" exampleMNG
    ([tickAt 5 twoReady]
     ++ {| elapsed := 10 * Second; stopped := false;
           listNodes := inl (errorsNew "i/o timeout") |}
     :: [tickAt 15 threeReady])
  = Wait.waitForNodes (H := plainQuote) "mng" exampleMNG
      ([tickAt 5 twoReady] ++ [tickAt 15 threeReady]).
Proof.
  apply (waitForNodes_list_failure (H := plainQuote) "mng" exampleMNG
           [tickAt 5 twoReady] [tickAt 15 threeReady]
           {| elapsed := 10 * Second; stopped := false;
              listNodes := inl (errorsNew "i/o timeout") |}
           (errorsNew "i/o timeout")); reflexivity.
Defined.

Lemma waitForNodes_aborted_witness :
  Wait.waitForNodes (H := plainQuote) "mng" exampleMNG
    ([tickAt 5 twoReady]
     ++ {| elapsed := 10 * Second; stopped := true; listNodes := inr threeReady |}
     :: [])
  = Returned (Some errAborted)
  ∧ errAborted ≠ Wait.errNotReady (H := plainQuote) "mng".
Proof.
  apply (waitForNodes_aborted (H := plainQuote) "mng" exampleMNG
           [tickAt 5 twoReady] []
           {| elapsed := 10 * Second; stopped := true; listNodes := inr threeReady |});
    [by vm_compute | reflexivity | reflexivity].
Defined.

(** ** The tally of signing requests *)

Section csr_tally.
Import WaitLog.

Lemma csrCount_cons k cv output :
  csrCount k (cv :: output)
  = (if decide (Wait.extractCSRStatus cv = k) then 1 else 0) + csrCount k output.
Proof.
  unfold csrCount. destruct (decide (Wait.extractCSRStatus cv = k)).
  - rewrite filter_cons_True by done. simpl length. lia.
  - rewrite filter_cons_False by done. lia.
Qed.

(** The loop adds, to each entry, the number of requests with that status;
    an entry is never 0. *)
Lemma allCSRsLoop_lookup output (tally : gmap string Z) k :
  (∀ k' v, tally !! k' = Some v → 0 < v) →
  allCSRsLoop output tally !! k
  = match tally !! k with
    | Some v => Some (v + csrCount k output)
    | None => if decide (csrCount k output = 0) then None
              else Some (csrCount k output)
    end.
Proof.
  revert tally. induction output as [|cv output IH]; intros tally Hpos.
  - cbn [allCSRsLoop]. unfold csrCount. cbn. destruct (tally !! k); [|done].
    f_equal. lia.
  - cbn [allCSRsLoop]. rewrite csrCount_cons.
    assert (Hc : 0 ≤ csrCount k output) by (unfold csrCount; lia).
    destruct (tally !! Wait.extractCSRStatus cv) as [v|] eqn:Hv.
    + rewrite IH.
      2:{ intros k' v'. rewrite lookup_insert.
          destruct (decide (Wait.extractCSRStatus cv = k')); [|apply Hpos].
          intros [= <-]. specialize (Hpos _ _ Hv). lia. }
      rewrite lookup_insert. destruct (decide (Wait.extractCSRStatus cv = k)) as [Hk|Hk]; [subst k|].
      * rewrite Hv. f_equal. lia.
      * destruct (tally !! k); [f_equal; lia|]. by rewrite Z.add_0_l.
    + rewrite IH.
      2:{ intros k' v'. rewrite lookup_insert.
          destruct (decide (Wait.extractCSRStatus cv = k')); [|apply Hpos].
          by intros [= <-]. }
      rewrite lookup_insert. destruct (decide (Wait.extractCSRStatus cv = k)) as [Hk|Hk]; [subst k|].
      * rewrite Hv. destruct (decide (1 + _ = 0)); [lia|done].
      * destruct (tally !! k); [f_equal; lia|]. by rewrite Z.add_0_l.
Qed.

(** X5: the tally of signing requests maps each status, the empty status
    of a request with an unknown condition included, to the number of
    listed requests that have it, and has no entry for a status that no
    request has; after a failed list call it is empty. *)
Theorem allCSRs_counts (output : list CertificateSigningRequest) (k : string)
    (err : error) :
  allCSRs (inr output) !! k
  = (if decide (csrCount k output = 0) then None else Some (csrCount k output))
  ∧ allCSRs (inl err) = ∅.
Proof.
  split; [|done]. unfold allCSRs. rewrite allCSRsLoop_lookup.
  - by rewrite lookup_empty.
  - intros k' v. by rewrite lookup_empty.
Qed.

End csr_tally.

(** ** What the hollow-nodes tester keeps while it creates *)

Section keeps.
Import Hollow.
Context `{APIServer St}.

Lemma keeps_ret {A} P (a : A) : keeps P (mret a : M St tester A).
Proof. by intros w. Qed.

Lemma keeps_bind {A B} P (m : M St tester A) (f : A → M St tester B) :
  keeps P m → (∀ a, keeps P (f a)) → keeps P (m ≫= f).
Proof.
  intros Hm Hf w Hw. unfold_M. specialize (Hm w Hw).
  destruct (m w) as [a w1]. by apply Hf.
Qed.

Lemma keeps_call P (c : Call) : keeps P (call c : M St tester Reply).
Proof. intros w Hw. unfold call. by destruct (respond _ _). Qed.

Lemma keeps_getLocal P : keeps P (getLocal : M St tester tester).
Proof. by intros w. Qed.

Lemma keeps_getConfig P : keeps P getConfig.
Proof. by intros w. Qed.

Lemma keeps_Sync cfg : keeps (creating cfg) Sync.
Proof. by intros w (? & ? & ?). Qed.

Lemma keeps_names cfg names :
  keeps (creating cfg) (modifyConfig (setCreatedNodeNames names)).
Proof. by intros w (? & ? & ?). Qed.

Lemma keeps_image cfg img : keeps (creating cfg) (setEcrImage img).
Proof. by intros w (? & ? & ?). Qed.

Ltac keeps_step :=
  first
    [ apply keeps_bind; [|intros ?]
    | apply keeps_ret
    | apply keeps_call
    | apply keeps_getLocal
    | apply keeps_getConfig
    | apply keeps_Sync
    | apply keeps_names
    | apply keeps_image
    | match goal with
      | |- keeps _ (match ?x with _ => _ end) => destruct x
      end ].

Ltac keeps_all := repeat keeps_step.

Lemma keeps_createOp cfg (c : CreateOp) : keeps (creating cfg) (createOp c).
Proof.
  destruct c; cbn [createOp];
    unfold createServiceAccount, createRBACClusterRoleBinding, createHollowNode;
    keeps_all.
Qed.

Lemma keeps_createRBACClusterRole cfg : keeps (creating cfg) createRBACClusterRole.
Proof. unfold createRBACClusterRole. keeps_all. Qed.

Lemma keeps_createConfigMap cfg : keeps (creating cfg) createConfigMap.
Proof. unfold createConfigMap. keeps_all. Qed.

Lemma keeps_createHollowNodes cfg : keeps (creating cfg) createHollowNodes.
Proof.
  unfold createHollowNodes. keeps_step; [keeps_all|].
  generalize (seqZ 0 (NodeGroups a)) as groups. intros groups.
  induction groups as [|i groups IHg]; cbn [createHollowNodesOuter]; [keeps_all|].
  keeps_step; [|keeps_all; apply IHg].
  generalize (seqZ 0 (Nodes a)) as js. intros js.
  induction js as [|j js IHj]; cbn [createHollowNodesInner]; [keeps_all|].
  keeps_step; [apply (keeps_createOp cfg (CrHollowNode _ _))|].
  keeps_all. apply IHj.
Qed.

Lemma keeps_checkNodes `{GoQuote} cfg history : keeps (creating cfg) (checkNodes history).
Proof.
  unfold checkNodes. keeps_step; [keeps_all|]. generalize a as cfg'. intros cfg'.
  induction history as [|t history IH]; cbn [checkNodesLoop]; [keeps_all|].
  destruct (negb _); [keeps_all|]. destruct (stopped t); [keeps_all|].
  destruct (listNodes t) as [err|items]; [apply IH|].
  destruct (hollowNodesLoop _ _ _ _) as [names readies].
  keeps_step; [keeps_all|]. keeps_step; [keeps_all|]. keeps_step; [keeps_all|].
  destruct (_ && _); [keeps_all|apply IH].
Qed.

Lemma keeps_runSteps P (steps : list (M St tester PollResult)) :
  Forall (keeps P) steps → keeps P (runSteps steps).
Proof.
  induction 1 as [|step steps Hstep _ IH]; cbn [runSteps]; [apply keeps_ret|].
  apply keeps_bind; [done|]. intros [|[err|]]; [apply keeps_ret..|apply IH].
Qed.

Lemma keeps_createSteps `{GoQuote} cfg history :
  Forall (keeps (creating cfg)) (createSteps history).
Proof.
  unfold createSteps, returned. repeat apply Forall_cons_2; try apply Forall_nil_2.
  - keeps_step; [apply (keeps_createOp cfg CrServiceAccount)|keeps_all].
  - keeps_step; [apply keeps_createRBACClusterRole|keeps_all].
  - keeps_step; [apply (keeps_createOp cfg CrClusterRoleBinding)|keeps_all].
  - keeps_step; [apply keeps_createConfigMap|keeps_all].
  - keeps_step; [apply keeps_createHollowNodes|keeps_all].
  - apply keeps_checkNodes.
Qed.

Lemma keeps_createBody `{GoQuote} cfg history :
  keeps (creating cfg) (createBody history).
Proof.
  unfold createBody. keeps_step; [keeps_all|]. keeps_step; [keeps_all|].
  keeps_step; [keeps_all|]. destruct (replyErr _); [keeps_all|].
  keeps_step; [keeps_all|]. destruct (replyErr _); [keeps_all|].
  keeps_step; [apply keeps_runSteps, keeps_createSteps|].
  keeps_all.
Qed.

End keeps.

(** ** [Create] and [Delete] as a whole *)

Section lifecycle.
Import Hollow.
Context `{APIServer St} `{GoQuote}.

Lemma sameSetup_fields c c' :
  sameSetup c c' →
  Enable c = Enable c' ∧ Namespace c = Namespace c'
  ∧ NodeGroups c = NodeGroups c' ∧ Nodes c = Nodes c'
  ∧ NodeLabelPrefix c = NodeLabelPrefix c'.
Proof.
  unfold sameSetup, setCreated, setCreatedNodeNames. cbn. intros Heq.
  by injection Heq.
Qed.

(** [Create] for an enabled tester: the flag is set and written first, the
    deferred function comes last. *)
Lemma Create_enabled clock history (w : World St tester) :
  let cfg := EKSConfig (local w) in
  Enable cfg = true →
  Create clock history w
  = let w1 := mkWorld (cluster w) (trace w)
                (mkTester (setCreated true cfg) (setCreated true cfg)
                   (ecrImage (local w))) in
    match createBody history w1 with
    | (StillPolling, w2) => (StillPolling, w2)
    | (Returned err, w2) => (Returned err, (deferredCreate clock w2).2)
    end.
Proof.
  intros cfg He. unfold Create, getConfig, modifyConfig, Sync. unfold_M.
  cbn [local cluster trace EKSConfig ecrImage synced]. fold cfg. rewrite He.
  cbn [negb]. by destruct (createBody _ _) as [[|err] w2].
Qed.

(** X6: a tester that is not enabled does nothing, neither in [Create] nor
    in [Delete], and [Delete] does nothing either for a tester that was
    never created: [nil] is returned, no request is sent and the state is
    left as it was. *)
Theorem lifecycle_guards (clock : Clock) (history : list PollTick)
    (w : World St tester) :
  let cfg := EKSConfig (local w) in
  (Enable cfg = false →
     Create clock history w = (Returned None, w) ∧ Delete clock w = (None, w))
  ∧ (Created cfg = false → Delete clock w = (None, w)).
Proof.
  intros cfg. split.
  - intros He. unfold Create, Delete, getConfig. unfold_M. fold cfg.
    by rewrite He.
  - intros Hc. unfold Delete, getConfig. unfold_M. fold cfg. rewrite Hc.
    by destruct (Enable cfg).
Qed.

Lemma sameSetup_setTimeFrameCreate frame c c' :
  sameSetup c c' →
  sameSetup (setTimeFrameCreate frame c) (setTimeFrameCreate frame c').
Proof.
  unfold sameSetup, setCreated, setCreatedNodeNames, setTimeFrameCreate. cbn.
  intros Heq. injection Heq. intros. congruence.
Qed.

(** X7: whatever happens in [Create] of an enabled tester, whether it
    succeeds, fails at any step or is still polling, [Created] is [true]
    afterwards, in memory and as last written by [Sync]. Once [Create] has
    returned, the deferred function has written the time frame of the run:
    [TimeFrameCreate] holds it, what [Sync] wrote last is the configuration
    in memory, and no field other than [Created], [CreatedNodeNames] and
    [TimeFrameCreate] has changed; while it polls, none other than the
    first two has. A failed [Create] can so be followed by [Delete]. *)
Theorem Create_marks_created (clock : Clock) (history : list PollTick)
    (w : World St tester) :
  let cfg := EKSConfig (local w) in
  let frame := NewTimeFrame (startNow clock) (endNow clock) in
  let ts' := local (Create clock history w).2 in
  Enable cfg = true →
  Created (EKSConfig ts') = true
  ∧ Created (synced ts') = true
  ∧ Enable (EKSConfig ts') = true
  ∧ match (Create clock history w).1 with
    | StillPolling => sameSetup (EKSConfig ts') cfg
    | Returned _ =>
        sameSetup (EKSConfig ts') (setTimeFrameCreate frame cfg)
        ∧ TimeFrameCreate (EKSConfig ts') = frame
        ∧ synced ts' = EKSConfig ts'
    end.
Proof.
  intros cfg frame ts' He. subst ts'. rewrite Create_enabled by done.
  cbv zeta. fold cfg.
  set (w1 := mkWorld _ _ _).
  assert (H1 : creating cfg (local w1)) by done.
  pose proof (keeps_createBody cfg history w1 H1) as H2.
  destruct (createBody history w1) as [[|err] w2]; cbn [fst snd] in *.
  - destruct H2 as (Hs & ? & ?). split; [done|]. split; [done|].
    split; [|done]. apply sameSetup_fields in Hs as (-> & _). done.
  - destruct H2 as (Hs & Hc & _).
    unfold deferredCreate, modifyConfig, Sync. unfold_M.
    cbn [local EKSConfig synced snd]. fold frame.
    split; [done|]. split; [done|]. split.
    + cbn [setTimeFrameCreate Enable].
      apply sameSetup_fields in Hs as (-> & _). done.
    + split; [by apply sameSetup_setTimeFrameCreate|done].
Qed.

Lemma runSteps_success_app (pre post : list (M St tester PollResult)) w :
  (runSteps (pre ++ post) w).1 = Returned None →
  (runSteps pre w).1 = Returned None
  ∧ (runSteps post (runSteps pre w).2).1 = Returned None.
Proof.
  revert w. induction pre as [|step pre IH]; intros w; [done|].
  cbn [app runSteps]. unfold_M. destruct (step w) as [[|[err|]] w1]; try done.
  apply IH.
Qed.

(** X8: [Create] returns [nil] for an enabled tester only when the image
    check and the namespace succeeded and the readiness loop of
    [checkNodes] saw a listing with at least one ready hollow node and at
    least [expectedNodes] of them. *)
Theorem Create_success_needs_ready_node (clock : Clock)
    (history : list PollTick) (w : World St tester) :
  let cfg := EKSConfig (local w) in
  Enable cfg = true →
  (Create clock history w).1 = Returned None →
  ∃ pre t post items,
    history = pre ++ t :: post
    ∧ listNodes t = inr items
    ∧ 1 ≤ hollowReadyCount (NodeLabelPrefix cfg) items
    ∧ expectedNodes cfg ≤ hollowReadyCount (NodeLabelPrefix cfg) items.
Proof.
  intros cfg He. rewrite Create_enabled by done. cbv zeta. fold cfg.
  set (w1 := mkWorld _ _ _).
  assert (H1 : creating cfg (local w1)) by done.
  unfold createBody. unfold getConfig at 1. unfold_M.
  destruct (respond (cluster w1) _) as [s1 rc].
  unfold setEcrImage. unfold_M. cbn [local cluster trace].
  destruct (replyErr rc); [done|]. cbn [local cluster trace].
  destruct (respond s1 _) as [s2 rn]. destruct (replyErr rn); [done|].
  set (w3 := mkWorld s2 _ _).
  assert (H3 : creating cfg (local w3)) by done.
  change (createSteps history) with
    ([ returned createServiceAccount; returned createRBACClusterRole;
       returned createRBACClusterRoleBinding; returned createConfigMap;
       returned createHollowNodes ] ++ [checkNodes history]).
  set (first := [_; _; _; _; _]).
  pose proof (runSteps_success_app first [checkNodes history] w3) as Hsteps.
  assert (H5 : creating cfg (local (runSteps first w3).2)).
  { apply keeps_runSteps; [|done].
    pose proof (keeps_createSteps cfg history) as Hall.
    change (createSteps history) with (first ++ [checkNodes history]) in Hall.
    by apply Forall_app in Hall as [Hall _]. }
  destruct (runSteps (first ++ [checkNodes history]) w3) as [[|[err|]] w4];
    try done.
  intros _. destruct (Hsteps eq_refl) as [_ Hcheck]. clear Hsteps.
  set (w5 := (runSteps first w3).2) in *.
  cbn [runSteps] in Hcheck. unfold_M.
  assert (Hc : (checkNodes history w5).1 = Returned None)
    by (destruct (checkNodes history w5) as [[|[err|]] w6]; done).
  apply checkNodesLoop_success in Hc as (pre & t & post & items & -> & _ & Hl & Hpos & Hexp).
  destruct H5 as (Hsame & _). apply sameSetup_fields in Hsame as (_ & _ & Hg & Hn & Hp).
  exists pre, t, post, items. split; [done|]. split; [done|].
  rewrite Hp in Hpos, Hexp. unfold expectedNodes in *. rewrite Hn, Hg in Hexp.
  split; [lia|done].
Qed.

End lifecycle.

Section lifecycle_more.
Import Hollow.
Context `{APIServer St} `{GoQuote}.

(** X9: when the image check fails, [Create] returns that error as it is
    and has sent nothing else; when the image check succeeds and the
    namespace cannot be created, it returns that error as it is and has
    sent no create request for any resource. *)
Theorem Create_stops_before_resources (clock : Clock)
    (history : list PollTick) (w : World St tester) (e : error) :
  let cfg := EKSConfig (local w) in
  let check := EcrCheck (RepositoryName cfg) (RepositoryImageTag cfg) in
  let rc := (respond (cluster w) check).2 in
  let namespace := CreateNamespace (Namespace cfg) in
  let rn := (respond (respond (cluster w) check).1 namespace).2 in
  Enable cfg = true →
  (replyErr rc = Some e →
     (Create clock history w).1 = Returned (Some e)
     ∧ trace (Create clock history w).2 = trace w ++ [Called check rc])
  ∧ (replyErr rc = None → replyErr rn = Some e →
     (Create clock history w).1 = Returned (Some e)
     ∧ trace (Create clock history w).2
       = trace w ++ [Called check rc; Called namespace rn]).
Proof.
  intros cfg check rc namespace rn He. subst rc rn.
  rewrite Create_enabled by done. cbv zeta. fold cfg.
  unfold createBody, getConfig, setEcrImage, deferredCreate, modifyConfig, Sync.
  unfold_M.
  cbn [local cluster trace EKSConfig RepositoryName RepositoryImageTag Namespace
         setCreated].
  fold check namespace.
  destruct (respond (cluster w) check) as [s1 rc]. cbn [fst snd].
  split.
  - intros ->. done.
  - intros ->.
    cbn [local cluster trace EKSConfig synced ecrImage Namespace setCreated].
    fold namespace. destruct (respond s1 namespace) as [s2 rn]. cbn [fst snd].
    intros ->. cbn [fst snd trace]. by rewrite <- app_assoc.
Qed.

(** X10: when the kubeconfig file cannot be read, [createConfigMap]
    returns the read error as it is and sends no request to the cluster. *)
Theorem createConfigMap_unreadable (w : World St tester) (e : error) :
  let read := ReadFile (KubeConfigPath (EKSConfig (local w))) in
  let rb := (respond (cluster w) read).2 in
  replyErr rb = Some e →
  (createConfigMap w).1 = Some e
  ∧ trace (createConfigMap w).2 = trace w ++ [Called read rb].
Proof.
  intros read rb Hread. pose proof (createConfigMap_run w) as Hrun.
  cbv zeta in Hrun. fold read rb in Hrun. rewrite Hread in Hrun.
  by rewrite Hrun.
Qed.

Lemma createdNames_app evs1 evs2 :
  createdNames (evs1 ++ evs2) = createdNames evs1 ++ createdNames evs2.
Proof. apply omap_app. Qed.

(** One replication controller: one create request, for [name]. *)
Lemma createHollowNode_created name nodeGroup (w : World St tester) :
  ∃ evs,
    trace (createHollowNode name nodeGroup w).2 = trace w ++ evs
    ∧ createdNames evs = [name]
    ∧ local (createHollowNode name nodeGroup w).2 = local w.
Proof.
  unfold createHollowNode, getConfig. unfold_M. cbn [local cluster trace].
  destruct (respond (cluster w) _) as [s1 r1].
  destruct (IsAlreadyExists (replyErr r1)); cbn [local cluster trace].
  - destruct (respond s1 _) as [s2 r2]. eexists [_; _].
    destruct (replyErr r2); cbn [fst snd trace local]; by rewrite <- app_assoc.
  - eexists [_]. by destruct (replyErr r1).
Qed.

Lemma createdInOrder_cons name names res created :
  createdInOrder names res created →
  createdInOrder (name :: names) res (name :: created).
Proof.
  destruct res as [e|]; cbn [createdInOrder]; [|by intros ->].
  intros (k & n & cause & Hk & -> & He). by exists (S k), n, cause.
Qed.

Lemma createdInOrder_app names1 names2 res created :
  createdInOrder names2 res created →
  createdInOrder (names1 ++ names2) res (names1 ++ created).
Proof.
  induction names1 as [|n names1 IH]; [done|]. intros Hc.
  cbn [app]. by apply createdInOrder_cons, IH.
Qed.

Lemma createdInOrder_fail_l names1 names2 e created :
  createdInOrder names1 (Some e) created →
  createdInOrder (names1 ++ names2) (Some e) created.
Proof.
  intros (k & n & cause & Hk & -> & He). exists k, n, cause.
  pose proof (lookup_lt_Some _ _ _ Hk) as Hlt.
  split; [by apply lookup_app_l_Some|]. split; [|done].
  rewrite take_app_le by lia. done.
Qed.

Lemma createHollowNodesInner_created prefix i js (w : World St tester) :
  ∃ evs,
    trace (createHollowNodesInner prefix i js w).2 = trace w ++ evs
    ∧ createdInOrder (hollowNodeName prefix i <$> js)
        (createHollowNodesInner prefix i js w).1 (createdNames evs)
    ∧ local (createHollowNodesInner prefix i js w).2 = local w.
Proof.
  revert w. induction js as [|j js IH]; intros w.
  - exists []. cbn. by rewrite app_nil_r.
  - cbn [createHollowNodesInner]. unfold_M.
    destruct (createHollowNode_created (hollowNodeName prefix i j)
                (prefix +:+ "-nodegroup-" +:+ pretty i) w)
      as (evs1 & Htr1 & Hc1 & Hl1).
    fold (hollowNodeName prefix i j).
    destruct (createHollowNode _ _ w) as [[e|] w1]; cbn [fst snd] in *.
    + exists evs1. split; [done|]. split; [|done].
      rewrite Hc1. exists 0%nat, (hollowNodeName prefix i j), (Error e). done.
    + destruct (IH w1) as (evs2 & Htr2 & Hc2 & Hl2). exists (evs1 ++ evs2).
      split; [by rewrite Htr2, Htr1, app_assoc|].
      split; [|by rewrite Hl2].
      rewrite createdNames_app, Hc1, fmap_cons. cbn [app].
      by apply createdInOrder_cons.
Qed.

Lemma createHollowNodesOuter_created prefix nodes groups (w : World St tester) :
  ∃ evs,
    trace (createHollowNodesOuter prefix nodes groups w).2 = trace w ++ evs
    ∧ createdInOrder
        (i ← groups; hollowNodeName prefix i <$> seqZ 0 nodes)
        (createHollowNodesOuter prefix nodes groups w).1 (createdNames evs).
Proof.
  revert w. induction groups as [|i groups IH]; intros w.
  - exists []. cbn. by rewrite app_nil_r.
  - cbn [createHollowNodesOuter]. unfold_M.
    destruct (createHollowNodesInner_created prefix i (seqZ 0 nodes) w)
      as (evs1 & Htr1 & Hc1 & _).
    destruct (createHollowNodesInner _ _ _ w) as [[e|] w1]; cbn [fst snd] in *.
    + exists evs1. split; [done|]. rewrite bind_cons.
      by apply createdInOrder_fail_l.
    + destruct (IH w1) as (evs2 & Htr2 & Hc2). exists (evs1 ++ evs2).
      split; [by rewrite Htr2, Htr1, app_assoc|].
      rewrite createdNames_app, bind_cons. cbn [createdInOrder] in Hc1.
      rewrite Hc1. by apply createdInOrder_app.
Qed.

(** X11: [createHollowNodes] sends the create requests for the
    [NodeGroups * Nodes] replication controllers in the order of their
    names; it returns [nil] after sending them all, and an error about the
    last one it tried otherwise, having sent none for the later ones; with
    no node group or no node it sends nothing. *)
Theorem createHollowNodes_in_order (w : World St tester) :
  let cfg := EKSConfig (local w) in
  (∃ evs,
     trace (createHollowNodes w).2 = trace w ++ evs
     ∧ createdInOrder (hollowNodeNames cfg) (createHollowNodes w).1
         (createdNames evs))
  ∧ length (hollowNodeNames cfg)
    = (Z.to_nat (NodeGroups cfg) * Z.to_nat (Nodes cfg))%nat.
Proof.
  intros cfg. split.
  - unfold createHollowNodes, getConfig. unfold_M. fold cfg.
    apply createHollowNodesOuter_created.
  - unfold hollowNodeNames. generalize (NodeLabelPrefix cfg) as prefix.
    intros prefix. rewrite <- (length_seqZ 0 (NodeGroups cfg)).
    induction (seqZ 0 (NodeGroups cfg)) as [|i groups IH]; [done|].
    rewrite bind_cons, length_app, IH, length_fmap, length_seqZ. done.
Qed.




End lifecycle_more.

Lemma lifecycle_guards_witness :
  Hollow.Delete (H := accepting) exampleClock
    (hollowWorld (Hollow.setCreated false oneHollowNode))
  = (None, hollowWorld (Hollow.setCreated false oneHollowNode)).
Proof.
  apply (proj2 (lifecycle_guards (H := accepting) (H0 := plainQuote)
                  exampleClock []
                  (hollowWorld (Hollow.setCreated false oneHollowNode)))).
  reflexivity.
Defined.

Lemma Create_marks_created_witness :
  let frame := Hollow.NewTimeFrame (Hollow.startNow exampleClock)
                 (Hollow.endNow exampleClock) in
  let ts' := local (Hollow.Create (H := unreadableKubeconfig) (H0 := plainQuote)
                      exampleClock []
                      (hollowWorld (Hollow.setCreated false oneHollowNode))).2 in
  Hollow.Created (Hollow.EKSConfig ts') = true
  ∧ Hollow.Created (Hollow.synced ts') = true
  ∧ Hollow.Enable (Hollow.EKSConfig ts') = true
  ∧ sameSetup (Hollow.EKSConfig ts')
      (Hollow.setTimeFrameCreate frame (Hollow.setCreated false oneHollowNode))
  ∧ Hollow.TimeFrameCreate (Hollow.EKSConfig ts') = frame
  ∧ Hollow.synced ts' = Hollow.EKSConfig ts'.
Proof.
  apply (Create_marks_created (H := unreadableKubeconfig) (H0 := plainQuote)
           exampleClock []
           (hollowWorld (Hollow.setCreated false oneHollowNode))).
  reflexivity.
Defined.

Lemma Create_success_needs_ready_node_witness :
  ∃ pre t post items,
    [tickAt 5 [hollowNode false]; tickAt 10 [hollowNode true]] = pre ++ t :: post
    ∧ listNodes t = inr items
    ∧ 1 ≤ hollowReadyCount "hollow" items
    ∧ Hollow.expectedNodes oneHollowNode ≤ hollowReadyCount "hollow" items.
Proof.
  apply (Create_success_needs_ready_node (H := accepting) (H0 := plainQuote)
           exampleClock
           [tickAt 5 [hollowNode false]; tickAt 10 [hollowNode true]]
           (hollowWorld oneHollowNode)); by vm_compute.
Defined.

Lemma Create_stops_before_resources_witness :
  (Hollow.Create (H := noImage) (H0 := plainQuote) exampleClock []
     (hollowWorld oneHollowNode)).1
  = Returned (Some (errorsNew "image tag not found in repository"))
  ∧ trace (Hollow.Create (H := noImage) (H0 := plainQuote) exampleClock []
             (hollowWorld (oneHollowNode))).2
    = [] ++ [Called (EcrCheck "aws/aws-k8s-tester" "latest")
               (ReplyErr (errorsNew "image tag not found in repository"))].
Proof.
  apply (proj1 (Create_stops_before_resources (H := noImage) (H0 := plainQuote)
                  exampleClock []
                  (hollowWorld oneHollowNode)
                  (errorsNew "image tag not found in repository") eq_refl)).
  reflexivity.
Defined.

Lemma createConfigMap_unreadable_witness :
  (Hollow.createConfigMap (H := unreadableKubeconfig) (hollowWorld oneHollowNode)).1
  = Some (errorsNew "open /tmp/kubeconfig: no such file or directory")
  ∧ trace (Hollow.createConfigMap (H := unreadableKubeconfig)
             (hollowWorld oneHollowNode)).2
    = [] ++ [Called (ReadFile "/tmp/kubeconfig")
               (ReplyErr (errorsNew
                  "open /tmp/kubeconfig: no such file or directory"))].
Proof.
  apply (createConfigMap_unreadable (H := unreadableKubeconfig)
           (hollowWorld oneHollowNode)
           (errorsNew "open /tmp/kubeconfig: no such file or directory")).
  reflexivity.
Defined.


Lemma runSteps_stops_witness :
  Hollow.runSteps
    ([@okStep unit accepting "step-1"]
     ++ @failStep unit accepting "step-2" "boom"
     :: [@okStep unit accepting "step-3"])
    (hollowWorld oneHollowNode)
  = (Returned (Some (errorsNew "while executing step func() error(), boom")),
     (@failStep unit accepting "step-2" "boom"
        (Hollow.runSteps [@okStep unit accepting "step-1"]
           (hollowWorld oneHollowNode)).2).2).
Proof.
  apply (runSteps_stops [@okStep unit accepting "step-1"]
           [@okStep unit accepting "step-3"]
           (@failStep unit accepting "step-2" "boom")
           (hollowWorld oneHollowNode) (errorsNew "boom")); reflexivity.
Defined.
(** ** [Apply] of the NLB tester *)

Section nlb_apply.
Import NLB NLBApply.
Context `{APIServer St} `{GoQuote}.

Lemma requests_app (evs evs' : list Event) :
  requests (evs ++ evs') = requests evs ++ requests evs'.
Proof. apply omap_app. Qed.

(** The read loop sends nothing: it only sleeps, after a failed read. *)
Lemma readLoop_run (appURL : string) (history : list ReadTick)
    (w : World St Config) :
  ∃ evs,
    trace (readLoop appURL history w).2 = trace w ++ evs
    ∧ requests evs = []
    ∧ ((readLoop appURL history w).1 = Returned None →
       ∃ pre t post, history = pre ++ t :: post ∧ servesExpectedHTML t).
Proof.
  revert w. induction history as [|t rest IH]; intros w; cbn [readLoop].
  { exists []. by rewrite app_nil_r. }
  destruct (sinceRetryStart t <? 3 * Minute) eqn:Hel; cbn [negb].
  2:{ exists []. by rewrite app_nil_r. }
  destruct (stopRequested t) eqn:Hst.
  { exists []. by rewrite app_nil_r. }
  destruct (readInsecure t) as [e|httpOutput] eqn:Hrd.
  - unfold_M. cbn beta iota.
    destruct (IH (mkWorld (cluster w) (trace w ++ [Slept (5 * Second)]) (local w)))
      as (evs & Htr & Hreq & Hok).
    exists (Slept (5 * Second) :: evs). split; [|split].
    + rewrite Htr. cbn [trace]. by rewrite <- app_assoc.
    + done.
    + intros Hres. destruct (Hok Hres) as (pre & t' & post & -> & Ht').
      by exists (t :: pre), t', post.
  - destruct (Contains httpOutput expectedHTML) eqn:Hc.
    + exists []. rewrite app_nil_r. split; [done|]. split; [done|]. intros _.
      exists [], t, rest. split; [done|]. split; [by apply Z.ltb_lt|].
      split; [done|]. by exists httpOutput.
    + destruct (IH w) as (evs & Htr & Hreq & Hok).
      exists evs. split; [done|]. split; [done|].
      intros Hres. destruct (Hok Hres) as (pre & t' & post & -> & Ht').
      by exists (t :: pre), t', post.
Qed.



Lemma requests_cons_called c r evs :
  requests (Called c r :: evs) = c :: requests evs.
Proof. done. Qed.

Lemma requests_cons_slept d evs : requests (Slept d :: evs) = requests evs.
Proof. done. Qed.

(** The run of [Apply] from the creation of the namespace on, when it ends
    with [nil]. *)
Ltac apply_tail :=
  cbn [cluster trace local];
  destruct (respond _ (CreateNamespace _)) as [s1 r1]; cbn [cluster trace local];
  destruct (replyErr r1); [discriminate|];
  destruct (respond _ (ApiCreate (deployment _))) as [s2 r2];
  cbn [cluster trace local];
  destruct (replyErr r2) as [e2|];
    [destruct (IsAlreadyExists (Some e2)); [|discriminate]|];
  (destruct (deploymentCompletes _) eqn:Hdc; [discriminate|];
   cbn [cluster trace local];
   destruct (respond _ (ApiCreate (service _))) as [s3 r3];
   cbn [cluster trace local];
   destruct (replyErr r3) as [e3|];
     [destruct (IsAlreadyExists (Some e3)); [|discriminate]|];
   (destruct (stoppedBeforeService _) eqn:Hst; [discriminate|];
    destruct (ingressHostname _) as [e|hostName] eqn:Hin; [discriminate|];
    cbn [cluster trace local];
    match goal with
    | |- context [readLoop ?url ?h ?w0] =>
        let evs := fresh "evs" in
        let Htr := fresh "Htr" in
        let Hreq := fresh "Hreq" in
        let Hok := fresh "Hok" in
        destruct (readLoop_run url h w0) as (evs & Htr & Hreq & Hok);
        destruct (readLoop url h w0) as [? ?];
        cbn [fst snd trace] in *; intros [= ->];
        split; [done|]; split; [done|]; split; [by eexists|];
        split; [by apply Hok|];
        eexists; split; [rewrite Htr, <- !app_assoc; reflexivity|];
        cbn [app];
        rewrite ?requests_cons_called, ?requests_cons_slept, Hreq; reflexivity
    end)).

(** X13: [Apply] returns [nil] only if the deployment completed, the stop
    channel did not fire, the load balancer got a host name and a read of
    the service, made before three minutes had passed, returned a page
    with the expected heading; the calls it made until then are the prompt,
    when prompts are enabled, and the creation of the namespace, of the
    deployment and of the service, in this order. *)
Theorem Apply_success (out : Outside) (w : World St Config) :
  (Apply out w).1 = Done (Returned None) →
  let cfg := local w in
  deploymentCompletes out = None
  ∧ stoppedBeforeService out = false
  ∧ (∃ hostName, ingressHostname out = inr hostName)
  ∧ (∃ pre t post, reads out = pre ++ t :: post ∧ servesExpectedHTML t)
  ∧ ∃ evs,
      trace (Apply out w).2 = trace w ++ evs
      ∧ requests evs
        = promptFor "apply" cfg
          ++ [CreateNamespace (Namespace cfg);
              ApiCreate (deployment cfg);
              ApiCreate (service cfg)].
Proof.
  intros Hres cfg. subst cfg. revert Hres.
  unfold Apply, runPrompt, createDeployment, createService, checkDeployment,
    checkService, promptFor. unfold_M.
  destruct (EnablePrompt (local w)) eqn:Hen.
  - destruct (respond (cluster w) (PromptRun "apply")) as [s0 r0].
    cbn [cluster trace local].
    destruct (replyErr r0); [discriminate|].
    destruct (replyIndex r0 =? 1); cbn [negb]; [|discriminate].
    apply_tail.
  - apply_tail.
Qed.

(** X14: with prompts enabled and an answer other than the second item,
    [Apply] and [Delete] return the error [cancelled] and do nothing but
    open the prompt: nothing is created and nothing is deleted. *)
Theorem declined_prompt_cancels (out : Outside) (w : World St Config) :
  (declines "apply" w →
   ∃ r, (Apply out w).1 = Done (Returned (Some (errorsNew "cancelled")))
        ∧ trace (Apply out w).2 = trace w ++ [Called (PromptRun "apply") r])
  ∧ (declines "delete" w →
     ∃ r, (Delete w).1 = Done (Some (errorsNew "cancelled"))
          ∧ trace (Delete w).2 = trace w ++ [Called (PromptRun "delete") r]).
Proof.
  split; intros (Hen & Herr & Hidx); revert Herr Hidx;
    unfold Apply, Delete, runPrompt; unfold_M; rewrite Hen;
    destruct (respond (cluster w) (PromptRun _)) as [s0 r0];
    cbn [fst snd cluster trace local]; intros -> Hidx;
    (destruct (replyIndex r0 =? 1) eqn:Heq; [by apply Z.eqb_eq in Heq|]);
    cbn [negb fst snd trace]; by exists r0.
Qed.

Lemma service_is_no_deployment (cfg : Config) :
  ApiCreate (service cfg) ≠ ApiCreate (deployment cfg).
Proof. intros [= Heq]. Qed.

(** A run that ended before the service was asked for. *)
Ltac not_sent :=
  eexists; split; [rewrite <- ?app_assoc; reflexivity|];
  cbn [app]; rewrite ?requests_cons_called, ?requests_cons_slept;
  let Hin := fresh "Hin" in
  intros Hin; exfalso;
  repeat (apply elem_of_cons in Hin as [Hin|Hin];
          [by (discriminate Hin || apply service_is_no_deployment in Hin)|]);
  by apply elem_of_nil in Hin.

(** A run that asked for the service. *)
Ltac sent_done pre rn rd :=
  eexists; split; [rewrite <- ?app_assoc; reflexivity|];
  intros _; split; [done|];
  exists pre, rn, rd; eexists; split; [reflexivity|];
  split; [done|]; split; [done|];
  unfold createdOrPresent; first [by left | right; congruence].

Ltac sent pre rn rd :=
  cbn [cluster trace local];
  destruct (respond _ (ApiCreate (service _))) as [s3 r3];
  cbn [cluster trace local];
  try (destruct (replyErr r3) as [e3|]; [destruct (IsAlreadyExists (Some e3))|]);
  try destruct (stoppedBeforeService _);
  try destruct (ingressHostname _);
  cbn [cluster trace local fst snd];
  first
    [ match goal with
      | |- context [readLoop ?url ?h ?w0] =>
          let evs := fresh "evs" in
          let Htr := fresh "Htr" in
          destruct (readLoop_run url h w0) as (evs & Htr & _ & _);
          destruct (readLoop url h w0) as [? ?];
          cbn [fst snd trace] in *; rewrite Htr
      end; sent_done pre rn rd
    | sent_done pre rn rd ].

(** X15: in every run of [Apply], the request that creates the service is
    sent only if the namespace was created, the request for the deployment
    was accepted or refused with AlreadyExists, and the deployment
    completed; these requests come first, right after the prompt. *)
Theorem service_waits_for_deployment (out : Outside) (w : World St Config) :
  let cfg := local w in
  ∃ evs,
    trace (Apply out w).2 = trace w ++ evs
    ∧ (ApiCreate (service cfg) ∈ requests evs →
       deploymentCompletes out = None
       ∧ ∃ pre rn rd post,
           evs = pre ++ [Called (CreateNamespace (Namespace cfg)) rn;
                         Called (ApiCreate (deployment cfg)) rd] ++ post
           ∧ requests pre = promptFor "apply" cfg
           ∧ replyErr rn = None
           ∧ createdOrPresent rd).
Proof.
  intros cfg. subst cfg.
  unfold Apply, runPrompt, createDeployment, createService, checkDeployment,
    checkService, promptFor. unfold_M.
  destruct (EnablePrompt (local w)) eqn:Hen.
  - destruct (respond (cluster w) (PromptRun "apply")) as [s0 r0].
    cbn [cluster trace local].
    destruct (replyErr r0); [not_sent|].
    destruct (replyIndex r0 =? 1); cbn [negb]; [|not_sent].
    cbn [cluster trace local].
    destruct (respond _ (CreateNamespace _)) as [s1 r1]; cbn [cluster trace local].
    destruct (replyErr r1) eqn:Hr1; [not_sent|].
    destruct (respond _ (ApiCreate (deployment _))) as [s2 r2].
    cbn [cluster trace local].
    destruct (replyErr r2) as [e2|] eqn:Hr2.
    + destruct (IsAlreadyExists (Some e2)) eqn:Hex2; [|not_sent].
      destruct (deploymentCompletes out) eqn:Hdc; [not_sent|].
      sent [Called (PromptRun "apply") r0] r1 r2.
    + destruct (deploymentCompletes out) eqn:Hdc; [not_sent|].
      sent [Called (PromptRun "apply") r0] r1 r2.
  - cbn [cluster trace local].
    destruct (respond _ (CreateNamespace _)) as [s1 r1]; cbn [cluster trace local].
    destruct (replyErr r1) eqn:Hr1; [not_sent|].
    destruct (respond _ (ApiCreate (deployment _))) as [s2 r2].
    cbn [cluster trace local].
    destruct (replyErr r2) as [e2|] eqn:Hr2.
    + destruct (IsAlreadyExists (Some e2)) eqn:Hex2; [|not_sent].
      destruct (deploymentCompletes out) eqn:Hdc; [not_sent|].
      sent (@nil Event) r1 r2.
    + destruct (deploymentCompletes out) eqn:Hdc; [not_sent|].
      sent (@nil Event) r1 r2.
Qed.
End nlb_apply.

Lemma Apply_success_witness :
  NLBApply.deploymentCompletes servedPage = None
  ∧ NLBApply.stoppedBeforeService servedPage = false
  ∧ (∃ hostName, NLBApply.ingressHostname servedPage = inr hostName)
  ∧ (∃ pre t post,
       NLBApply.reads servedPage = pre ++ t :: post ∧ servesExpectedHTML t)
  ∧ ∃ evs,
      trace (NLBApply.Apply (H := accepting) (H0 := plainQuote) servedPage
               (mkWorld tt [] nlbConfig)).2 = [] ++ evs
      ∧ requests evs
        = promptFor "apply" nlbConfig
          ++ [CreateNamespace "nlb";
              ApiCreate (NLB.deployment nlbConfig);
              ApiCreate (NLB.service nlbConfig)].
Proof.
  apply (Apply_success (H := accepting) (H0 := plainQuote) servedPage
           (mkWorld tt [] nlbConfig)).
  by vm_compute.
Defined.

Lemma declined_prompt_cancels_witness :
  ∃ r, (NLB.Delete (H := declining) (mkWorld tt [] promptingConfig)).1
       = NLB.Done (Some (errorsNew "cancelled"))
       ∧ trace (NLB.Delete (H := declining) (mkWorld tt [] promptingConfig)).2
         = [] ++ [Called (PromptRun "delete") r].
Proof.
  apply (proj2 (declined_prompt_cancels (H := declining) (H0 := plainQuote)
                  servedPage (mkWorld tt [] promptingConfig))).
  split; [reflexivity|]. split; [reflexivity|]. by vm_compute.
Defined.

Lemma service_waits_for_deployment_witness :
  ∃ evs,
    trace (NLBApply.Apply (H := accepting) (H0 := plainQuote) servedPage
             (mkWorld tt [] nlbConfig)).2 = [] ++ evs
    ∧ (ApiCreate (NLB.service nlbConfig) ∈ requests evs →
       NLBApply.deploymentCompletes servedPage = None
       ∧ ∃ pre rn rd post,
           evs = pre ++ [Called (CreateNamespace "nlb") rn;
                         Called (ApiCreate (NLB.deployment nlbConfig)) rd] ++ post
           ∧ requests pre = promptFor "apply" nlbConfig
           ∧ replyErr rn = None
           ∧ createdOrPresent rd).
Proof.
  apply (service_waits_for_deployment (H := accepting) (H0 := plainQuote)
           servedPage (mkWorld tt [] nlbConfig)).
Defined.

(** ** [waitForNodes] before the poll *)

Section wait_setup.
Import WaitSetup.
Context `{GoQuote} `{MapRange}.

Lemma lookup_setMNG mngName cur cfg :
  MNGs (setMNG mngName cur cfg) !! mngName = Some cur.
Proof. unfold setMNG. cbn [MNGs]. apply lookup_insert_eq. Qed.

Lemma describeCalls_app (l l' : list Step) :
  describeCalls (l ++ l') = describeCalls l ++ describeCalls l'.
Proof. apply omap_app. Qed.

Lemma sleeps_app (l l' : list Step) : sleeps (l ++ l') = sleeps l ++ sleeps l'.
Proof. apply omap_app. Qed.

Lemma lastSynced_snoc (l : list Step) (cfg : EKSConfig) :
  lastSynced (l ++ [Sync cfg]) = Some cfg.
Proof.
  unfold lastSynced. rewrite omap_app.
  change (omap _ [Sync cfg]) with [cfg]. apply last_snoc.
Qed.

(** From the security group on, nothing is looked up that is not there. *)
Lemma recordASG_eq mngName cur asg running st :
  let cur1 := setASGName (StringValue asg) cur in
  let st1 := did (WaitUntilRunning (Wait.waitDur (pollView cur1)) (ASGName cur1))
               (store mngName cur1 (store mngName cur st)) in
  recordASG mngName cur asg running st
  = match running with
    | inl err => (Failed err, st1)
    | inr ec2Instances =>
        let cur2 :=
          setInstances
            ((λ vv, mkStoredInstance vv (RemoteAccessUserName cur1)) <$> ec2Instances)
            cur1 in
        let infos :=
          nodeInfoLoop cur2 (rangeOver (Instances cur2))
            (PrivateDNSToNodeInfo (config st1)) in
        (Polls cur2,
         store mngName cur2
           (mkState (setPrivateDNSToNodeInfo infos (config st1)) (steps st1)))
    end.
Proof.
  intros cur1 st1. unfold recordASG.
  replace (MNGs (config (store mngName cur st)) !! mngName) with (Some cur)
    by (symmetry; apply lookup_setMNG).
  fold cur1. cbv zeta. fold st1. destruct running as [err|ec2Instances]; [done|].
  unfold recordInstances.
  replace (MNGs (config st1) !! mngName) with (Some cur1)
    by (symmetry; apply lookup_setMNG).
  cbv zeta.
  match goal with
  | |- context [MNGs (config (store mngName ?c ?s)) !! mngName] =>
      replace (MNGs (config (store mngName c s)) !! mngName) with (Some c)
        by (symmetry; apply lookup_setMNG)
  end.
  done.
Qed.

Lemma recordASG_steps mngName cur asg running st :
  ∃ more,
    steps (recordASG mngName cur asg running st).2 = steps st ++ more
    ∧ describeCalls more = [] ∧ sleeps more = [].
Proof.
  rewrite recordASG_eq. cbv zeta.
  destruct running; cbn [snd]; unfold store, did; cbn [steps config];
    (eexists; split; [rewrite <- ?app_assoc; reflexivity|]); done.
Qed.

Lemma recordASG_answered mngName cur asg running st :
  (recordASG mngName cur asg running st).1 ≠ Unanswered.
Proof. rewrite recordASG_eq. cbv zeta. by destruct running. Qed.

(** X16: before the poll, [waitForNodes] retries at most [retriesLeft]
    times, and not at all for a [retriesLeft] that is not positive: it
    pauses five seconds before each retry and describes the node group at
    most once more than it pauses. With more answers than retries it does
    not wait for a further answer: it fails or reaches the poll. *)
Theorem setup_retries_bounded (mngName : string) (retriesLeft : Z)
    (describes : list DescribeOutput) (running : error + gmap string Instance)
    (st : State) :
  ∃ more (retries : nat),
    steps (setup mngName retriesLeft describes running st).2 = steps st ++ more
    ∧ Z.of_nat retries ≤ Z.max 0 retriesLeft
    ∧ sleeps more = replicate retries (5 * Second)
    ∧ (length (describeCalls more) ≤ S retries)%nat
    ∧ (Z.max 0 retriesLeft < Z.of_nat (length describes) →
       (setup mngName retriesLeft describes running st).1 ≠ Unanswered).
Proof.
  revert retriesLeft st.
  induction describes as [|dout describes IH]; intros retriesLeft st;
    cbn [setup].
  { exists [], 0%nat. rewrite app_nil_r.
    destruct (MNGs (config st) !! mngName); cbn [snd length];
      (split; [done|]); (split; [lia|]); (split; [done|]);
      (split; [cbn; lia|]); lia. }
  destruct (MNGs (config st) !! mngName) as [cur|].
  2:{ exists [], 0%nat. rewrite app_nil_r. cbn [snd].
      split; [done|]. split; [lia|]. split; [done|]. split; [cbn; lia|done]. }
  set (st1 := did _ st).
  assert (Hone : ∀ err : error, ∃ more (retries : nat),
    steps (Failed err, st1).2 = steps st ++ more
    ∧ Z.of_nat retries ≤ Z.max 0 retriesLeft
    ∧ sleeps more = replicate retries (5 * Second)
    ∧ (length (describeCalls more) ≤ S retries)%nat
    ∧ (Z.max 0 retriesLeft < Z.of_nat (length (dout :: describes)) →
       (Failed err, st1).1 ≠ Unanswered)).
  { intros err. eexists _, 0%nat. split; [reflexivity|].
    split; [lia|]. split; [done|]. split; [cbn; lia|done]. }
  destruct dout as [err|[[resources|]|]]; try apply Hone.
  destruct (AutoScalingGroups resources) as [|asg [|asg' asgs]]; try apply Hone.
  destruct (String.eqb (RemoteAccessSecurityGroupID _) EmptyString).
  - destruct (Z.ltb_spec 0 retriesLeft); [|apply Hone].
    destruct (IH (retriesLeft - 1) (did (Sleep (5 * Second)) st1))
      as (more & retries & Hsteps & Hle & Hsl & Hd & Hans).
    exists ([DescribeNodegroup (ClusterName (config st)) (Name cur);
             Sleep (5 * Second)] ++ more), (S retries).
    split; [|split; [|split; [|split]]].
    + rewrite Hsteps. subst st1. unfold did. cbn [steps].
      by rewrite <- !app_assoc.
    + lia.
    + cbn. by rewrite <- Hsl.
    + cbn. unfold describeCalls in Hd. lia.
    + intros Hlen. apply Hans. cbn [length] in Hlen. lia.
  - destruct (recordASG_steps mngName
                (if String.eqb (RemoteAccessSecurityGroupID cur) EmptyString
                 then setRemoteAccessSecurityGroupID
                        (StringValue (RemoteAccessSecurityGroup resources)) cur
                 else cur) asg running st1) as (more & Hsteps & Hd & Hsl).
    exists (DescribeNodegroup (ClusterName (config st)) (Name cur) :: more), 0%nat.
    split; [|split; [|split; [|split]]].
    + rewrite Hsteps. subst st1. unfold did. cbn [steps].
      by rewrite <- !app_assoc.
    + lia.
    + cbn. unfold sleeps in Hsl. by rewrite Hsl.
    + cbn. unfold describeCalls in Hd. rewrite Hd. cbn. lia.
    + intros _. apply recordASG_answered.
Qed.

(** X17: a node group without security group in the configuration, for
    which [n + 1] answers in a row name one auto scaling group and no
    security group, makes [waitForNodes] with [n] retries return the error
    that the security group was not found, after [n + 1] describe calls
    with a pause of five seconds between them; the configuration is left
    as it was, nothing is written and the instances are not waited
    for. *)
Theorem waitForNodes_security_group_missing (mngName : string) (n : nat)
    (cur : MNG) (answers rest : list DescribeOutput)
    (running : error + gmap string Instance) (history : list PollTick)
    (st : State) :
  MNGs (config st) !! mngName = Some cur →
  RemoteAccessSecurityGroupID cur = EmptyString →
  length answers = S n →
  Forall lacksSecurityGroup answers →
  waitForNodes mngName (Z.of_nat n) (answers ++ rest) running history st
  = (Returned (Some (errNoSecurityGroup mngName)),
     mkState (config st)
       (steps st ++ retrySteps (ClusterName (config st)) (Name cur) n)).
Proof.
  intros Hcur Hsg Hlen Hall.
  assert (Hsetup :
    setup mngName (Z.of_nat n) (answers ++ rest) running st
    = (Failed (errNoSecurityGroup mngName),
       mkState (config st)
         (steps st ++ retrySteps (ClusterName (config st)) (Name cur) n))).
  { revert answers st Hcur Hlen Hall.
    induction n as [|n IH]; intros answers st Hcur Hlen Hall;
      destruct answers as [|dout answers]; try discriminate Hlen;
      apply Forall_cons in Hall as [(asg & sg & -> & Hnone) Hall];
      cbn [app setup]; rewrite Hcur; cbn [AutoScalingGroups];
      rewrite Hsg; cbn [String.eqb RemoteAccessSecurityGroup
                        setRemoteAccessSecurityGroupID RemoteAccessSecurityGroupID];
      rewrite Hnone; cbn [String.eqb].
    - done.
    - destruct (Z.ltb_spec 0 (Z.of_nat (S n))); [|lia].
      replace (Z.of_nat (S n) - 1) with (Z.of_nat n) by lia.
      rewrite IH; [|done|by injection Hlen|done].
      unfold did. cbn [config steps retrySteps]. by rewrite <- !app_assoc. }
  unfold waitForNodes. by rewrite Hsetup.
Qed.

(** A run that reaches the poll found the security group, in the
    configuration or in an answer, and the retries before it have left the
    configuration as it was. *)
Lemma setup_reaches_poll mngName retriesLeft describes running st cur st' :
  setup mngName retriesLeft describes running st = (Polls cur, st') →
  ∃ cur0 resources asg st0,
    let cur1 :=
      if String.eqb (RemoteAccessSecurityGroupID cur0) EmptyString
      then setRemoteAccessSecurityGroupID
             (StringValue (RemoteAccessSecurityGroup resources)) cur0
      else cur0 in
    MNGs (config st) !! mngName = Some cur0
    ∧ inr (Some (Some resources)) ∈ describes
    ∧ AutoScalingGroups resources = [asg]
    ∧ config st0 = config st
    ∧ RemoteAccessSecurityGroupID cur1 ≠ EmptyString
    ∧ recordASG mngName cur1 asg running st0 = (Polls cur, st').
Proof.
  revert retriesLeft st.
  induction describes as [|dout describes IH]; intros retriesLeft st; cbn [setup].
  { by destruct (MNGs (config st) !! mngName). }
  destruct (MNGs (config st) !! mngName) as [cur0|] eqn:Hcur; [|done].
  destruct dout as [err|[[resources|]|]]; try done.
  destruct (AutoScalingGroups resources) as [|asg [|asg' asgs]] eqn:Hasg;
    try done.
  set (cur1 := if String.eqb (RemoteAccessSecurityGroupID cur0) EmptyString
               then _ else _).
  destruct (String.eqb_spec (RemoteAccessSecurityGroupID cur1) EmptyString)
    as [Hsg|Hsg].
  - destruct (0 <? retriesLeft); [|done].
    intros Hrun. apply IH in Hrun
      as (c0 & res & a & st0 & Hc0 & Hin & Ha & Hcfg & Hne & Hrun).
    unfold did in Hc0, Hcfg. cbn [config steps] in Hc0, Hcfg.
    exists c0, res, a, st0. cbv zeta.
    split; [congruence|]. split; [by apply list_elem_of_further|]. done.
  - intros Hrun. exists cur0, resources, asg. eexists. cbv zeta.
    split; [done|]. split; [apply list_elem_of_here|]. split; [done|].
    split; [|split; [exact Hsg|exact Hrun]]. done.
Qed.

(** The node info loop leaves the entries of other names as they are and
    overwrites the entry of each instance it ranges over. *)
Lemma nodeInfoLoop_other cur instances infos k :
  (∀ inst, inst ∈ instances → PrivateDNSName (converted inst) ≠ k) →
  nodeInfoLoop cur instances infos !! k = infos !! k.
Proof.
  revert infos. induction instances as [|inst instances IH]; intros infos Hk;
    cbn [nodeInfoLoop]; [done|].
  rewrite IH.
  - apply lookup_insert_ne, Hk, list_elem_of_here.
  - intros inst' Hin. by apply Hk, list_elem_of_further.
Qed.

Lemma nodeInfoLoop_written cur instances infos k :
  (∃ inst, inst ∈ instances ∧ PrivateDNSName (converted inst) = k) →
  ∃ inst, inst ∈ instances
          ∧ PrivateDNSName (converted inst) = k
          ∧ nodeInfoLoop cur instances infos !! k
            = Some (nodeInfoOf cur (converted inst)).
Proof.
  revert infos. induction instances as [|i instances IH];
    intros infos (inst & Hin & Hname); [by apply elem_of_nil in Hin|].
  cbn [nodeInfoLoop].
  destruct (decide (Exists (λ j, PrivateDNSName (converted j) = k) instances))
    as [Hex|Hnone].
  - apply Exists_exists in Hex.
    destruct (IH (<[PrivateDNSName (converted i) := nodeInfoOf cur (converted i)]> infos)
                Hex) as (inst' & Hin' & Hname' & Hlook).
    exists inst'. split; [by apply list_elem_of_further|]. by split.
  - rewrite Exists_exists in Hnone.
    apply elem_of_cons in Hin as [->|Hin]; [|destruct Hnone; by exists inst].
    exists i. split; [apply list_elem_of_here|]. split; [done|].
    rewrite nodeInfoLoop_other.
    + rewrite Hname. apply lookup_insert_eq.
    + intros j Hj Hj'. apply Hnone. by exists j.
Qed.

(** What the loop ranges over are the values of the map. *)
Lemma rangeOver_elem (m : gmap string StoredInstance) inst :
  (∀ m, rangeOver m ≡ₚ (map_to_list m).*2) →
  inst ∈ rangeOver m ↔ ∃ id, m !! id = Some inst.
Proof.
  intros Hrange. rewrite (Hrange m), list_elem_of_fmap. split.
  - intros ([id x] & -> & Hin). exists id. by apply elem_of_map_to_list.
  - intros (id & Hid). exists (id, inst). split; [done|].
    by apply elem_of_map_to_list.
Qed.

(** X18: when [waitForNodes] reaches the poll, the node group it polls
    for is the one of the configuration with the name of the single auto
    scaling group of an answer, the security group of that answer if the
    configuration had none, and the running instances, each with the user
    name of the group; this group is stored under the key, the
    configuration in memory is the one written last, every running
    instance has an entry under its private DNS name in
    [PrivateDNSToNodeInfo], made from the group and an instance with that
    name, and the entries of other names are left as they were. *)
Theorem setup_records_instances (mngName : string) (retriesLeft : Z)
    (describes : list DescribeOutput) (running : error + gmap string Instance)
    (st st' : State) (cur : MNG) :
  (∀ m, rangeOver m ≡ₚ (map_to_list m).*2) →
  setup mngName retriesLeft describes running st = (Polls cur, st') →
  ∃ cur0 resources asg ec2Instances,
    MNGs (config st) !! mngName = Some cur0
    ∧ inr (Some (Some resources)) ∈ describes
    ∧ AutoScalingGroups resources = [asg]
    ∧ running = inr ec2Instances
    ∧ cur = setInstances
              ((λ vv, mkStoredInstance vv (RemoteAccessUserName cur0))
               <$> ec2Instances)
              (setASGName (StringValue asg)
                 (if String.eqb (RemoteAccessSecurityGroupID cur0) EmptyString
                  then setRemoteAccessSecurityGroupID
                         (StringValue (RemoteAccessSecurityGroup resources)) cur0
                  else cur0))
    ∧ RemoteAccessSecurityGroupID cur ≠ EmptyString
    ∧ MNGs (config st') = <[mngName := cur]> (MNGs (config st))
    ∧ lastSynced (steps st') = Some (config st')
    ∧ (∀ id vv, ec2Instances !! id = Some vv →
       ∃ id' vv',
         ec2Instances !! id' = Some vv'
         ∧ PrivateDNSName vv' = PrivateDNSName vv
         ∧ PrivateDNSToNodeInfo (config st') !! PrivateDNSName vv
           = Some (nodeInfoOf cur0 vv'))
    ∧ (∀ k, (∀ id vv, ec2Instances !! id = Some vv → PrivateDNSName vv ≠ k) →
       PrivateDNSToNodeInfo (config st') !! k
       = PrivateDNSToNodeInfo (config st) !! k).
Proof.
  intros Hrange Hrun.
  apply setup_reaches_poll in Hrun
    as (cur0 & resources & asg & st0 & Hcur0 & Hin & Hasg & Hcfg & Hsg & Hrun).
  set (cur1 := if String.eqb (RemoteAccessSecurityGroupID cur0) EmptyString
               then _ else _) in *.
  rewrite recordASG_eq in Hrun. cbv zeta in Hrun.
  destruct running as [err|ec2Instances]; [done|].
  injection Hrun as <- <-.
  assert (Huser : RemoteAccessUserName cur1 = RemoteAccessUserName cur0
                  ∧ ∀ vv, nodeInfoOf cur1 vv = nodeInfoOf cur0 vv).
  { subst cur1. by destruct (String.eqb _ _). }
  destruct Huser as [Huser Hinfo].
  exists cur0, resources, asg, ec2Instances.
  split; [done|]. split; [done|]. split; [done|]. split; [done|].
  split; [|split; [|split; [|split; [|split]]]].
  - cbn [RemoteAccessUserName setASGName]. by rewrite Huser.
  - done.
  - unfold store, did, setMNG, setPrivateDNSToNodeInfo. cbn [config MNGs steps].
    by rewrite !insert_insert_eq, Hcfg.
  - unfold store. cbn [steps config]. apply lastSynced_snoc.
  - intros id vv Hvv.
    set (insts := (λ vv, mkStoredInstance vv (RemoteAccessUserName cur1))
                  <$> ec2Instances).
    set (cur2 := setInstances insts (setASGName (StringValue asg) cur1)).
    match goal with
    | |- context [PrivateDNSToNodeInfo ?c !! _] =>
        change (PrivateDNSToNodeInfo c)
          with (nodeInfoLoop cur2 (rangeOver insts)
                  (PrivateDNSToNodeInfo (config st0)))
    end.
    destruct (nodeInfoLoop_written cur2 (rangeOver insts)
                (PrivateDNSToNodeInfo (config st0)) (PrivateDNSName vv))
      as (inst & Hin' & Hname & Hlook).
    { exists (mkStoredInstance vv (RemoteAccessUserName cur1)).
      split; [|done]. apply rangeOver_elem; [done|]. exists id.
      subst insts. by rewrite lookup_fmap, Hvv. }
    apply rangeOver_elem in Hin' as (id' & Hid'); [|done].
    subst insts. rewrite lookup_fmap in Hid'.
    destruct (ec2Instances !! id') as [vv'|] eqn:Hvv'; [|done].
    injection Hid' as <-. cbn [converted] in *.
    exists id', vv'. split; [done|]. split; [done|].
    rewrite Hlook. f_equal. apply Hinfo.
  - intros k Hk.
    set (insts := (λ vv, mkStoredInstance vv (RemoteAccessUserName cur1))
                  <$> ec2Instances).
    set (cur2 := setInstances insts (setASGName (StringValue asg) cur1)).
    match goal with
    | |- context [PrivateDNSToNodeInfo ?c !! _ = _] =>
        change (PrivateDNSToNodeInfo c)
          with (nodeInfoLoop cur2 (rangeOver insts)
                  (PrivateDNSToNodeInfo (config st0)))
    end.
    rewrite nodeInfoLoop_other; [by rewrite Hcfg|].
    intros inst Hin'. apply rangeOver_elem in Hin' as (id & Hid); [|done].
    subst insts. rewrite lookup_fmap in Hid.
    destruct (ec2Instances !! id) as [vv|] eqn:Hvv; [|done].
    injection Hid as <-. cbn [converted]. by apply (Hk id).
Qed.

(** X19: however [waitForNodes] ends, the configuration in memory is the
    one it wrote last with [Sync], or, when it wrote none, the one it
    started with: no change is left unwritten. *)
Theorem waitForNodes_synced (mngName : string) (retriesLeft : Z)
    (describes : list DescribeOutput) (running : error + gmap string Instance)
    (history : list PollTick) (st : State) :
  let st' := (waitForNodes mngName retriesLeft describes running history st).2 in
  ∃ more,
    steps st' = steps st ++ more
    ∧ match lastSynced more with
      | None => config st' = config st
      | Some written => written = config st'
      end.
Proof.
  assert (Hsetup : ∃ more,
    steps (setup mngName retriesLeft describes running st).2 = steps st ++ more
    ∧ match lastSynced more with
      | None => config (setup mngName retriesLeft describes running st).2
                = config st
      | Some written =>
          written = config (setup mngName retriesLeft describes running st).2
      end).
  { revert retriesLeft st.
    induction describes as [|dout describes IH]; intros retriesLeft st;
      cbn [setup].
    { exists []. rewrite app_nil_r. by destruct (MNGs (config st) !! mngName). }
    destruct (MNGs (config st) !! mngName) as [cur|].
    2:{ exists []. by rewrite app_nil_r. }
    set (st1 := did _ st).
    assert (Hone : ∀ o : Outcome, ∃ more,
      steps (o, st1).2 = steps st ++ more
      ∧ match lastSynced more with
        | None => config (o, st1).2 = config st
        | Some written => written = config (o, st1).2
        end).
    { intros o. eexists. split; [reflexivity|]. done. }
    destruct dout as [err|[[resources|]|]]; try apply Hone.
    destruct (AutoScalingGroups resources) as [|asg [|asg' asgs]]; try apply Hone.
    destruct (String.eqb (RemoteAccessSecurityGroupID _) EmptyString).
    - destruct (0 <? retriesLeft); [|apply Hone].
      destruct (IH (retriesLeft - 1) (did (Sleep (5 * Second)) st1))
        as (more & Hsteps & Hlast).
      exists ([DescribeNodegroup (ClusterName (config st)) (Name cur);
               Sleep (5 * Second)] ++ more).
      split.
      + rewrite Hsteps. subst st1. unfold did. cbn [steps].
        by rewrite <- !app_assoc.
      + exact Hlast.
    - rewrite recordASG_eq. cbv zeta. subst st1.
      destruct running as [err|ec2Instances]; cbn [snd];
        unfold store, did; cbn [steps config];
        (eexists; split; [rewrite <- ?app_assoc; reflexivity|]); done. }
  unfold waitForNodes. cbv zeta.
  destruct (setup mngName retriesLeft describes running st) as [[|err|cur] st'];
    cbn [snd] in *; try done.
  destruct Hsetup as (more & Hsteps & Hlast).
  destruct (Wait.waitForNodes mngName (pollView cur) history) as [|[err|]];
    cbn [snd]; try (by exists more).
  exists (more ++ [Sync (config st')]). unfold did. cbn [steps config].
  split; [by rewrite Hsteps, app_assoc|]. by rewrite lastSynced_snoc.
Qed.

End wait_setup.

Lemma setup_retries_bounded_witness :
  (WaitSetup.setup (H := plainQuote) (H0 := valuesInKeyOrder) "mng" 1
     [describedWithout; describedWith] (inr {[ "i-1" := instanceNo "1" ]})
     (WaitSetup.mkState (groupConfig EmptyString) [])).1
  ≠ WaitSetup.Unanswered.
Proof.
  destruct (setup_retries_bounded (H := plainQuote) (H0 := valuesInKeyOrder)
              "mng" 1 [describedWithout; describedWith]
              (inr {[ "i-1" := instanceNo "1" ]})
              (WaitSetup.mkState (groupConfig EmptyString) []))
    as (more & retries & _ & _ & _ & _ & Hanswered).
  apply Hanswered. reflexivity.
Defined.

Lemma waitForNodes_security_group_missing_witness :
  WaitSetup.waitForNodes (H := plainQuote) (H0 := valuesInKeyOrder) "mng"
    (Z.of_nat 2)
    ([describedWithout; describedWithout; describedWithout] ++ [describedWith])
    (inr ∅) [] (WaitSetup.mkState (groupConfig EmptyString) [])
  = (Returned (Some (WaitSetup.errNoSecurityGroup (H := plainQuote) "mng")),
     WaitSetup.mkState (groupConfig EmptyString)
       ([] ++ retrySteps "eks-test" "mng-a" 2)).
Proof.
  apply (waitForNodes_security_group_missing (H := plainQuote)
           (H0 := valuesInKeyOrder) "mng" 2
           {| WaitSetup.Name := "mng-a";
              WaitSetup.RemoteAccessUserName := "ec2-user";
              WaitSetup.RemoteAccessSecurityGroupID := EmptyString;
              WaitSetup.AMIType := "AL2_x86_64";
              WaitSetup.ASGName := EmptyString;
              WaitSetup.ASGMinSize := 1;
              WaitSetup.ASGDesiredCapacity := 1;
              WaitSetup.Instances := ∅ |}
           [describedWithout; describedWithout; describedWithout]
           [describedWith] (inr ∅) []
           (WaitSetup.mkState (groupConfig EmptyString) []));
    [reflexivity | reflexivity | reflexivity |].
  repeat apply Forall_cons_2; [| | |apply Forall_nil_2];
    by exists (Some "asg-1"), None.
Defined.

Lemma setup_records_instances_witness :
  let st := WaitSetup.mkState (groupConfig EmptyString) [] in
  let st' := (WaitSetup.setup (H := plainQuote) (H0 := valuesInKeyOrder) "mng" 1
                [describedWithout; describedWith]
                (inr {[ "i-1" := instanceNo "1" ]}) st).2 in
  WaitSetup.MNGs (WaitSetup.config st')
  = <["mng" := groupWithInstance]> (WaitSetup.MNGs (WaitSetup.config st))
  ∧ lastSynced (WaitSetup.steps st') = Some (WaitSetup.config st').
Proof.
  intros st st'.
  destruct (setup_records_instances (H := plainQuote) (H0 := valuesInKeyOrder)
              "mng" 1 [describedWithout; describedWith]
              (inr {[ "i-1" := instanceNo "1" ]}) st st' groupWithInstance)
    as (cur0 & resources & asg & ec2Instances & _ & _ & _ & _ & _ & _
        & Hgroups & Hsynced & _).
  - reflexivity.
  - by vm_compute.
  - by split.
Defined.

(** ** The cluster role step *)

Section cluster_role.
Import Hollow.
Context `{APIServer St}.

(** X20: [createRBACClusterRole] returns [nil] whatever the cluster
    answers to the create and to the update, so that the step loop of
    [Create] always goes on to the steps after it: a cluster role that
    could not be created is not reported. *)
Theorem cluster_role_refusal_unreported (rest : list (M St tester PollResult))
    (w : World St tester) :
  (createRBACClusterRole w).1 = None
  ∧ runSteps (returned createRBACClusterRole :: rest) w
    = runSteps rest (createRBACClusterRole w).2.
Proof.
  pose proof (createRBACClusterRole_nil w) as Hnil. split; [done|].
  cbn [runSteps]. unfold returned. unfold_M.
  destruct (createRBACClusterRole w) as [r w1]. cbn [fst snd] in *.
  by subst r.
Qed.

End cluster_role.
